(** * FireAPI: the estimate tooling and the HTTP facade, embedded in Rocq

    The development follows the three Python sources:
    - [example_usage.py]: [EstimateGenerator] (classifier and estimate),
    - [validate_template.py]: template validation and the sample estimate,
    - [app.py]: the Flask routes and the two fabricated predictions.

    Conventions of the embedding.
    - A Python [str] is a [string]; case mapping ([lower], [title]) acts on
      the ASCII letters and leaves every other character alone.  On ASCII
      text ([AsciiText.is_ascii]) this is Python's case mapping; Python also
      maps the letters outside ASCII, which the embedding does not, so a
      property that needs more of [lower] and [title] than their definition
      by the code's own calls is stated for ASCII text.
    - A JSON number of the template is an exact rational ([Qc]) and the
      arithmetic is exact.  The rounding of binary floating point, its
      infinities and NaN, and the [OverflowError] of an integer too large
      for a float are not modelled: a statement about a number the code
      computes reads it as the formula the code evaluates.
    - The fields of the template have the types of the published template
      (a number where the code computes, a text where it prints, a list
      where it iterates); a [TypeError] from a field of another type is
      outside the model.
    - A Python [dict] is an association list in insertion order.  The dicts
      of the template have a known schema and are records whose fields are
      options: [None] is an absent key.
    - A raised exception is the [Raise] result of a small error monad. *)

From Stdlib Require Import String Ascii List Bool ZArith QArith Qcanon Lia.
From Stdlib Require DecimalString.
Import ListNotations.
Open Scope string_scope.

(** ** Python strings *)

Module PyStr.

Definition is_upper (c : ascii) : bool :=
  let n := nat_of_ascii c in (65 <=? n)%nat && (n <=? 90)%nat.

Definition is_lower (c : ascii) : bool :=
  let n := nat_of_ascii c in (97 <=? n)%nat && (n <=? 122)%nat.

Definition to_lower (c : ascii) : ascii :=
  if is_upper c then ascii_of_nat (nat_of_ascii c + 32) else c.

Definition to_upper (c : ascii) : ascii :=
  if is_lower c then ascii_of_nat (nat_of_ascii c - 32) else c.

(** [s.lower()] *)
Fixpoint lower (s : string) : string :=
  match s with
  | EmptyString => EmptyString
  | String c s' => String (to_lower c) (lower s')
  end.

(** [s.title()]: the first letter of every run of letters is upper-cased,
    the other letters of the run are lower-cased. *)
Fixpoint title_from (previous_is_cased : bool) (s : string) : string :=
  match s with
  | EmptyString => EmptyString
  | String c s' =>
      if is_lower c then
        String (if previous_is_cased then c else to_upper c) (title_from true s')
      else if is_upper c then
        String (if previous_is_cased then to_lower c else c) (title_from true s')
      else String c (title_from false s')
  end.

Definition title (s : string) : string := title_from false s.

(** [w in s] for two strings: [w] occurs in [s] as a contiguous run. *)
Fixpoint contains (w s : string) : bool :=
  String.prefix w s ||
  match s with
  | EmptyString => false
  | String _ s' => contains w s'
  end.

(** The mathematical reading of [w in s]. *)
Definition occurs_in (w s : string) : Prop :=
  exists before after, s = before ++ w ++ after.

(** [not s] for a string *)
Definition is_empty (s : string) : bool :=
  match s with EmptyString => true | _ => false end.

End PyStr.

(** ** The input classifier ([EstimateGenerator.parse_natural_language]) *)

Module Classifier.
Import PyStr.

Record Params := mkParams {
  kitchen_size : string;
  scope : string;
  quality_tier : string
}.

(** [any(word in description for word in words)] *)
Definition any_word_in (words : list string) (description : string) : bool :=
  existsb (fun word => contains word description) words.

Definition size_small_words := ["small"; "galley"; "tiny"].
Definition size_large_words := ["large"; "big"; "spacious"].
Definition size_xl_words := ["xl"; "luxury"; "massive"].
Definition scope_cosmetic_words := ["cosmetic"; "refresh"; "update"; "paint"; "reface"].
Definition scope_gut_words := ["gut"; "complete"; "full"; "tear down"; "rebuild"].
Definition quality_budget_words := ["budget"; "cheap"; "basic"; "affordable"].
Definition quality_luxury_words := ["luxury"; "high-end"; "premium"; "custom"].
Definition quality_high_words := ["high"; "nice"; "good quality"].

Definition parse_natural_language (description : string) : Params :=
  let description := lower description in
  let kitchen_size :=
    if any_word_in size_small_words description then "small"
    else if any_word_in size_large_words description then "large"
    else if any_word_in size_xl_words description then "xl"
    else "medium" in
  let scope :=
    if any_word_in scope_cosmetic_words description then "cosmetic"
    else if any_word_in scope_gut_words description then "gut_renovation"
    else "standard" in
  let quality :=
    if any_word_in quality_budget_words description then "budget"
    else if any_word_in quality_luxury_words description then "luxury"
    else if any_word_in quality_high_words description then "high_end"
    else "mid_range" in
  {| kitchen_size := kitchen_size; scope := scope; quality_tier := quality |}.

(** The default triple *)
Definition default_params : Params :=
  {| kitchen_size := "medium"; scope := "standard"; quality_tier := "mid_range" |}.

(** Every keyword the classifier looks for. *)
Definition recognized_keywords : list string :=
  size_small_words ++ size_large_words ++ size_xl_words ++
  scope_cosmetic_words ++ scope_gut_words ++
  quality_budget_words ++ quality_luxury_words ++ quality_high_words.

Definition scenario_2 : string :=
  "Complete gut renovation of large luxury kitchen with custom everything".

End Classifier.

(** ** Python exceptions *)

Inductive exn :=
| KeyError (key : string)
| AttributeError (attribute : string)
| TypeError (message : string)
| ZeroDivisionError.

Inductive result (A : Type) :=
| Ok (a : A)
| Raise (e : exn).
Arguments Ok {A} a.
Arguments Raise {A} e.

Definition bind {A B : Type} (r : result A) (k : A -> result B) : result B :=
  match r with
  | Ok a => k a
  | Raise e => Raise e
  end.

Declare Scope py_scope.
Delimit Scope py_scope with py.
Notation "x <- r ;; k" := (bind r (fun x => k))
  (at level 61, r at next level, right associativity) : py_scope.
Notation "r ;;; k" := (bind r (fun _ => k))
  (at level 61, right associativity) : py_scope.

(** ** JSON values and dicts *)

#[local] Set Warnings "-register-all".

(** A parsed JSON value.  The numbers of the requests and responses are
    integers; the views treat a number of a request like any other value
    that is not a string. *)
Inductive json :=
| JNull
| JBool (b : bool)
| JInt (n : Z)
| JStr (s : string)
| JList (l : list json)
| JDict (d : list (string * json)).

Module Dict.

Definition dict (V : Type) := list (string * V).

(** [d.get(key)], [None] when the key is absent *)
Fixpoint get {V : Type} (key : string) (d : dict V) : option V :=
  match d with
  | [] => None
  | (k, v) :: d' => if String.eqb k key then Some v else get key d'
  end.

(** [d.get(key, default)] *)
Definition get_default {V : Type} (key : string) (default : V) (d : dict V) : V :=
  match get key d with Some v => v | None => default end.

(** [d[key]] *)
Definition item {V : Type} (key : string) (d : dict V) : result V :=
  match get key d with Some v => Ok v | None => Raise (KeyError key) end.

Definition keys {V : Type} (d : dict V) : list string := map fst d.
Definition values {V : Type} (d : dict V) : list V := map snd d.

End Dict.

(** ** The HTTP facade ([app.py]) *)

Module App.
Import PyStr.

(** The reading of the clock, [datetime.datetime.now()]. *)
Record datetime := mkDatetime {
  year : nat; month : nat; day : nat;
  hour : nat; minute : nat; second : nat; microsecond : nat
}.

Fixpoint zeros (n : nat) : string :=
  match n with O => "" | S n' => String "0" (zeros n') end.

(** [%0<width>d] *)
Definition zero_padded (width n : nat) : string :=
  let digits := DecimalString.NilZero.string_of_uint (Nat.to_uint n) in
  zeros (width - String.length digits) ++ digits.

(** [datetime.isoformat()]: [YYYY-MM-DDTHH:MM:SS], followed by [.ffffff]
    when the microseconds are not zero. *)
Definition isoformat (t : datetime) : string :=
  zero_padded 4 (year t) ++ "-" ++ zero_padded 2 (month t) ++ "-" ++
  zero_padded 2 (day t) ++ "T" ++ zero_padded 2 (hour t) ++ ":" ++
  zero_padded 2 (minute t) ++ ":" ++ zero_padded 2 (second t) ++
  match microsecond t with
  | O => ""
  | us => "." ++ zero_padded 6 us
  end.

Record Service := mkService {
  url : string;
  status : string;
  description : string
}.

Definition planned (site about : string) : Service :=
  {| url := site; status := "planned"; description := about |}.

(** The service registry *)
Definition SERVICES : Dict.dict Service :=
  [ ("firebet", planned "https://firebet-production.railway.app"
       "Sports betting intelligence and predictions");
    ("firecrypto", planned "https://firecrypto-production.railway.app"
       "Cryptocurrency market intelligence and predictions");
    ("firecrm", planned "https://firecrm-production.railway.app"
       "Customer relationship management and lead intelligence");
    ("firebranding", planned "https://firebranding-production.railway.app"
       "Digital presence analysis and branding intelligence");
    ("firecontractor", planned "https://firecontractor-production.railway.app"
       "Construction project management and optimization");
    ("firefleet", planned "https://firefleet-production.railway.app"
       "Fleet logistics and route optimization");
    ("roomlens", planned "https://roomlens-production.railway.app"
       "Property analytics and real estate intelligence") ].

Definition service_json (s : Service) : json :=
  JDict [("url", JStr (url s)); ("status", JStr (status s));
         ("description", JStr (description s))].

(** [len([s for s in SERVICES.values() if s["status"] == wanted])] *)
Definition count_status (wanted : string) : Z :=
  Z.of_nat (List.length
    (filter (fun s => String.eqb (status s) wanted) (Dict.values SERVICES))).

(** A view returns a body and a status; a bare dict is a 200. *)
Definition response : Type := json * Z.

Section Views.

(** Python's [hash] on [str]: salted per process, any integer. *)
Variable hash : string -> Z.
(** The clock reading taken while the response is built. *)
Variable now : datetime.
(** The text an f-string prints for a JSON value that is not a string. *)
Variable repr : json -> string.

(** [f"{value}"] *)
Definition format (value : json) : string :=
  match value with
  | JStr s => s
  | _ => repr value
  end.

Definition home : response :=
  (JDict
    [ ("name", JStr "🔥 FireAPI - Central Intelligence Hub");
      ("version", JStr "2.0.0");
      ("description", JStr "Central hub for Fire Ventures Enterprise ecosystem");
      ("architecture",
        JStr "Hub and Spoke Model - All apps communicate through FireAPI");
      ("ecosystem", JDict
        [ ("total_services", JInt (Z.of_nat (List.length SERVICES)));
          ("available_services", JList (map JStr (Dict.keys SERVICES)));
          ("operational_services", JInt (count_status "live"));
          ("planned_services", JInt (count_status "planned")) ]);
      ("endpoints", JDict
        [ ("sports_intelligence", JStr "/sports/predict (POST)");
          ("crypto_intelligence", JStr "/crypto/predict (POST)");
          ("crm_operations", JStr "/crm/analyze (POST)");
          ("branding_analysis", JStr "/branding/analyze (POST)");
          ("service_directory", JStr "/services (GET)");
          ("health_check", JStr "/health (GET)") ]);
      ("communication_flow", JList
        [ JStr "1. Apps make requests to FireAPI";
          JStr "2. FireAPI processes with central intelligence";
          JStr "3. FireAPI returns enriched data to apps";
          JStr "4. Apps display results to users" ]);
      ("documentation", JStr "https://tgwbkzua.gensparkspace.com/");
      ("timestamp", JStr (isoformat now)) ], 200%Z).

Definition services : response :=
  (JDict
    [ ("fire_ecosystem",
        JDict (map (fun kv => (fst kv, service_json (snd kv))) SERVICES));
      ("total_services", JInt (Z.of_nat (List.length SERVICES)));
      ("central_hub", JStr "FireAPI coordinates all intelligence");
      ("architecture", JStr "Microservices communicating through central hub");
      ("service_status",
        JDict (map (fun kv => (fst kv, JStr (status (snd kv)))) SERVICES)) ],
   200%Z).

Definition health : response :=
  (JDict
    [ ("fireapi_status", JStr "healthy");
      ("timestamp", JStr (isoformat now));
      ("central_hub", JStr "operational");
      ("version", JStr "2.0.0");
      ("ecosystem", JDict
        [ ("total_services", JInt (Z.of_nat (List.length SERVICES)));
          ("live_services", JInt (count_status "live"));
          ("planned_services", JInt (count_status "planned")) ]);
      ("intelligence_modules", JList
        [ JStr "sports_prediction"; JStr "crypto_prediction";
          JStr "crm_analysis"; JStr "branding_analysis" ]) ], 200%Z).

Definition sports_confidence (team1 team2 : string) : Z :=
  (75 + hash (team1 ++ team2) mod 20)%Z.

Definition process_sports_prediction (sport : json) (team1 team2 : string)
  : Dict.dict json :=
  let confidence := sports_confidence team1 team2 in
  [ ("prediction", JStr (title team1 ++ " wins by 3-7 points"));
    ("confidence", JInt confidence);
    ("sport", sport);
    ("matchup", JStr (title team1 ++ " vs " ++ title team2));
    ("factors", JList
      [ JStr "Home field advantage analysis";
        JStr "Recent performance trends";
        JStr "Injury report impact assessment";
        JStr "Historical head-to-head data" ]);
    ("betting_recommendations", JList
      [ JStr ("Take " ++ title team1 ++ " -3 to -7");
        JStr "Consider Over on total points" ]);
    ("timestamp", JStr (isoformat now));
    ("service", JStr "FireAPI Sports Intelligence v2.0") ].

Definition crypto_confidence (coin : string) (timeframe : json) : Z :=
  (70 + hash (coin ++ format timeframe) mod 25)%Z.

Definition price_targets : Dict.dict (Dict.dict string) :=
  [ ("bitcoin", [("1h", "$43,200"); ("6h", "$44,500");
                 ("24h", "$45,000"); ("48h", "$46,800")]);
    ("ethereum", [("1h", "$2,650"); ("6h", "$2,720");
                  ("24h", "$2,800"); ("48h", "$2,900")]) ].

(** [targets.get(timeframe, "TBD")] for a JSON value used as the key: a
    list or a dict cannot be hashed, and a value that is not a string equals
    none of the keys. *)
Definition target_get (timeframe : json) (targets : Dict.dict string)
  : result string :=
  match timeframe with
  | JStr s => Ok (Dict.get_default s "TBD" targets)
  | JList _ | JDict _ => Raise (TypeError "unhashable type")
  | _ => Ok "TBD"
  end.

Definition process_crypto_prediction (coin : string) (timeframe : json)
  : result (Dict.dict json) :=
  let confidence := crypto_confidence coin timeframe in
  (price_target <- target_get timeframe (Dict.get_default coin [] price_targets) ;;
   Ok [ ("coin", JStr coin);
        ("timeframe", timeframe);
        ("prediction",
          JStr (if (75 <? confidence)%Z then "bullish" else "neutral"));
        ("price_target", JStr price_target);
        ("confidence", JInt confidence);
        ("factors", JList
          [ JStr "Technical indicator analysis";
            JStr "Market sentiment evaluation";
            JStr "Volume and liquidity assessment" ]);
        ("timestamp", JStr (isoformat now));
        ("service", JStr "FireAPI Crypto Intelligence v2.0") ])%py.

(** [data.get(key, default)] on the parsed request body: only a dict has
    a [get]. *)
Definition data_get (data : json) (key : string) (default : json) : result json :=
  match data with
  | JDict d => Ok (Dict.get_default key default d)
  | _ => Raise (AttributeError "get")
  end.

(** [value.lower()]: only a [str] has a [lower]. *)
Definition value_lower (value : json) : result string :=
  match value with
  | JStr s => Ok (lower s)
  | _ => Raise (AttributeError "lower")
  end.

Definition team_error : response :=
  (JDict [("error", JStr "Both team1 and team2 are required")], 400%Z).

(** The body of the [try] of [sports_predict].  The two logging calls
    write to the log only and are left out. *)
Definition sports_predict_try (data : json) : result response :=
  (sport <- data_get data "sport" (JStr "nfl") ;;
   team1_value <- data_get data "team1" (JStr "") ;;
   team1 <- value_lower team1_value ;;
   team2_value <- data_get data "team2" (JStr "") ;;
   team2 <- value_lower team2_value ;;
   app_id <- data_get data "app_id" (JStr "unknown") ;;
   user_id <- data_get data "user_id" (JStr "anonymous") ;;
   if is_empty team1 || is_empty team2 then Ok team_error
   else
     let prediction := process_sports_prediction sport team1 team2 in
     Ok (JDict prediction, 200%Z))%py.

(** [POST /sports/predict]; [data] is [request.json]. *)
Definition sports_predict (data : json) : response :=
  match sports_predict_try data with
  | Ok r => r
  | Raise _ =>
      (JDict [("error", JStr "Sports intelligence temporarily unavailable")],
       500%Z)
  end.

(** The body of the [try] of [crypto_predict], logging left out. *)
Definition crypto_predict_try (data : json) : result response :=
  (coin_value <- data_get data "coin" (JStr "bitcoin") ;;
   coin <- value_lower coin_value ;;
   timeframe <- data_get data "timeframe" (JStr "24h") ;;
   app_id <- data_get data "app_id" (JStr "unknown") ;;
   user_id <- data_get data "user_id" (JStr "anonymous") ;;
   prediction <- process_crypto_prediction coin timeframe ;;
   Ok (JDict prediction, 200%Z))%py.

(** [POST /crypto/predict] *)
Definition crypto_predict (data : json) : response :=
  match crypto_predict_try data with
  | Ok r => r
  | Raise _ =>
      (JDict [("error", JStr "Crypto intelligence temporarily unavailable")],
       500%Z)
  end.

End Views.

(** The field [key] of a response body *)
Definition body_field (key : string) (r : response) : option json :=
  match fst r with
  | JDict d => Dict.get key d
  | _ => None
  end.

(** How a request body stands with respect to a team field: absent or the
    empty string; present and not empty; a string whenever present. *)
Definition team_missing (d : Dict.dict json) (key : string) : Prop :=
  Dict.get key d = None \/ Dict.get key d = Some (JStr "").

Definition team_given (d : Dict.dict json) (key name : string) : Prop :=
  Dict.get key d = Some (JStr name) /\ name <> "".

Definition team_is_text_if_present (d : Dict.dict json) (key : string) : Prop :=
  Dict.get key d = None \/ exists name, Dict.get key d = Some (JStr name).

(** A hash, a clock reading and requests for the examples. *)
Definition sample_hash (s : string) : Z := (Z.of_nat (String.length s) - 40)%Z.
Definition sample_now : datetime := mkDatetime 2024 3 9 14 5 7 120.

Definition request_empty_team1_number_team2 : json :=
  JDict [("team1", JStr ""); ("team2", JInt 5)].

End App.

(** ** The trade template (the JSON document both tools read) *)

Module Template.

Record Task := mkTask {
  task : option string;
  labor_hours : option Qc;
  hourly_rate_category : option string
}.

Record Material := mkMaterial {
  item : option string;
  quantity : option Qc;
  unit : option string;
  unit_cost_base : option Qc;
  waste_factor : option Qc
}.

Record Phase := mkPhase {
  phase_id : option string;
  phase_name : option string;
  sequence : option Z;
  tasks : option (list Task);
  materials : option (list Material)
}.

Record LaborRate := mkLaborRate {
  typical : option Qc
}.

(** The value under "phases_included": the text "all", or a list of phase
    identifiers. *)
Inductive PhasesIncluded :=
| PhaseText (text : string)
| PhaseList (ids : list string).

(** [size_other_keys] and [scope_other_keys] name the keys of the dict the
    tools never read; they matter to [not size_factor] only. *)
Record SizeFactor := mkSizeFactor {
  size_complexity_multiplier : option Qc;
  size_other_keys : list string
}.

Record ScopeFactor := mkScopeFactor {
  scope_complexity_multiplier : option Qc;
  phases_included : option PhasesIncluded;
  scope_other_keys : list string
}.

Record QualityFactor := mkQualityFactor {
  material_multiplier : option Qc
}.

Record SizingFactors := mkSizingFactors {
  kitchen_size : option (Dict.dict SizeFactor);
  renovation_scope : option (Dict.dict ScopeFactor)
}.

Record Template := mkTemplate {
  job_id : option string;
  trade_category : option string;
  job_name : option string;
  description : option string;
  phases : option (list Phase);
  labor_rates : option (Dict.dict LaborRate);
  sizing_factors : option SizingFactors;
  quality_tiers : option (Dict.dict QualityFactor);
  common_complications : option (list string);
  other_keys : list string
}.

(** [d[name]] for a field of a record: [KeyError] when it is absent. *)
Definition key {A : Type} (name : string) (field : option A) : result A :=
  match field with
  | Some a => Ok a
  | None => Raise (KeyError name)
  end.

(** [d.get(name, default)] for a field of a record *)
Definition get {A : Type} (field : option A) (default : A) : A :=
  match field with
  | Some a => a
  | None => default
  end.

Definition present {A : Type} (field : option A) : bool :=
  match field with Some _ => true | None => false end.

(** [field in template] *)
Definition template_has (template : Template) (field : string) : bool :=
  if String.eqb field "job_id" then present (job_id template)
  else if String.eqb field "trade_category" then present (trade_category template)
  else if String.eqb field "job_name" then present (job_name template)
  else if String.eqb field "description" then present (description template)
  else if String.eqb field "phases" then present (phases template)
  else if String.eqb field "labor_rates" then present (labor_rates template)
  else if String.eqb field "sizing_factors" then present (sizing_factors template)
  else if String.eqb field "quality_tiers" then present (quality_tiers template)
  else if String.eqb field "common_complications"
    then present (common_complications template)
  else existsb (String.eqb field) (other_keys template).

(** [field in phase] *)
Definition phase_has (phase : Phase) (field : string) : bool :=
  if String.eqb field "phase_id" then present (phase_id phase)
  else if String.eqb field "phase_name" then present (phase_name phase)
  else if String.eqb field "sequence" then present (sequence phase)
  else if String.eqb field "tasks" then present (tasks phase)
  else if String.eqb field "materials" then present (materials phase)
  else false.

(** [not template]: the dict has no key at all. *)
Definition template_is_empty (template : Template) : bool :=
  negb (present (job_id template) || present (trade_category template)
        || present (job_name template) || present (description template)
        || present (phases template) || present (labor_rates template)
        || present (sizing_factors template) || present (quality_tiers template)
        || present (common_complications template))
  && match other_keys template with [] => true | _ => false end.

(** [not size_factor] *)
Definition size_factor_is_empty (size_factor : SizeFactor) : bool :=
  negb (present (size_complexity_multiplier size_factor))
  && match size_other_keys size_factor with [] => true | _ => false end.

(** [not scope_factor] *)
Definition scope_factor_is_empty (scope_factor : ScopeFactor) : bool :=
  negb (present (scope_complexity_multiplier scope_factor)
        || present (phases_included scope_factor))
  && match scope_other_keys scope_factor with [] => true | _ => false end.

(** The empty dict [{}] *)
Definition no_size_factor : SizeFactor := mkSizeFactor None [].
Definition no_scope_factor : ScopeFactor := mkScopeFactor None None [].

(** [phases_included == 'all'] *)
Definition is_all (included : PhasesIncluded) : bool :=
  match included with
  | PhaseText text => String.eqb text "all"
  | PhaseList _ => false
  end.

(** [identifier in phases_included]: membership in a list, occurrence in a
    text. *)
Definition id_in (identifier : string) (included : PhasesIncluded) : bool :=
  match included with
  | PhaseText text => PyStr.contains identifier text
  | PhaseList ids => existsb (String.eqb identifier) ids
  end.

(** [[p for p in phases if p['phase_id'] in phases_included]] *)
Fixpoint phases_in (included : PhasesIncluded) (phases : list Phase)
  : result (list Phase) :=
  match phases with
  | [] => Ok []
  | p :: rest =>
      (identifier <- key "phase_id" (phase_id p) ;;
       kept <- phases_in included rest ;;
       Ok (if id_in identifier included then p :: kept else kept))%py
  end.

(** The selection of the included phases, written the same way in
    [generate_estimate] and in [calculate_sample_estimate]:
    [[
    phases_included = scope_factor.get('phases_included', 'all')
    if phases_included == 'all':
        included_phases = template['phases']
    else:
        included_phases = [p for p in template['phases']
                           if p['phase_id'] in phases_included]
    ]] *)
Definition included_phases (template : Template) (scope_factor : ScopeFactor)
  : result (list Phase) :=
  let phases_included := get (phases_included scope_factor) (PhaseText "all") in
  if is_all phases_included then key "phases" (phases template)
  else
    (all_phases <- key "phases" (phases template) ;;
     phases_in phases_included all_phases)%py.

(** [quantity * unit_cost * (1 + waste_factor)], absent numbers read as 0 *)
Definition material_line_cost (material : Material) : Qc :=
  let quantity := get (quantity material) 0 in
  let unit_cost := get (unit_cost_base material) 0 in
  let waste_factor := get (waste_factor material) 0 in
  quantity * unit_cost * (1 + waste_factor).

End Template.

(** The totals both estimate entry points return. *)
Module Totals.
Record t := mk {
  labor_hours : Qc;
  labor_cost : Qc;
  material_cost : Qc;
  total_cost : Qc
}.
End Totals.

(** ** [validate_template.py] *)

Module Validate.
Import Template.

(** The diagnostics the validation prints. *)
Inductive message :=
| MissingRequiredFields (missing_fields : list string)
| AllRequiredFieldsPresent
| PhasesMustBeNonEmptyList
| PhaseMissingFields (i : nat) (missing : list string)
| PhasesValidated (count total_tasks total_materials : nat).

Definition required_fields : list string :=
  [ "job_id"; "trade_category"; "job_name"; "description";
    "phases"; "labor_rates"; "sizing_factors" ].

Definition validate_template_structure (template : Template)
  : bool * list message :=
  let missing_fields :=
    filter (fun field => negb (template_has template field)) required_fields in
  match missing_fields with
  | _ :: _ => (false, [MissingRequiredFields missing_fields])
  | [] => (true, [AllRequiredFieldsPresent])
  end.

Definition required_phase_fields : list string :=
  [ "phase_id"; "phase_name"; "sequence"; "tasks"; "materials" ].

(** The loop of [validate_phases] from phase number [i] on: the first
    phase with a missing field ends it. *)
Fixpoint validate_phases_loop (i : nat) (phases : list Phase)
    (total_tasks total_materials : nat) : (nat * list string) + (nat * nat) :=
  match phases with
  | [] => inr (total_tasks, total_materials)
  | phase :: rest =>
      let missing :=
        filter (fun field => negb (phase_has phase field)) required_phase_fields in
      match missing with
      | _ :: _ => inl (i, missing)
      | [] =>
          validate_phases_loop (S i) rest
            (total_tasks + List.length (get (tasks phase) []))
            (total_materials + List.length (get (materials phase) []))
      end
  end.

(** [phases] is the list under "phases"; the [isinstance] test holds of
    it by its type. *)
Definition validate_phases (phases : list Phase) : bool * list message :=
  match phases with
  | [] => (false, [PhasesMustBeNonEmptyList])
  | _ =>
      match validate_phases_loop 1 phases 0 0 with
      | inl (i, missing) => (false, [PhaseMissingFields i missing])
      | inr (total_tasks, total_materials) =>
          (true, [PhasesValidated (List.length phases) total_tasks total_materials])
      end
  end.

(** A phase that has the five required fields, and the required fields a
    phase lacks. *)
Definition phase_complete (phase : Phase) : Prop :=
  forall field, In field required_phase_fields -> phase_has phase field = true.


(** The sums of one phase in [calculate_sample_estimate] *)
Definition phase_labor_hours (phase : Phase) : Qc :=
  fold_left (fun phase_labor_hours task =>
               phase_labor_hours + get (labor_hours task) 0)
            (get (tasks phase) []) 0.

Definition phase_material_cost (phase : Phase) : Qc :=
  fold_left (fun phase_material_cost material =>
               phase_material_cost + material_line_cost material)
            (get (materials phase) []) 0.

(** [for phase in included_phases]: the two running totals; the report
    line of a phase reads its "sequence" and its "phase_name". *)
Fixpoint sum_phases (included_phases : list Phase)
    (total_labor_hours total_material_cost : Qc) : result (Qc * Qc) :=
  match included_phases with
  | [] => Ok (total_labor_hours, total_material_cost)
  | phase :: rest =>
      (key "sequence" (sequence phase) ;;;
       key "phase_name" (phase_name phase) ;;;
       sum_phases rest
         (total_labor_hours + phase_labor_hours phase)
         (total_material_cost + phase_material_cost phase))%py
  end.

(** [calculate_sample_estimate(template, kitchen_size, scope)]; the result
    [Ok None] is Python's [return None].  Of the printing, only the keys it
    reads are kept. *)
Definition calculate_sample_estimate (template : Template)
    (kitchen_size scope : string) : result (option Totals.t) :=
  (sizing_factors <- key "sizing_factors" (sizing_factors template) ;;
   sizes <- key "kitchen_size" (Template.kitchen_size sizing_factors) ;;
   let size_factor := Dict.get_default kitchen_size no_size_factor sizes in
   scopes <- key "renovation_scope" (renovation_scope sizing_factors) ;;
   let scope_factor := Dict.get_default scope no_scope_factor scopes in
   if size_factor_is_empty size_factor || scope_factor_is_empty scope_factor
   then Ok None
   else
     included_phases <- included_phases template scope_factor ;;
     labor_rates <- key "labor_rates" (labor_rates template) ;;
     totals <- sum_phases included_phases 0 0 ;;
     let total_labor_hours := fst totals in
     let total_material_cost := snd totals in
     let complexity_multiplier :=
       get (size_complexity_multiplier size_factor) 1
       * get (scope_complexity_multiplier scope_factor) 1 in
     let adjusted_labor_hours := total_labor_hours * complexity_multiplier in
     let adjusted_material_cost := total_material_cost * complexity_multiplier in
     skilled <- Dict.item "skilled" labor_rates ;;
     typical_rate <- key "typical" (typical skilled) ;;
     let total_labor_cost := adjusted_labor_hours * typical_rate in
     Ok (Some {| Totals.labor_hours := adjusted_labor_hours;
                 Totals.labor_cost := total_labor_cost;
                 Totals.material_cost := adjusted_material_cost;
                 Totals.total_cost := total_labor_cost + adjusted_material_cost |}))%py.

(** How a run of [main] ends. *)
Inductive outcome :=
| Exit (code : Z)
| Uncaught (e : exn)
| Completed.

Definition scenarios : list (string * string) :=
  [ ("small", "cosmetic"); ("medium", "standard"); ("large", "gut_renovation") ].

(** [for size, scope in scenarios: calculate_sample_estimate(...)] *)
Fixpoint run_scenarios (template : Template) (todo : list (string * string))
  : result Datatypes.unit :=
  match todo with
  | [] => Ok tt
  | (size, scope) :: rest =>
      (calculate_sample_estimate template size scope ;;;
       run_scenarios template rest)%py
  end.

(** [main()]; [loaded] is what [load_template] returned, [None] when the
    file could not be read or parsed.  The result is the diagnostics of the
    validation in the order printed, and how the run ends.  The summary at
    the end reads keys the validation has found present. *)
Definition main (loaded : option Template) : list message * outcome :=
  match loaded with
  | None => ([], Exit 1)
  | Some template =>
      if template_is_empty template then ([], Exit 1)
      else
        let (structure_ok, printed) := validate_template_structure template in
        if negb structure_ok then (printed, Exit 1)
        else
          match key "phases" (phases template) with
          | Raise e => (printed, Uncaught e)
          | Ok phases =>
              let (phases_ok, printed') := validate_phases phases in
              if negb phases_ok then ((printed ++ printed')%list, Exit 1)
              else
                match run_scenarios template scenarios with
                | Raise e => ((printed ++ printed')%list, Uncaught e)
                | Ok _ => ((printed ++ printed')%list, Completed)
                end
          end
  end.

End Validate.

(** ** [example_usage.py]: [EstimateGenerator] *)

Module EstimateGenerator.
Import Template.

Inductive LineItem :=
| LaborItem (phase description : string) (hours rate total_cost : Qc)
| MaterialItem (phase description : string) (quantity : Qc) (unit : string)
    (unit_cost waste_factor total_cost : Qc).

(** [item['category']] *)
Definition category (line : LineItem) : string :=
  match line with
  | LaborItem _ _ _ _ _ => "labor"
  | MaterialItem _ _ _ _ _ _ _ => "material"
  end.

(** [item['hours']], a key of the labor items only *)
Definition hours (line : LineItem) : result Qc :=
  match line with
  | LaborItem _ _ hours _ _ => Ok hours
  | MaterialItem _ _ _ _ _ _ _ => Raise (KeyError "hours")
  end.

(** [item['total_cost']] *)
Definition total_cost (line : LineItem) : Qc :=
  match line with
  | LaborItem _ _ _ _ total_cost => total_cost
  | MaterialItem _ _ _ _ _ _ total_cost => total_cost
  end.

(** [item['phase']] and [item['description']] *)
Definition line_phase (line : LineItem) : string :=
  match line with
  | LaborItem phase _ _ _ _ => phase
  | MaterialItem phase _ _ _ _ _ _ => phase
  end.

Definition line_description (line : LineItem) : string :=
  match line with
  | LaborItem _ description _ _ _ => description
  | MaterialItem _ description _ _ _ _ _ => description
  end.

(** A line as (phase name, description) *)
Definition line_key (line : LineItem) : string * string :=
  (line_phase line, line_description line).

Record Estimate := mkEstimate {
  line_items : list LineItem;
  totals : Totals.t
}.

(** [self.template['labor_rates'][task.get('hourly_rate_category',
    'skilled')]['typical']] *)
Definition task_rate (template : Template) (task : Task) : result Qc :=
  (labor_rates <- key "labor_rates" (labor_rates template) ;;
   rate <- Dict.item (get (hourly_rate_category task) "skilled") labor_rates ;;
   key "typical" (typical rate))%py.

(** [for task in phase.get('tasks', []): items.append({...})] *)
Fixpoint labor_items (template : Template) (phase : Phase) (tasks : list Task)
  : result (list LineItem) :=
  match tasks with
  | [] => Ok []
  | task :: rest =>
      (phase_name <- key "phase_name" (phase_name phase) ;;
       description <- key "task" (Template.task task) ;;
       let hours := get (labor_hours task) 0 in
       rate <- task_rate template task ;;
       rate' <- task_rate template task ;;
       items <- labor_items template phase rest ;;
       Ok (LaborItem phase_name description hours rate (hours * rate') :: items))%py
  end.

(** [for material in phase.get('materials', []): items.append({...})] *)
Fixpoint material_items (phase : Phase) (materials : list Material)
  : result (list LineItem) :=
  match materials with
  | [] => Ok []
  | material :: rest =>
      let quantity := get (quantity material) 0 in
      let unit_cost := get (unit_cost_base material) 0 in
      let waste_factor := get (waste_factor material) 0 in
      (phase_name <- key "phase_name" (phase_name phase) ;;
       description <- key "item" (item material) ;;
       items <- material_items phase rest ;;
       Ok (MaterialItem phase_name description quantity
             (get (unit material) "each") unit_cost waste_factor
             (quantity * unit_cost * (1 + waste_factor)) :: items))%py
  end.

(** [_process_phase(self, phase, params, size_factor, quality_factor)] *)
Definition _process_phase (template : Template) (phase : Phase)
    (params : Classifier.Params) (size_factor : SizeFactor)
    (quality_factor : QualityFactor) : result (list LineItem) :=
  (labor <- labor_items template phase (get (tasks phase) []) ;;
   material <- material_items phase (get (materials phase) []) ;;
   Ok (labor ++ material)%list)%py.

(** [for item in phase_items]: the two running totals *)
Fixpoint add_items (phase_items : list LineItem)
    (total_labor_hours total_material_cost : Qc) : result (Qc * Qc) :=
  match phase_items with
  | [] => Ok (total_labor_hours, total_material_cost)
  | line :: rest =>
      if String.eqb (category line) "labor" then
        (h <- hours line ;;
         add_items rest (total_labor_hours + h) total_material_cost)%py
      else
        add_items rest total_labor_hours (total_material_cost + total_cost line)
  end.

(** [for phase in included_phases] *)
Fixpoint process_phases (template : Template) (params : Classifier.Params)
    (size_factor : SizeFactor) (quality_factor : QualityFactor)
    (included_phases : list Phase)
    (line_items : list LineItem) (total_labor_hours total_material_cost : Qc)
  : result (list LineItem * (Qc * Qc)) :=
  match included_phases with
  | [] => Ok (line_items, (total_labor_hours, total_material_cost))
  | phase :: rest =>
      (phase_items <- _process_phase template phase params size_factor quality_factor ;;
       sums <- add_items phase_items total_labor_hours total_material_cost ;;
       process_phases template params size_factor quality_factor rest
         (line_items ++ phase_items)%list (fst sums) (snd sums))%py
  end.

(** [_print_detailed_estimate]: the printing itself is left out; the
    summary divides the material cost by the quality multiplier. *)
Definition _print_detailed_estimate (line_items : list LineItem)
    (material_cost quality_multiplier : Qc) : result Datatypes.unit :=
  if Qc_eq_bool quality_multiplier 0 then Raise ZeroDivisionError else Ok tt.

(** The body of [generate_estimate] once the description is parsed. *)
Definition generate_estimate_for (template : Template) (params : Classifier.Params)
  : result Estimate :=
  (sizing_factors <- key "sizing_factors" (sizing_factors template) ;;
   sizes <- key "kitchen_size" (Template.kitchen_size sizing_factors) ;;
   size_factor <- Dict.item (Classifier.kitchen_size params) sizes ;;
   sizing_factors <- key "sizing_factors" (Template.sizing_factors template) ;;
   scopes <- key "renovation_scope" (renovation_scope sizing_factors) ;;
   scope_factor <- Dict.item (Classifier.scope params) scopes ;;
   quality_tiers <- key "quality_tiers" (quality_tiers template) ;;
   quality_factor <- Dict.item (Classifier.quality_tier params) quality_tiers ;;
   included_phases <- included_phases template scope_factor ;;
   processed <- process_phases template params size_factor quality_factor
                  included_phases [] 0 0 ;;
   let line_items := fst processed in
   let total_labor_hours := fst (snd processed) in
   let total_material_cost := snd (snd processed) in
   size_complexity <-
     key "complexity_multiplier" (size_complexity_multiplier size_factor) ;;
   scope_complexity <-
     key "complexity_multiplier" (scope_complexity_multiplier scope_factor) ;;
   let complexity := size_complexity * scope_complexity in
   let adjusted_hours := total_labor_hours * complexity in
   quality_multiplier <- key "material_multiplier" (material_multiplier quality_factor) ;;
   let adjusted_materials := total_material_cost * quality_multiplier in
   labor_rates <- key "labor_rates" (labor_rates template) ;;
   skilled <- Dict.item "skilled" labor_rates ;;
   labor_rate <- key "typical" (typical skilled) ;;
   let labor_cost := adjusted_hours * labor_rate in
   let total_cost := labor_cost + adjusted_materials in
   quality_multiplier' <- key "material_multiplier" (material_multiplier quality_factor) ;;
   _print_detailed_estimate line_items adjusted_materials quality_multiplier' ;;;
   Ok {| line_items := line_items;
         totals := {| Totals.labor_hours := adjusted_hours;
                      Totals.labor_cost := labor_cost;
                      Totals.material_cost := adjusted_materials;
                      Totals.total_cost := total_cost |} |})%py.

(** [generate_estimate(self, natural_language_input)] *)
Definition generate_estimate (template : Template)
    (natural_language_input : string) : result Estimate :=
  let params := Classifier.parse_natural_language natural_language_input in
  generate_estimate_for template params.

End EstimateGenerator.

(** ** The estimate in the words of the specification *)

Module EstimateSpec.
Import Template.

Definition sum_of (numbers : list Qc) : Qc := fold_right Qcplus 0 numbers.

Definition all_tasks (included : list Phase) : list Task :=
  flat_map (fun phase => get (tasks phase) []) included.

Definition all_materials (included : list Phase) : list Material :=
  flat_map (fun phase => get (materials phase) []) included.

(** sum of task labor_hours over all included phases *)
Definition task_hours_sum (included : list Phase) : Qc :=
  sum_of (map (fun task => get (labor_hours task) 0) (all_tasks included)).

(** sum over included materials of quantity x unit_cost_base x
    (1 + waste_factor) *)
Definition raw_material_sum (included : list Phase) : Qc :=
  sum_of (map (fun material =>
                 get (quantity material) 0 * get (unit_cost_base material) 0
                 * (1 + get (waste_factor material) 0))
              (all_materials included)).

(** the phases whose phase_id belongs to the subset, in template order *)
Definition phases_of_subset (ids : list string) (phases : list Phase) : list Phase :=
  filter (fun phase =>
            match phase_id phase with
            | Some identifier => existsb (String.eqb identifier) ids
            | None => false
            end) phases.

(** [struck_from kept all]: [kept] is what remains of [all], in the same
    order, when some of its elements are struck. *)
Inductive struck_from {A : Type} : list A -> list A -> Prop :=
| struck_nil : struck_from [] []
| struck_keep x kept all : struck_from kept all -> struck_from (x :: kept) (x :: all)
| struck_drop x kept all : struck_from kept all -> struck_from kept (x :: all).

(** The line items of the included phases in template order: for every
    phase its tasks, then its materials, each as (phase name, description). *)
Definition expected_lines (included : list Phase) : list (string * string) :=
  flat_map (fun phase =>
              map (fun t => (get (phase_name phase) "", get (task t) ""))
                  (get (tasks phase) [])
              ++ map (fun material =>
                        (get (phase_name phase) "", get (item material) ""))
                     (get (materials phase) []))%list
           included.

(** The factors a (size, scope, quality) triple resolves to. *)
Definition size_factor_of (template : Template) (size : string) : option SizeFactor :=
  match sizing_factors template with
  | Some factors =>
      match kitchen_size factors with
      | Some sizes => Dict.get size sizes
      | None => None
      end
  | None => None
  end.

Definition scope_factor_of (template : Template) (scope : string) : option ScopeFactor :=
  match sizing_factors template with
  | Some factors =>
      match renovation_scope factors with
      | Some scopes => Dict.get scope scopes
      | None => None
      end
  | None => None
  end.

Definition quality_factor_of (template : Template) (quality : string)
  : option QualityFactor :=
  match quality_tiers template with
  | Some tiers => Dict.get quality tiers
  | None => None
  end.

(** labor_rates.skilled.typical *)
Definition typical_skilled_rate (template : Template) : option Qc :=
  match labor_rates template with
  | Some rates =>
      match Dict.get "skilled" rates with
      | Some rate => typical rate
      | None => None
      end
  | None => None
  end.

(** What the parameters resolve to in a template: the two complexity
    multipliers, the typical skilled rate and the included phases. *)
Record Factors := mkFactors {
  size_complexity : Qc;
  scope_complexity : Qc;
  typical_rate : Qc;
  included : list Phase
}.

(** Resolution as [generate_estimate] does it: every key is required;
    [quality_multiplier] is the material_multiplier of the quality tier. *)
Definition generate_factors (template : Template) (params : Classifier.Params)
    (factors : Factors) (quality_multiplier : Qc) : Prop :=
  exists size_factor scope_factor quality_factor,
    size_factor_of template (Classifier.kitchen_size params) = Some size_factor
    /\ scope_factor_of template (Classifier.scope params) = Some scope_factor
    /\ quality_factor_of template (Classifier.quality_tier params)
       = Some quality_factor
    /\ size_complexity_multiplier size_factor = Some (size_complexity factors)
    /\ scope_complexity_multiplier scope_factor = Some (scope_complexity factors)
    /\ material_multiplier quality_factor = Some quality_multiplier
    /\ typical_skilled_rate template = Some (typical_rate factors)
    /\ included_phases template scope_factor = Ok (included factors).

(** Resolution as [calculate_sample_estimate] does it: there is no quality
    tier, and an absent complexity_multiplier counts as 1. *)
Definition sample_factors (template : Template) (size scope : string)
    (factors : Factors) : Prop :=
  exists size_factor scope_factor,
    size_factor_of template size = Some size_factor
    /\ scope_factor_of template scope = Some scope_factor
    /\ get (size_complexity_multiplier size_factor) 1 = size_complexity factors
    /\ get (scope_complexity_multiplier scope_factor) 1 = scope_complexity factors
    /\ typical_skilled_rate template = Some (typical_rate factors)
    /\ included_phases template scope_factor = Ok (included factors).

(** What [generate_estimate] needs of a phase to emit its lines: a
    "phase_name" unless the phase is empty, a "task" text and a known rate
    for every task, an "item" text for every material. *)
Definition phase_billable (template : Template) (phase : Phase) : Prop :=
  (phase_name phase <> None
   \/ (get (tasks phase) [] = [] /\ get (materials phase) [] = []))
  /\ (forall t, In t (get (tasks phase) []) ->
        task t <> None
        /\ exists rate, EstimateGenerator.task_rate template t = Ok rate)
  /\ (forall m, In m (get (materials phase) []) -> item m <> None).

(** What [calculate_sample_estimate] needs of a phase for its report. *)
Definition phase_reportable (phase : Phase) : Prop :=
  sequence phase <> None /\ phase_name phase <> None.

(** The template with other quality tiers, everything else unchanged. *)
Definition with_quality_tiers (template : Template)
    (tiers : option (Dict.dict QualityFactor)) : Template :=
  {| job_id := job_id template;
     trade_category := trade_category template;
     job_name := job_name template;
     description := description template;
     phases := phases template;
     labor_rates := labor_rates template;
     sizing_factors := sizing_factors template;
     quality_tiers := tiers;
     common_complications := common_complications template;
     other_keys := other_keys template |}.

(** adjusted labor cost = (sum of task hours) x size complexity x scope
    complexity x typical labor rate *)
Definition adjusted_labor_cost (factors : Factors) : Qc :=
  task_hours_sum (included factors) * size_complexity factors
  * scope_complexity factors * typical_rate factors.

End EstimateSpec.

(** ** A small template for the examples *)

Module Sample.
Import Template.

Definition num (n : Z) (d : positive) : Qc := Q2Qc (n # d).

Definition demolition : Phase :=
  {| phase_id := Some "demolition"; phase_name := Some "Demolition";
     sequence := Some 1%Z;
     tasks := Some
       [ mkTask (Some "Remove old cabinets") (Some (num 8 1)) (Some "skilled");
         mkTask (Some "Haul debris") (Some (num 9 2)) (Some "general") ];
     materials := Some
       [ mkMaterial (Some "Dumpster rental") (Some (num 1 1)) (Some "each")
           (Some (num 450 1)) None ] |}.

Definition cabinets : Phase :=
  {| phase_id := Some "cabinets"; phase_name := Some "Cabinet Installation";
     sequence := Some 2%Z;
     tasks := Some
       [ mkTask (Some "Install base and wall cabinets") (Some (num 24 1)) None ];
     materials := Some
       [ mkMaterial (Some "Base cabinets") (Some (num 12 1)) (Some "linear_ft")
           (Some (num 180 1)) (Some (num 1 20));
         mkMaterial (Some "Cabinet hardware") (Some (num 30 1)) None
           (Some (num 6 1)) (Some (num 1 10)) ] |}.

Definition painting : Phase :=
  {| phase_id := Some "painting"; phase_name := Some "Painting";
     sequence := Some 3%Z;
     tasks := Some [ mkTask (Some "Paint walls and trim") (Some (num 10 1)) None ];
     materials := Some
       [ mkMaterial (Some "Paint") (Some (num 3 1)) (Some "gallon")
           (Some (num 45 1)) (Some (num 1 10)) ] |}.

Definition kitchen : Template :=
  {| job_id := Some "kitchen_renovation_complete";
     trade_category := Some "multi_trade";
     job_name := Some "Complete Kitchen Renovation";
     description := Some "Kitchen renovation from demolition to finish";
     phases := Some [demolition; cabinets; painting];
     labor_rates := Some
       [ ("general", mkLaborRate (Some (num 40 1)));
         ("skilled", mkLaborRate (Some (num 65 1))) ];
     sizing_factors := Some
       {| kitchen_size := Some
            [ ("small", mkSizeFactor (Some (num 4 5)) ["sq_ft_range"]);
              ("medium", mkSizeFactor (Some (num 1 1)) ["sq_ft_range"]);
              ("large", mkSizeFactor (Some (num 13 10)) ["sq_ft_range"]);
              ("xl", mkSizeFactor (Some (num 8 5)) ["sq_ft_range"]) ];
          renovation_scope := Some
            [ ("cosmetic",
               mkScopeFactor (Some (num 3 5))
                 (Some (PhaseList ["painting"; "cabinets"])) []);
              ("standard", mkScopeFactor (Some (num 1 1)) None []);
              ("gut_renovation",
               mkScopeFactor (Some (num 3 2)) (Some (PhaseText "all")) []) ] |};
     quality_tiers := Some
       [ ("budget", mkQualityFactor (Some (num 7 10)));
         ("mid_range", mkQualityFactor (Some (num 1 1)));
         ("high_end", mkQualityFactor (Some (num 3 2)));
         ("luxury", mkQualityFactor (Some (num 11 5))) ];
     common_complications := None;
     other_keys := [] |}.


Definition large_gut_luxury : Classifier.Params :=
  {| Classifier.kitchen_size := "large";
     Classifier.scope := "gut_renovation";
     Classifier.quality_tier := "luxury" |}.

Definition small_cosmetic_budget : Classifier.Params :=
  {| Classifier.kitchen_size := "small";
     Classifier.scope := "cosmetic";
     Classifier.quality_tier := "budget" |}.

(** What (large, gut_renovation, luxury) resolves to in [kitchen]. *)
Definition large_gut_factors : EstimateSpec.Factors :=
  {| EstimateSpec.size_complexity := num 13 10;
     EstimateSpec.scope_complexity := num 3 2;
     EstimateSpec.typical_rate := num 65 1;
     EstimateSpec.included := [demolition; cabinets; painting] |}.

Definition luxury_multiplier : Qc := num 11 5.

(** The estimates the two entry points return on [kitchen]; the default
    branch is not taken, see [sample_estimates_run]. *)
Definition no_totals : Totals.t := Totals.mk 0 0 0 0.

Definition generated_large_gut_luxury : EstimateGenerator.Estimate :=
  match EstimateGenerator.generate_estimate_for kitchen large_gut_luxury with
  | Ok estimate => estimate
  | Raise _ => EstimateGenerator.mkEstimate [] no_totals
  end.

Definition sampled_large_gut : Totals.t :=
  match Validate.calculate_sample_estimate kitchen "large" "gut_renovation" with
  | Ok (Some estimate) => estimate
  | _ => no_totals
  end.

Definition cosmetic_scope : ScopeFactor :=
  mkScopeFactor (Some (num 3 5)) (Some (PhaseList ["painting"; "cabinets"])) [].

End Sample.

(** ** Words for the properties of the classifier *)

Module ClassifierSpec.
Import PyStr.

(** Some word of the group occurs in the text; none does. *)
Definition mentions (words : list string) (text : string) : Prop :=
  exists w, In w words /\ occurs_in w text.

Definition silent_on (words : list string) (text : string) : Prop :=
  forall w, In w words -> ~ occurs_in w text.

End ClassifierSpec.

(** ** The routes with their log ([app.py], [logger] and
    [log_app_activity]) *)

Module AppLog.
Import PyStr App.

(** What reaches the logger: the arguments of the formatted line. *)
Inductive log_record :=
| InfoSportsPrediction (app_id user_id : json) (team1 team2 : string)
| InfoCryptoPrediction (app_id user_id : json) (coin : string) (timeframe : json)
| InfoActivity (activity : Dict.dict json)
| ErrorSportsPrediction (e : exn)
| ErrorCryptoPrediction (e : exn).

(** A computation that writes to the log and may raise; what was logged
    before the exception stays logged. *)
Definition logged (A : Type) : Type := list log_record * result A.

Definition ret {A : Type} (a : A) : logged A := ([], Ok a).
Definition lift {A : Type} (r : result A) : logged A := ([], r).
Definition log (record : log_record) : logged Datatypes.unit := ([record], Ok tt).

Definition lbind {A B : Type} (m : logged A) (k : A -> logged B) : logged B :=
  match snd m with
  | Ok a => ((fst m ++ fst (k a))%list, snd (k a))
  | Raise e => (fst m, Raise e)
  end.

Declare Scope log_scope.
Delimit Scope log_scope with log.
Notation "x <~ m ;; k" := (lbind m (fun x => k))
  (at level 61, m at next level, right associativity) : log_scope.
Notation "m ;;; k" := (lbind m (fun _ => k))
  (at level 61, right associativity) : log_scope.

Section Views.

Variable hash : string -> Z.
(** The clock reading in the prediction, and the later one in
    [log_app_activity]. *)
Variable now logged_at : datetime.
Variable repr : json -> string.

(** The dict [log_app_activity] dumps *)
Definition activity (app_id : json) (action status : string) (user_id : json)
  : Dict.dict json :=
  [ ("app_id", app_id); ("action", JStr action); ("status", JStr status);
    ("user_id", user_id); ("timestamp", JStr (isoformat logged_at)) ].

Definition log_app_activity (app_id : json) (action status : string)
    (user_id : json) : logged Datatypes.unit :=
  log (InfoActivity (activity app_id action status user_id)).

(** The body of the [try] of [sports_predict], logging included. *)
Definition sports_predict_try (data : json) : logged response :=
  (sport <~ lift (data_get data "sport" (JStr "nfl")) ;;
   team1_value <~ lift (data_get data "team1" (JStr "")) ;;
   team1 <~ lift (value_lower team1_value) ;;
   team2_value <~ lift (data_get data "team2" (JStr "")) ;;
   team2 <~ lift (value_lower team2_value) ;;
   app_id <~ lift (data_get data "app_id" (JStr "unknown")) ;;
   user_id <~ lift (data_get data "user_id" (JStr "anonymous")) ;;
   if is_empty team1 || is_empty team2 then ret team_error
   else
     log (InfoSportsPrediction app_id user_id team1 team2) ;;;
     let prediction := process_sports_prediction hash now sport team1 team2 in
     log_app_activity app_id "sports_prediction" "success" user_id ;;;
     ret (JDict prediction, 200%Z))%log.

Definition sports_predict (data : json) : list log_record * response :=
  match sports_predict_try data with
  | (records, Ok r) => (records, r)
  | (records, Raise e) =>
      ((records ++ [ErrorSportsPrediction e])%list,
       (JDict [("error", JStr "Sports intelligence temporarily unavailable")],
        500%Z))
  end.

(** The body of the [try] of [crypto_predict], logging included. *)
Definition crypto_predict_try (data : json) : logged response :=
  (coin_value <~ lift (data_get data "coin" (JStr "bitcoin")) ;;
   coin <~ lift (value_lower coin_value) ;;
   timeframe <~ lift (data_get data "timeframe" (JStr "24h")) ;;
   app_id <~ lift (data_get data "app_id" (JStr "unknown")) ;;
   user_id <~ lift (data_get data "user_id" (JStr "anonymous")) ;;
   log (InfoCryptoPrediction app_id user_id coin timeframe) ;;;
   prediction <~ lift (process_crypto_prediction hash now repr coin timeframe) ;;
   log_app_activity app_id "crypto_prediction" "success" user_id ;;;
   ret (JDict prediction, 200%Z))%log.

Definition crypto_predict (data : json) : list log_record * response :=
  match crypto_predict_try data with
  | (records, Ok r) => (records, r)
  | (records, Raise e) =>
      ((records ++ [ErrorCryptoPrediction e])%list,
       (JDict [("error", JStr "Crypto intelligence temporarily unavailable")],
        500%Z))
  end.

End Views.

(** The two answers of the [except] branches *)
Definition sports_unavailable : response :=
  (JDict [("error", JStr "Sports intelligence temporarily unavailable")], 500%Z).

Definition crypto_unavailable : response :=
  (JDict [("error", JStr "Crypto intelligence temporarily unavailable")], 500%Z).

(** A request the sports route can read: an object whose team1 and team2,
    where present, are strings. *)
Definition sports_request_readable (data : json) : Prop :=
  exists d, data = JDict d
    /\ team_is_text_if_present d "team1" /\ team_is_text_if_present d "team2".

(** The text of a field read with a default: [None] when the field holds
    something else than a string. *)
Definition text_or (default : string) (value : option json) : option string :=
  match value with
  | None => Some default
  | Some (JStr s) => Some s
  | Some _ => None
  end.

(** A JSON value that can be a dict key. *)
Definition hashable (value : json) : bool :=
  match value with
  | JList _ | JDict _ => false
  | _ => true
  end.

(** A request the crypto route can read: an object whose coin, where
    present, is a string, and whose timeframe can be a dict key. *)
Definition crypto_request_readable (data : json) : Prop :=
  exists d coin, data = JDict d
    /\ text_or "bitcoin" (Dict.get "coin" d) = Some coin
    /\ hashable (Dict.get_default "timeframe" (JStr "24h") d) = true.

End AppLog.

(** ** Words for the properties of the line items *)

Module LineSpec.
Import Template EstimateGenerator EstimateSpec.

(** [item['category'] == 'labor'] *)
Definition is_labor (line : LineItem) : bool :=
  String.eqb (category line) "labor".

(** [item['hours']] of a labor line, 0 for a material line *)
Definition line_hours (line : LineItem) : Qc :=
  match hours line with
  | Ok h => h
  | Raise _ => 0
  end.

(** [item['rate']] of a labor line, 0 for a material line *)
Definition line_rate (line : LineItem) : Qc :=
  match line with
  | LaborItem _ _ _ rate _ => rate
  | MaterialItem _ _ _ _ _ _ _ => 0
  end.

(** The hours of the labor lines, the costs of the labor lines and the
    costs of the material lines, summed. *)
Definition billed_hours (lines : list LineItem) : Qc :=
  sum_of (map line_hours (filter is_labor lines)).

Definition labor_lines_total (lines : list LineItem) : Qc :=
  sum_of (map total_cost (filter is_labor lines)).

Definition material_lines_total (lines : list LineItem) : Qc :=
  sum_of (map total_cost (filter (fun line => negb (is_labor line)) lines)).

(** The typical rate of a category:
    [self.template['labor_rates'][category]['typical']]. *)
Definition category_rate (template : Template) (category : string) (rate : Qc)
  : Prop :=
  exists rates entry,
    labor_rates template = Some rates
    /\ Dict.get category rates = Some entry
    /\ typical entry = Some rate.

(** A line bills a task: it is a labor line with the hours of the task
    (0 when the task has none) and the typical rate of the task's own
    category (skilled when the task names none), and it costs the one times
    the other. *)
Definition bills (template : Template) (line : LineItem) (task : Task) : Prop :=
  hours line = Ok (get (labor_hours task) 0)
  /\ category_rate template (get (hourly_rate_category task) "skilled")
       (line_rate line)
  /\ total_cost line = line_hours line * line_rate line.

End LineSpec.

(** ** Templates for the examples of the selection *)

Module SampleSelection.
Import Template.

(** [Sample.kitchen] with a painting phase that has no "phase_id". *)
Definition kitchen_with_anonymous_phase : Template :=
  {| job_id := job_id Sample.kitchen;
     trade_category := trade_category Sample.kitchen;
     job_name := job_name Sample.kitchen;
     description := description Sample.kitchen;
     phases := Some
       [ Sample.demolition; Sample.cabinets;
         {| phase_id := None; phase_name := Some "Painting";
            sequence := Some 3%Z; tasks := tasks Sample.painting;
            materials := materials Sample.painting |} ];
     labor_rates := labor_rates Sample.kitchen;
     sizing_factors := sizing_factors Sample.kitchen;
     quality_tiers := quality_tiers Sample.kitchen;
     common_complications := None;
     other_keys := [] |}.

(** The estimates of the two entry points for a small cosmetic
    renovation of [Sample.kitchen]; the default branch is not taken. *)
Definition generated_small_cosmetic_budget : EstimateGenerator.Estimate :=
  match EstimateGenerator.generate_estimate_for Sample.kitchen
          Sample.small_cosmetic_budget with
  | Ok estimate => estimate
  | Raise _ => EstimateGenerator.mkEstimate [] Sample.no_totals
  end.

Definition sampled_small_cosmetic : Totals.t :=
  match Validate.calculate_sample_estimate Sample.kitchen "small" "cosmetic" with
  | Ok (Some estimate) => estimate
  | _ => Sample.no_totals
  end.

(** A scope whose "phases_included" is a text, not a list. *)
Definition text_scope : ScopeFactor :=
  mkScopeFactor (Some 1) (Some (PhaseText "demolition, painting")) [].

End SampleSelection.

(** ** The printed estimate ([_print_detailed_estimate], in full) *)

Module Report.
Import Template EstimateGenerator LineSpec.

(** [{'labor': [...], 'materials': [...]}] *)
Record group := mkGroup {
  labor : list LineItem;
  materials : list LineItem
}.

(** [phase in phases] *)
Definition has_phase (phase : string) (phases : Dict.dict group) : bool :=
  match Dict.get phase phases with Some _ => true | None => false end.

(** The change of the entry of [phase], in place. *)
Fixpoint update (phase : string) (change : group -> group)
    (phases : Dict.dict group) : Dict.dict group :=
  match phases with
  | [] => []
  | (name, g) :: rest =>
      if String.eqb name phase then (name, change g) :: rest
      else (name, g) :: update phase change rest
  end.

(** One turn of [for item in line_items]: a phase seen for the first time
    gets an empty entry at the end of the dict, then the item is appended to
    the list of its category. *)
Definition file_line (phases : Dict.dict group) (line : LineItem)
  : Dict.dict group :=
  let phase := line_phase line in
  let phases :=
    if has_phase phase phases then phases
    else (phases ++ [(phase, mkGroup [] [])])%list in
  if String.eqb (category line) "labor"
  then update phase (fun g => mkGroup (labor g ++ [line]) (materials g)) phases
  else update phase (fun g => mkGroup (labor g) (materials g ++ [line])) phases.

Definition group_by_phase (line_items : list LineItem) : Dict.dict group :=
  fold_left file_line line_items [].

(** The [totals] argument *)
Module Summary.
Record t := mk {
  raw_hours : Qc;
  adjusted_hours : Qc;
  complexity_multiplier : Qc;
  quality_multiplier : Qc;
  labor_cost : Qc;
  material_cost : Qc;
  total_cost : Qc
}.
End Summary.

(** What is printed, line by line, without the rules and the titles.  The
    material summary is kept as the two numbers it is printed from: the
    material cost and the quality multiplier; its first line shows the one
    divided by the other. *)
Inductive printed :=
| PhaseHeading (phase_name : string)
| LaborHeading
| LaborLine (line : LineItem)
| MaterialsHeading
| MaterialLine (line : LineItem)
| LaborSummary (raw_hours complexity_multiplier adjusted_hours labor_cost : Qc)
| MaterialSummary (material_cost quality_multiplier : Qc)
| TotalLine (total_cost : Qc).

(** [item['total_cost'] > 0] *)
Definition positive (q : Qc) : bool :=
  match (0 ?= q)%Qc with Lt => true | _ => false end.

(** The lines of one phase: its name, its labor lines under their heading
    when there are any, its material lines of positive cost under theirs. *)
Definition print_phase (entry : string * group) : list printed :=
  (PhaseHeading (fst entry)
   :: match labor (snd entry) with
      | [] => []
      | _ => LaborHeading :: map LaborLine (labor (snd entry))
      end
   ++ match materials (snd entry) with
      | [] => []
      | _ =>
          MaterialsHeading
          :: map MaterialLine
               (filter (fun line => positive (total_cost line))
                       (materials (snd entry)))
      end)%list.

(** [_print_detailed_estimate(self, line_items, totals)]: what it prints,
    and whether it returns.  The base material cost is the material cost
    divided by the quality multiplier; the lines before it are printed even
    when the division raises.  The numbers are exact, so that formatting
    them does not fail. *)
Definition print_detailed_estimate (line_items : list LineItem)
    (totals : Summary.t) : list printed * result Datatypes.unit :=
  let phases := group_by_phase line_items in
  let body :=
    (flat_map print_phase phases
     ++ [LaborSummary (Summary.raw_hours totals)
           (Summary.complexity_multiplier totals)
           (Summary.adjusted_hours totals) (Summary.labor_cost totals)])%list in
  if Qc_eq_bool (Summary.quality_multiplier totals) 0
  then (body, Raise ZeroDivisionError)
  else
    ((body
      ++ [ MaterialSummary (Summary.material_cost totals)
             (Summary.quality_multiplier totals);
           TotalLine (Summary.total_cost totals) ])%list,
     Ok tt).

(** The lines of a phase name, and a group extended by lines. *)
Definition lines_of (name : string) (line_items : list LineItem) : list LineItem :=
  filter (fun line => String.eqb (line_phase line) name) line_items.

Definition extended (g : group) (more : list LineItem) : group :=
  mkGroup (labor g ++ filter is_labor more)
          (materials g ++ filter (fun line => negb (is_labor line)) more).

(** The item appended to the list of its category. *)
Definition filed (line : LineItem) (g : group) : group := extended g [line].

(** Lines for the examples: two labor lines of a phase named "Prep"
    around a material line of "Finish", and a free material of "Prep". *)
Definition prep_demo : LineItem :=
  LaborItem "Prep" "Remove cabinets" (Sample.num 8 1) (Sample.num 65 1)
    (Sample.num 520 1).
Definition finish_paint : LineItem :=
  MaterialItem "Finish" "Paint" (Sample.num 3 1) "gallon" (Sample.num 45 1)
    (Sample.num 1 10) (Sample.num 297 2).
Definition prep_haul : LineItem :=
  LaborItem "Prep" "Haul debris" (Sample.num 4 1) (Sample.num 40 1)
    (Sample.num 160 1).
Definition prep_reused : LineItem :=
  MaterialItem "Prep" "Reused boxes" (Sample.num 10 1) "each" 0 0 0.

Definition sample_lines : list LineItem :=
  [prep_demo; finish_paint; prep_haul; prep_reused].

Definition sample_summary : Summary.t :=
  Summary.mk (Sample.num 12 1) (Sample.num 12 1) 1 (Sample.num 3 2)
    (Sample.num 780 1) (Sample.num 891 4) (Sample.num 4011 4).

End Report.

(** ** ASCII text *)

Module AsciiText.

(** A text of ASCII characters only: on such a text [PyStr.lower] and
    [PyStr.title] are Python's [str.lower] and [str.title]. *)
Fixpoint is_ascii (s : string) : bool :=
  match s with
  | EmptyString => true
  | String c s' => (nat_of_ascii c <? 128)%nat && is_ascii s'
  end.

End AsciiText.

(** * Theorems *)

Module PyStrFacts.
Import PyStr.

Lemma prefix_occurs (w s : string) :
  String.prefix w s = true -> exists after, s = w ++ after.
Proof.
  revert s; induction w as [|a w IH]; intros s H.
  - exists s; reflexivity.
  - destruct s as [|b s]; simpl in H; [discriminate|].
    destruct (ascii_dec a b) as [->|]; [|discriminate].
    destruct (IH _ H) as [after ->]. exists after; reflexivity.
Qed.

Lemma occurs_prefix (w after : string) : String.prefix w (w ++ after) = true.
Proof.
  induction w as [|a w IH]; simpl.
  - destruct after; reflexivity.
  - destruct (ascii_dec a a); [assumption | congruence].
Qed.

Lemma contains_occurs (w s : string) : contains w s = true <-> occurs_in w s.
Proof.
  split.
  - induction s as [|c s IH]; cbn [contains]; intros H.
    + rewrite orb_false_r in H. apply prefix_occurs in H as [after H].
      exists "", after; exact H.
    + apply orb_true_iff in H as [H|H].
      * apply prefix_occurs in H as [after H]. exists "", after; exact H.
      * destruct (IH H) as (before & after & ->).
        exists (String c before), after; reflexivity.
  - intros (before & after & ->).
    induction before as [|c before IH].
    + pose proof (occurs_prefix w after) as P. cbn [append].
      destruct (w ++ after); cbn [contains]; rewrite P; reflexivity.
    + cbn [append contains]. rewrite IH. apply orb_true_r.
Qed.

Lemma contains_false (w s : string) : ~ occurs_in w s -> contains w s = false.
Proof.
  intros H. destruct (contains w s) eqn:E; [|reflexivity].
  exfalso; apply H, contains_occurs, E.
Qed.

End PyStrFacts.

(** ** The classifier *)

Module ClassifierFacts.
Import PyStr PyStrFacts Classifier.

Lemma any_word_in_false (words : list string) (description : string) :
  (forall w, In w words -> ~ occurs_in w description) ->
  any_word_in words description = false.
Proof.
  intros H. unfold any_word_in.
  induction words as [|w words IH]; [reflexivity|].
  cbn [existsb]. rewrite contains_false by (apply H; left; reflexivity).
  apply IH. intros w' Hw'. apply H. right; exact Hw'.
Qed.

Ltac keyword_group H :=
  intros w Hw; apply H;
  unfold recognized_keywords; repeat (apply in_or_app; (left; exact Hw) || right);
  exact Hw.

(** C3 (as stated, refuted): on scenario 2 the classifier does not answer
    [xl] for the size; the description contains "large", and the "large"
    group is tested before the "xl" group. *)
Lemma scenario_2_size_is_not_xl :
  ~ (kitchen_size (parse_natural_language scenario_2) = "xl"
     /\ scope (parse_natural_language scenario_2) = "gut_renovation"
     /\ quality_tier (parse_natural_language scenario_2) = "luxury").
Proof. vm_compute. intros [H _]. discriminate H. Qed.

(** C3 (amended): scenario 2 is classified as size [large] (through the
    keyword "large", which is tested before "luxury"), scope
    [gut_renovation] and quality [luxury]. *)
Theorem scenario_2_classification :
  parse_natural_language scenario_2 =
    {| kitchen_size := "large"; scope := "gut_renovation"; quality_tier := "luxury" |}
  /\ any_word_in size_small_words (lower scenario_2) = false
  /\ contains "large" (lower scenario_2) = true
  /\ contains "luxury" (lower scenario_2) = true
  /\ contains "complete" (lower scenario_2) = true
  /\ contains "gut" (lower scenario_2) = true
  /\ contains "custom" (lower scenario_2) = true.
Proof. vm_compute. repeat split. Qed.

(** C7: a description whose lower-cased text contains none of the
    recognized keywords is classified as (medium, standard, mid_range); and
    every description is classified: the result always is one of the
    enumerated values, there is no failure case. *)
Theorem classifier_default_and_total (description : string) :
  ((forall w, In w recognized_keywords -> ~ occurs_in w (lower description)) ->
   parse_natural_language description = default_params)
  /\ (In (kitchen_size (parse_natural_language description))
         ["small"; "medium"; "large"; "xl"]
      /\ In (scope (parse_natural_language description))
         ["cosmetic"; "standard"; "gut_renovation"]
      /\ In (quality_tier (parse_natural_language description))
         ["budget"; "mid_range"; "high_end"; "luxury"]).
Proof.
  split.
  - intros H. unfold parse_natural_language.
    rewrite (any_word_in_false size_small_words) by keyword_group H.
    rewrite (any_word_in_false size_large_words) by keyword_group H.
    rewrite (any_word_in_false size_xl_words) by keyword_group H.
    rewrite (any_word_in_false scope_cosmetic_words) by keyword_group H.
    rewrite (any_word_in_false scope_gut_words) by keyword_group H.
    rewrite (any_word_in_false quality_budget_words) by keyword_group H.
    rewrite (any_word_in_false quality_luxury_words) by keyword_group H.
    rewrite (any_word_in_false quality_high_words) by keyword_group H.
    reflexivity.
  - unfold parse_natural_language; cbn [kitchen_size scope quality_tier].
    repeat split.
    + destruct (any_word_in size_small_words _); [simpl; tauto|].
      destruct (any_word_in size_large_words _); [simpl; tauto|].
      destruct (any_word_in size_xl_words _); simpl; tauto.
    + destruct (any_word_in scope_cosmetic_words _); [simpl; tauto|].
      destruct (any_word_in scope_gut_words _); simpl; tauto.
    + destruct (any_word_in quality_budget_words _); [simpl; tauto|].
      destruct (any_word_in quality_luxury_words _); [simpl; tauto|].
      destruct (any_word_in quality_high_words _); simpl; tauto.
Qed.

Lemma classifier_default_and_total_witness :
  parse_natural_language "Remodel my KITCHEN, new cabinets and counters" = default_params.
Proof.
  apply (proj1 (classifier_default_and_total
                  "Remodel my KITCHEN, new cabinets and counters")).
  intros w Hw Hocc. apply contains_occurs in Hocc. revert Hocc.
  unfold recognized_keywords in Hw.
  repeat (destruct Hw as [<-|Hw]; [vm_compute; discriminate|]).
  destruct Hw.
Defined.

End ClassifierFacts.

(** ** The HTTP facade *)

Module AppFacts.
Import PyStr App.
Open Scope Z_scope.

Lemma lower_is_empty (s : string) : is_empty (lower s) = is_empty s.
Proof. destruct s; reflexivity. Qed.

Lemma append_length (a b : string) :
  String.length (a ++ b) = (String.length a + String.length b)%nat.
Proof. induction a as [|c a IH]; simpl; [reflexivity | now rewrite IH]. Qed.

Lemma append_cancel_r (a b x : string) : a ++ x = b ++ x -> a = b.
Proof.
  revert b; induction a as [|c a IH]; intros [|d b] H.
  - reflexivity.
  - apply (f_equal String.length) in H.
    rewrite (append_length (String d b) x) in H. simpl in H. lia.
  - apply (f_equal String.length) in H.
    rewrite (append_length (String c a) x) in H. simpl in H. lia.
  - simpl in H. injection H as -> H. f_equal. apply IH, H.
Qed.

Example isoformat_sample : isoformat sample_now = "2024-03-09T14:05:07.000120".
Proof. reflexivity. Qed.

Example isoformat_whole_second :
  isoformat (mkDatetime 2024 12 31 23 59 59 0) = "2024-12-31T23:59:59".
Proof. reflexivity. Qed.

(** C5 (the part the code honours): the responses of [GET /],
    [GET /health] and of the two predictions carry the clock reading in ISO
    format under "timestamp". *)
Lemma timestamp_of_the_other_views hash now repr :
  body_field "timestamp" (home now) = Some (JStr (isoformat now))
  /\ body_field "timestamp" (health now) = Some (JStr (isoformat now))
  /\ (forall sport team1 team2,
        Dict.get "timestamp" (process_sports_prediction hash now sport team1 team2)
        = Some (JStr (isoformat now)))
  /\ (forall coin timeframe prediction,
        process_crypto_prediction hash now repr coin timeframe = Ok prediction ->
        Dict.get "timestamp" prediction = Some (JStr (isoformat now))).
Proof.
  repeat split; try reflexivity.
  intros coin timeframe prediction H. unfold process_crypto_prediction in H.
  destruct (target_get _ _); simpl in H; [|discriminate].
  injection H as <-. reflexivity.
Qed.

(** C5 (where the code departs from it): the response of [GET /services]
    is a 200 whose body has exactly the five keys below; "timestamp" is not
    one of them, although the sibling views [home] and [health] set it. *)
Theorem services_response_has_no_timestamp :
  snd services = 200
  /\ (exists d, fst services = JDict d
        /\ Dict.keys d = ["fire_ecosystem"; "total_services"; "central_hub";
                          "architecture"; "service_status"])
  /\ body_field "timestamp" services = None.
Proof.
  split; [reflexivity|]. split; [|reflexivity].
  eexists; split; reflexivity.
Qed.

(** C6 (as stated, refuted): with team1 the empty string and team2 the
    number 5, [5.lower()] raises inside the [try] before the emptiness test
    is reached, and the route answers 500, not 400. *)
Lemma sports_predict_empty_team1_number_team2 :
  team_missing [("team1", JStr ""); ("team2", JInt 5)] "team1"
  /\ sports_predict sample_hash sample_now request_empty_team1_number_team2
     = (JDict [("error", JStr "Sports intelligence temporarily unavailable")], 500)
  /\ sports_predict sample_hash sample_now request_empty_team1_number_team2
     <> team_error.
Proof.
  split; [right; reflexivity|]. split; [reflexivity|].
  vm_compute. discriminate.
Qed.

Lemma get_default_text (d : Dict.dict json) (key : string) :
  team_is_text_if_present d key ->
  exists name, Dict.get_default key (JStr "") d = JStr name
    /\ (team_missing d key -> name = "")
    /\ (forall given, team_given d key given -> name = given).
Proof.
  unfold team_is_text_if_present, team_missing, team_given, Dict.get_default.
  intros [H|[name H]]; rewrite H.
  - exists "". split; [reflexivity|]. split; [reflexivity|].
    intros given [E _]; discriminate E.
  - exists name. split; [reflexivity|]. split.
    + intros [E|E]; [discriminate E | now injection E].
    + intros given [E _]. now injection E.
Qed.

(** C6 (amended): when the request body is a JSON object in which team1
    and team2, where present, are strings, [POST /sports/predict] answers
    400 with body [{"error": "Both team1 and team2 are required"}] whenever
    team1 or team2 is absent or the empty string, and 200 with the
    fabricated prediction (for the lower-cased names) whenever both are
    present and not empty. *)
Theorem sports_predict_400_or_200 hash now (d : Dict.dict json) :
  team_is_text_if_present d "team1" ->
  team_is_text_if_present d "team2" ->
  (team_missing d "team1" \/ team_missing d "team2" ->
   sports_predict hash now (JDict d) = team_error)
  /\ (forall name1 name2,
        team_given d "team1" name1 -> team_given d "team2" name2 ->
        sports_predict hash now (JDict d) =
          (JDict (process_sports_prediction hash now
                    (Dict.get_default "sport" (JStr "nfl") d)
                    (lower name1) (lower name2)), 200)).
Proof.
  intros T1 T2.
  destruct (get_default_text d "team1" T1) as (n1 & E1 & M1 & G1).
  destruct (get_default_text d "team2" T2) as (n2 & E2 & M2 & G2).
  unfold sports_predict, sports_predict_try; cbn [data_get bind].
  rewrite E1, E2; cbn [value_lower bind]. rewrite !lower_is_empty.
  split.
  - intros [M|M]; [rewrite (M1 M) | rewrite (M2 M)]; cbn [is_empty];
      rewrite ?orb_true_r; reflexivity.
  - intros name1 name2 H1 H2.
    rewrite (G1 _ H1), (G2 _ H2).
    destruct H1 as [_ N1], H2 as [_ N2].
    destruct name1; [congruence|]. destruct name2; [congruence|].
    reflexivity.
Qed.

Lemma sports_predict_400_or_200_witness :
  sports_predict sample_hash sample_now
    (JDict [("team1", JStr ""); ("team2", JStr "Lakers")]) = team_error
  /\ sports_predict sample_hash sample_now
       (JDict [("team1", JStr "Celtics"); ("team2", JStr "Lakers")]) =
     (JDict (process_sports_prediction sample_hash sample_now (JStr "nfl")
               "celtics" "lakers"), 200).
Proof.
  split.
  - refine (proj1 (sports_predict_400_or_200 sample_hash sample_now
                     [("team1", JStr ""); ("team2", JStr "Lakers")] _ _) _).
    + right; exists ""; reflexivity.
    + right; exists "Lakers"; reflexivity.
    + left; right; reflexivity.
  - refine (proj2 (sports_predict_400_or_200 sample_hash sample_now
                     [("team1", JStr "Celtics"); ("team2", JStr "Lakers")] _ _)
                  "Celtics" "Lakers" _ _).
    + right; exists "Celtics"; reflexivity.
    + right; exists "Lakers"; reflexivity.
    + split; [reflexivity | discriminate].
    + split; [reflexivity | discriminate].
Defined.

(** C9 (as stated, refuted): for a timeframe that is a list,
    [process_crypto_prediction] returns no confidence at all: the lookup of
    the price target raises [TypeError] while the dict is built. *)
Lemma crypto_prediction_raises_on_list_timeframe :
  process_crypto_prediction sample_hash sample_now (fun _ => "[]") "bitcoin"
    (JList [])
  = Raise (TypeError "unhashable type")
  /\ ~ (exists prediction c,
          process_crypto_prediction sample_hash sample_now (fun _ => "[]")
            "bitcoin" (JList []) = Ok prediction
          /\ Dict.get "confidence" prediction = Some (JInt c)
          /\ 70 <= c <= 94).
Proof.
  split; [reflexivity|]. intros (prediction & c & H & _). discriminate H.
Qed.

(** C9 (amended): whatever [hash] returns, [process_sports_prediction]
    returns for every input a confidence in 75..94 (75 plus a value reduced
    mod 20); [process_crypto_prediction] returns a confidence in 70..94 (70
    plus a value reduced mod 25) for every coin and every timeframe that can
    be a dict key, and for a timeframe that is a list or an object it raises
    [TypeError] and returns nothing. *)
Theorem confidence_bounds hash now repr
  (sport : json) (team1 team2 coin : string) (timeframe : json) :
  (exists c,
      Dict.get "confidence" (process_sports_prediction hash now sport team1 team2)
      = Some (JInt c)
      /\ c = 75 + hash (team1 ++ team2) mod 20 /\ 75 <= c <= 94)
  /\ (AppLog.hashable timeframe = true ->
      exists prediction c,
        process_crypto_prediction hash now repr coin timeframe = Ok prediction
        /\ Dict.get "confidence" prediction = Some (JInt c)
        /\ c = 70 + hash (coin ++ format repr timeframe) mod 25
        /\ 70 <= c <= 94)
  /\ (AppLog.hashable timeframe = false ->
      process_crypto_prediction hash now repr coin timeframe
      = Raise (TypeError "unhashable type")).
Proof.
  split; [|split].
  - exists (sports_confidence hash team1 team2). split; [reflexivity|].
    unfold sports_confidence. split; [reflexivity|].
    pose proof (Z.mod_pos_bound (hash (team1 ++ team2)) 20). lia.
  - intros Hashable.
    assert (B : 70 <= crypto_confidence hash repr coin timeframe <= 94).
    { unfold crypto_confidence.
      pose proof (Z.mod_pos_bound (hash (coin ++ format repr timeframe)) 25). lia. }
    unfold process_crypto_prediction.
    destruct timeframe; cbn [AppLog.hashable] in Hashable; try discriminate;
      cbn [target_get bind];
      (eexists; eexists; split; [reflexivity|];
       split; [reflexivity | split; [reflexivity | exact B]]).
  - intros Unhashable. unfold process_crypto_prediction.
    destruct timeframe; cbn [AppLog.hashable] in Unhashable; try discriminate;
      reflexivity.
Qed.

Lemma confidence_bounds_witness :
  exists prediction c,
    process_crypto_prediction sample_hash sample_now (fun _ => "") "bitcoin"
      (JStr "24h") = Ok prediction
    /\ Dict.get "confidence" prediction = Some (JInt c)
    /\ c = 70 + sample_hash ("bitcoin" ++ format (fun _ => "") (JStr "24h")) mod 25
    /\ 70 <= c <= 94.
Proof.
  apply (proj1 (proj2 (confidence_bounds sample_hash sample_now (fun _ => "")
                         JNull "a" "b" "bitcoin" (JStr "24h")))).
  reflexivity.
Defined.

(** C10: the prediction text is "{Team1} wins by 3-7 points" and the first
    betting recommendation is "Take {Team1} -3 to -7", for every sport,
    team1 and team2; neither depends on team2, on the sport or on the hash,
    and the text names team2 as the winner only when both teams have the
    same title-cased name. *)
Theorem prediction_always_names_team1 hash now (sport : json) (team1 team2 : string) :
  let prediction := process_sports_prediction hash now sport team1 team2 in
  Dict.get "prediction" prediction = Some (JStr (title team1 ++ " wins by 3-7 points"))
  /\ Dict.get "betting_recommendations" prediction =
       Some (JList [ JStr ("Take " ++ title team1 ++ " -3 to -7");
                     JStr "Consider Over on total points" ])
  /\ (forall hash' now' sport' team2',
        let other := process_sports_prediction hash' now' sport' team1 team2' in
        Dict.get "prediction" other = Dict.get "prediction" prediction
        /\ Dict.get "betting_recommendations" other =
           Dict.get "betting_recommendations" prediction)
  /\ (Dict.get "prediction" prediction =
        Some (JStr (title team2 ++ " wins by 3-7 points")) ->
      title team1 = title team2).
Proof.
  cbv zeta. repeat split.
  intros H. unfold process_sports_prediction in H; cbn [Dict.get String.eqb] in H.
  simpl in H. injection H as H. apply append_cancel_r in H. exact H.
Qed.

Lemma prediction_always_names_team1_witness :
  title "lakers" = title "LAKERS".
Proof.
  apply (proj2 (proj2 (proj2
           (prediction_always_names_team1 sample_hash sample_now (JStr "nba")
              "lakers" "LAKERS")))).
  reflexivity.
Defined.

Example prediction_sample :
  Dict.get "prediction"
    (process_sports_prediction sample_hash sample_now (JStr "nba")
       "boston celtics" "la lakers")
  = Some (JStr "Boston Celtics wins by 3-7 points").
Proof. reflexivity. Qed.

End AppFacts.

(** ** The error monad *)

Module ResultFacts.

Lemma bind_ok {A B : Type} (r : result A) (k : A -> result B) (b : B) :
  bind r k = Ok b -> exists a, r = Ok a /\ k a = Ok b.
Proof. destruct r as [a|e]; simpl; intros H; [eauto | discriminate]. Qed.

Lemma key_ok {A : Type} (name : string) (field : option A) (a : A) :
  Template.key name field = Ok a -> field = Some a.
Proof. destruct field; simpl; intros H; [now injection H as -> | discriminate]. Qed.

Lemma item_ok {V : Type} (k : string) (d : Dict.dict V) (v : V) :
  Dict.item k d = Ok v -> Dict.get k d = Some v.
Proof.
  unfold Dict.item. destruct (Dict.get k d); intros H;
    [now injection H as -> | discriminate].
Qed.

(** Splits an equation [x <- r ;; k = Ok b] into [r = Ok x] and the rest. *)
Ltac bind_inv H :=
  let a := fresh "x" in
  let E := fresh "E" in
  apply bind_ok in H; destruct H as (a & E & H).

(** Unfolds the projections of the records of the estimate, and nothing
    of the arithmetic. *)
Ltac projections :=
  cbn [EstimateGenerator.totals EstimateGenerator.line_items
       Totals.labor_hours Totals.labor_cost Totals.material_cost
       Totals.total_cost EstimateSpec.included EstimateSpec.size_complexity
       EstimateSpec.scope_complexity EstimateSpec.typical_rate fst snd] in *.

End ResultFacts.

(** ** Sums *)

Module SumFacts.
Import EstimateSpec.

Lemma sum_of_cons (x : Qc) (l : list Qc) : sum_of (x :: l) = x + sum_of l.
Proof. reflexivity. Qed.

Lemma sum_of_app (l1 l2 : list Qc) : sum_of (l1 ++ l2) = sum_of l1 + sum_of l2.
Proof.
  induction l1 as [|x l1 IH]; simpl; [ring|]. rewrite IH. ring.
Qed.

Lemma fold_left_sum {A : Type} (f : A -> Qc) (l : list A) (start : Qc) :
  fold_left (fun acc x => acc + f x) l start = start + sum_of (map f l).
Proof.
  revert start; induction l as [|x l IH]; intros start; simpl; [ring|].
  rewrite IH. ring.
Qed.

End SumFacts.

(** ** The two estimates *)

Module EstimateFacts.
Import Template EstimateSpec ResultFacts SumFacts.

Lemma task_hours_sum_cons (phase : Phase) (rest : list Phase) :
  task_hours_sum (phase :: rest) =
  Validate.phase_labor_hours phase + task_hours_sum rest.
Proof.
  unfold task_hours_sum, all_tasks, Validate.phase_labor_hours.
  cbn [flat_map]. rewrite map_app, sum_of_app, fold_left_sum. ring.
Qed.

Lemma raw_material_sum_cons (phase : Phase) (rest : list Phase) :
  raw_material_sum (phase :: rest) =
  Validate.phase_material_cost phase + raw_material_sum rest.
Proof.
  unfold raw_material_sum, all_materials, Validate.phase_material_cost.
  cbn [flat_map]. rewrite map_app, sum_of_app, fold_left_sum.
  unfold material_line_cost. ring.
Qed.

(** The loop of [calculate_sample_estimate] adds the two sums of the
    specification to its running totals. *)
Lemma sum_phases_ok (included : list Phase) :
  forall h m h' m',
    Validate.sum_phases included h m = Ok (h', m') ->
    h' = h + task_hours_sum included /\ m' = m + raw_material_sum included.
Proof.
  induction included as [|phase rest IH]; intros h m h' m' H.
  - simpl in H. injection H as <- <-.
    unfold task_hours_sum, raw_material_sum; simpl. split; ring.
  - cbn [Validate.sum_phases] in H. bind_inv H. bind_inv H.
    apply IH in H as [-> ->].
    rewrite task_hours_sum_cons, raw_material_sum_cons. split; ring.
Qed.

Import EstimateGenerator.

Lemma add_items_labor phase description hours rate cost rest h m :
  add_items (LaborItem phase description hours rate cost :: rest) h m =
  add_items rest (h + hours) m.
Proof. reflexivity. Qed.

Lemma add_items_material phase description quantity unit unit_cost waste cost
    rest h m :
  add_items (MaterialItem phase description quantity unit unit_cost waste cost
               :: rest) h m =
  add_items rest h (m + cost).
Proof. reflexivity. Qed.

Lemma add_items_app (l1 l2 : list LineItem) :
  forall h m,
    add_items (l1 ++ l2) h m =
    bind (add_items l1 h m) (fun sums => add_items l2 (fst sums) (snd sums)).
Proof.
  induction l1 as [|line l1 IH]; intros h m; [reflexivity|].
  destruct line; cbn [app];
    rewrite ?add_items_labor, ?add_items_material; apply IH.
Qed.

Lemma labor_items_ok (template : Template) (phase : Phase) (tasks : list Task) :
  forall items,
    labor_items template phase tasks = Ok items ->
    (forall h m,
        add_items items h m =
        Ok (h + sum_of (map (fun t => get (labor_hours t) 0) tasks), m))
    /\ map line_key items =
       map (fun t => (get (phase_name phase) "", get (task t) "")) tasks.
Proof.
  induction tasks as [|t rest IH]; intros items H.
  - injection H as <-. split; [|reflexivity].
    intros h m. cbn [add_items map sum_of fold_right]. now rewrite Qcplus_0_r.
  - cbn [labor_items] in H. do 5 bind_inv H. injection H as <-.
    apply key_ok in E, E0. destruct (IH _ E3) as [Sums Keys].
    split.
    + intros h m. rewrite add_items_labor, Sums.
      cbn [map]. rewrite sum_of_cons. f_equal. f_equal. ring.
    + cbn [map line_key line_phase line_description]. rewrite <- Keys, E, E0.
      reflexivity.
Qed.

Lemma material_items_ok (phase : Phase) (materials : list Material) :
  forall items,
    material_items phase materials = Ok items ->
    (forall h m,
        add_items items h m =
        Ok (h, m + sum_of (map material_line_cost materials)))
    /\ map line_key items =
       map (fun x => (get (phase_name phase) "", get (item x) "")) materials.
Proof.
  induction materials as [|x rest IH]; intros items H.
  - injection H as <-. split; [|reflexivity].
    intros h m. cbn [add_items map sum_of fold_right]. now rewrite Qcplus_0_r.
  - cbn [material_items] in H. do 3 bind_inv H. injection H as <-.
    apply key_ok in E, E0. destruct (IH _ E1) as [Sums Keys].
    split.
    + intros h m. rewrite add_items_material, Sums.
      cbn [map]. rewrite sum_of_cons.
      change (material_line_cost x)
        with (get (quantity x) 0 * get (unit_cost_base x) 0
              * (1 + get (waste_factor x) 0)).
      f_equal. f_equal. ring.
    + cbn [map line_key line_phase line_description]. rewrite <- Keys, E, E0.
      reflexivity.
Qed.

(** The loop of [generate_estimate] adds the same two sums to its
    running totals, and appends the lines of the phases in order. *)
Lemma process_phases_ok template params size_factor quality_factor
    (included : list Phase) :
  forall lines h m lines' h' m',
    process_phases template params size_factor quality_factor included lines h m
      = Ok (lines', (h', m')) ->
    h' = h + task_hours_sum included
    /\ m' = m + raw_material_sum included
    /\ map line_key lines' = (map line_key lines ++ expected_lines included)%list.
Proof.
  induction included as [|phase rest IH]; intros lines h m lines' h' m' H.
  - injection H as <- <- <-.
    unfold task_hours_sum, raw_material_sum.
    cbn [all_tasks all_materials expected_lines flat_map map sum_of fold_right].
    rewrite app_nil_r. repeat split; ring.
  - cbn [process_phases] in H. do 2 bind_inv H.
    unfold _process_phase in E. do 2 bind_inv E. injection E as <-.
    destruct (labor_items_ok _ _ _ _ E1) as [LaborSums LaborKeys].
    destruct (material_items_ok _ _ _ E2) as [MaterialSums MaterialKeys].
    rewrite add_items_app, LaborSums in E0. cbn [bind fst snd] in E0.
    rewrite MaterialSums in E0. injection E0 as <-.
    apply IH in H as (-> & -> & ->). cbn [fst snd].
    rewrite task_hours_sum_cons, raw_material_sum_cons.
    unfold Validate.phase_labor_hours, Validate.phase_material_cost.
    rewrite !fold_left_sum.
    repeat split; try ring.
    rewrite !map_app, LaborKeys, MaterialKeys. cbn [expected_lines flat_map].
    rewrite <- !app_assoc. reflexivity.
Qed.

Lemma get_default_some {V : Type} (k : string) (default : V) (d : Dict.dict V) :
  Dict.get_default k default d =
  match Dict.get k d with Some v => v | None => default end.
Proof. reflexivity. Qed.

(** What [generate_estimate] returns, when it returns. *)
Lemma generate_estimate_for_ok template params estimate :
  generate_estimate_for template params = Ok estimate ->
  exists factors quality_multiplier,
    generate_factors template params factors quality_multiplier
    /\ quality_multiplier <> 0
    /\ Totals.labor_hours (totals estimate) =
       task_hours_sum (included factors)
       * (size_complexity factors * scope_complexity factors)
    /\ Totals.labor_cost (totals estimate) = adjusted_labor_cost factors
    /\ Totals.material_cost (totals estimate) =
       raw_material_sum (included factors) * quality_multiplier
    /\ Totals.total_cost (totals estimate) =
       Totals.labor_cost (totals estimate) + Totals.material_cost (totals estimate)
    /\ map line_key (line_items estimate) = expected_lines (included factors).
Proof.
  intros H. unfold generate_estimate_for in H.
  repeat bind_inv H. injection H as <-.
  destruct x8 as [lines [h m]]. cbn [fst snd] in *.
  apply process_phases_ok in E8 as (-> & -> & Lines).
  apply key_ok in E, E0, E2, E3, E5, E9, E10, E11, E12, E14, E15.
  apply item_ok in E1, E4, E6, E13.
  unfold _print_detailed_estimate in E16.
  destruct (Qc_eq_bool x15 0) eqn:Zero; [discriminate|].
  assert (x15 = x11) as -> by congruence.
  assert (x2 = x) as -> by congruence.
  exists (mkFactors x9 x10 x14 x7), x11.
  split; [|split; [|unfold adjusted_labor_cost; projections; repeat split]].
  - exists x1, x4, x6. unfold size_factor_of, scope_factor_of, quality_factor_of,
      typical_skilled_rate. rewrite E, E0, E3, E5, E12, E13. projections.
    repeat split; assumption.
  - intros ->. unfold Qc_eq_bool in Zero.
    destruct (Qc_eq_dec 0 0); [discriminate | congruence].
  - ring.
  - ring.
  - ring.
  - exact Lines.
Qed.

(** What [calculate_sample_estimate] returns, when it returns totals. *)
Lemma calculate_sample_estimate_ok template size scope estimate :
  Validate.calculate_sample_estimate template size scope = Ok (Some estimate) ->
  exists factors,
    sample_factors template size scope factors
    /\ Totals.labor_hours estimate =
       task_hours_sum (included factors)
       * (size_complexity factors * scope_complexity factors)
    /\ Totals.labor_cost estimate = adjusted_labor_cost factors
    /\ Totals.material_cost estimate =
       raw_material_sum (included factors)
       * (size_complexity factors * scope_complexity factors)
    /\ Totals.total_cost estimate =
       Totals.labor_cost estimate + Totals.material_cost estimate.
Proof.
  intros H. unfold Validate.calculate_sample_estimate in H.
  do 3 bind_inv H.
  apply key_ok in E, E0, E1.
  rewrite !get_default_some in H.
  destruct (Dict.get size x0) as [size_factor|] eqn:Size;
    [|cbn in H; discriminate].
  destruct (Dict.get scope x1) as [scope_factor|] eqn:Scope;
    [|rewrite orb_true_r in H; discriminate].
  destruct (size_factor_is_empty size_factor || scope_factor_is_empty scope_factor);
    [discriminate|].
  do 5 bind_inv H. injection H as <-.
  destruct x4 as [h m]. apply sum_phases_ok in E4 as [-> ->].
  apply key_ok in E3, E6. apply item_ok in E5.
  exists (mkFactors (get (size_complexity_multiplier size_factor) 1)
                    (get (scope_complexity_multiplier scope_factor) 1) x6 x2).
  split; [|unfold adjusted_labor_cost; projections; repeat split].
  - exists size_factor, scope_factor.
    unfold size_factor_of, scope_factor_of, typical_skilled_rate.
    rewrite E, E0, E1, E3, E5, Size, Scope. projections.
    repeat split; assumption.
  - ring.
  - ring.
  - ring.
Qed.

(** It fails only on a phase without "sequence" or "phase_name". *)
Lemma sum_phases_total (included : list Phase) :
  (forall phase, In phase included -> phase_reportable phase) ->
  forall h m, exists h' m', Validate.sum_phases included h m = Ok (h', m').
Proof.
  induction included as [|phase rest IH]; intros W h m.
  - now exists h, m.
  - destruct (W phase (or_introl eq_refl)) as [S N].
    cbn [Validate.sum_phases].
    destruct (sequence phase); [|congruence].
    destruct (phase_name phase); [|congruence].
    cbn [key bind]. apply IH. intros p Hp. apply W. right; exact Hp.
Qed.

(** For the same template, size and scope, the two resolutions agree. *)
Lemma factors_agree template params generated quality_multiplier sampled :
  generate_factors template params generated quality_multiplier ->
  sample_factors template (Classifier.kitchen_size params)
    (Classifier.scope params) sampled ->
  sampled = generated.
Proof.
  intros (sf & scf & qf & Sf & Scf & _ & Cs & Cc & _ & Rate & Inc)
         (sf' & scf' & Sf' & Scf' & Cs' & Cc' & Rate' & Inc').
  assert (sf' = sf) as -> by congruence.
  assert (scf' = scf) as -> by congruence.
  rewrite Cs in Cs'. rewrite Cc in Cc'. cbn [get] in Cs', Cc'.
  destruct sampled, generated; projections.
  f_equal; congruence.
Qed.

(** *** When the two entry points return *)

Lemma size_factor_of_some template size size_factor :
  size_factor_of template size = Some size_factor ->
  exists factors sizes,
    sizing_factors template = Some factors
    /\ kitchen_size factors = Some sizes
    /\ Dict.get size sizes = Some size_factor.
Proof.
  unfold size_factor_of. intros H.
  destruct (sizing_factors template) as [factors|]; [|discriminate].
  destruct (kitchen_size factors) as [sizes|] eqn:K; [|discriminate].
  exists factors, sizes. repeat split; assumption.
Qed.

Lemma scope_factor_of_some template scope scope_factor :
  scope_factor_of template scope = Some scope_factor ->
  exists factors scopes,
    sizing_factors template = Some factors
    /\ renovation_scope factors = Some scopes
    /\ Dict.get scope scopes = Some scope_factor.
Proof.
  unfold scope_factor_of. intros H.
  destruct (sizing_factors template) as [factors|]; [|discriminate].
  destruct (renovation_scope factors) as [scopes|] eqn:K; [|discriminate].
  exists factors, scopes. repeat split; assumption.
Qed.

Lemma typical_skilled_rate_some template rate :
  typical_skilled_rate template = Some rate ->
  exists rates skilled,
    labor_rates template = Some rates
    /\ Dict.get "skilled" rates = Some skilled
    /\ typical skilled = Some rate.
Proof.
  unfold typical_skilled_rate. intros H.
  destruct (labor_rates template) as [rates|]; [|discriminate].
  destruct (Dict.get "skilled" rates) as [skilled|] eqn:S; [|discriminate].
  exists rates, skilled. repeat split; assumption.
Qed.

(** [calculate_sample_estimate] returns totals for a size and a scope whose
    factors exist and are not empty, when the typical skilled rate exists
    and every included phase has its "sequence" and "phase_name". *)
Lemma calculate_sample_estimate_returns template size scope factors :
  sample_factors template size scope factors ->
  (forall size_factor, size_factor_of template size = Some size_factor ->
     size_factor_is_empty size_factor = false) ->
  (forall scope_factor, scope_factor_of template scope = Some scope_factor ->
     scope_factor_is_empty scope_factor = false) ->
  (forall phase, In phase (included factors) -> phase_reportable phase) ->
  exists estimate,
    Validate.calculate_sample_estimate template size scope = Ok (Some estimate).
Proof.
  intros (sf & scf & Sf & Scf & _ & _ & Rate & Inc) NonEmpty NonEmpty' Report.
  pose proof (NonEmpty _ Sf) as N. pose proof (NonEmpty' _ Scf) as N'.
  apply size_factor_of_some in Sf as (fs & sizes & F & K & G).
  apply scope_factor_of_some in Scf as (fs' & scopes & F' & K' & G').
  assert (fs' = fs) as -> by congruence.
  apply typical_skilled_rate_some in Rate as (rates & skilled & L & S & T).
  destruct (sum_phases_total (included factors) Report 0 0) as (h & m & Sum).
  unfold Validate.calculate_sample_estimate, Dict.item.
  repeat (progress (cbn [key bind orb fst snd];
                    rewrite ?get_default_some,
                      ?F, ?K, ?K', ?G, ?G', ?N, ?N', ?Inc, ?L, ?Sum, ?S, ?T)).
  eexists; reflexivity.
Qed.

Lemma labor_items_total template phase (tasks : list Task) :
  (phase_name phase <> None \/ tasks = []) ->
  (forall t, In t tasks ->
     task t <> None /\ exists rate, task_rate template t = Ok rate) ->
  exists items, labor_items template phase tasks = Ok items.
Proof.
  intros Name W. induction tasks as [|t rest IH]; [now exists []|].
  destruct Name as [Name|Nil]; [|discriminate].
  destruct (W t (or_introl eq_refl)) as [D [rate R]].
  destruct IH as [items I]; [now left | intros t' Ht'; apply W; now right|].
  cbn [labor_items].
  destruct (phase_name phase); [|congruence].
  destruct (task t); [|congruence].
  cbn [key bind]. rewrite R; cbn [bind]. rewrite I; cbn [bind].
  eexists; reflexivity.
Qed.

Lemma material_items_total phase (materials : list Material) :
  (phase_name phase <> None \/ materials = []) ->
  (forall m, In m materials -> item m <> None) ->
  exists items, material_items phase materials = Ok items.
Proof.
  intros Name W. induction materials as [|m rest IH]; [now exists []|].
  destruct Name as [Name|Nil]; [|discriminate].
  pose proof (W m (or_introl eq_refl)) as D.
  destruct IH as [items I]; [now left | intros m' Hm'; apply W; now right|].
  cbn [material_items].
  destruct (phase_name phase); [|congruence].
  destruct (item m); [|congruence].
  cbn [key bind]. rewrite I; cbn [bind]. eexists; reflexivity.
Qed.

Lemma process_phases_total template params size_factor quality_factor
    (included : list Phase) :
  (forall phase, In phase included -> phase_billable template phase) ->
  forall lines h m,
  exists processed,
    process_phases template params size_factor quality_factor included lines h m
    = Ok processed.
Proof.
  induction included as [|phase rest IH]; intros W lines h m.
  - eexists; reflexivity.
  - destruct (W phase (or_introl eq_refl)) as (Name & Tasks & Materials).
    destruct (labor_items_total template phase (get (tasks phase) []))
      as [labor L]; [tauto | exact Tasks |].
    destruct (material_items_total phase (get (materials phase) []))
      as [material M]; [tauto | exact Materials |].
    destruct (labor_items_ok _ _ _ _ L) as [LaborSums _].
    destruct (material_items_ok _ _ _ M) as [MaterialSums _].
    cbn [process_phases]. unfold _process_phase.
    rewrite L, M; cbn [bind].
    rewrite add_items_app, LaborSums; cbn [bind fst snd].
    rewrite MaterialSums; cbn [bind].
    apply IH. intros p Hp. apply W. now right.
Qed.

(** [generate_estimate] returns an estimate for parameters that resolve,
    when the quality multiplier is not zero and every included phase can be
    turned into lines. *)
Lemma generate_estimate_for_returns template params factors quality_multiplier :
  generate_factors template params factors quality_multiplier ->
  quality_multiplier <> 0 ->
  (forall phase, In phase (included factors) -> phase_billable template phase) ->
  exists estimate, generate_estimate_for template params = Ok estimate.
Proof.
  intros (sf & scf & qf & Sf & Scf & Qf & Cs & Cc & Qm & Rate & Inc) NonZero W.
  apply size_factor_of_some in Sf as (fs & sizes & F & K & G).
  apply scope_factor_of_some in Scf as (fs' & scopes & F' & K' & G').
  assert (fs' = fs) as -> by congruence.
  apply typical_skilled_rate_some in Rate as (rates & skilled & L & S & T).
  unfold quality_factor_of in Qf.
  destruct (quality_tiers template) as [tiers|] eqn:Q; [|discriminate].
  destruct (process_phases_total template params sf qf (included factors) W [] 0 0)
    as [processed P].
  unfold generate_estimate_for, Dict.item.
  repeat (progress (cbn [key bind fst snd];
                    rewrite ?F, ?K, ?K', ?G, ?G', ?Q, ?Qf, ?Inc, ?P, ?Cs, ?Cc, ?Qm,
                      ?L, ?S, ?T)).
  unfold _print_detailed_estimate, Qc_eq_bool.
  destruct (Qc_eq_dec quality_multiplier 0); [contradiction|].
  cbn [bind]. eexists; reflexivity.
Qed.

Lemma Qc_differ (a b : Qc) : this a <> this b -> a <> b.
Proof. intros H ->. now apply H. Qed.

(** C1: for the same template and parameters, [calculate_sample_estimate]
    returns as material cost the raw material sum times size complexity
    times scope complexity, and [generate_estimate] the same raw material
    sum times the material multiplier of the quality tier; the sample
    estimate does not read the quality tiers at all, and the material cost
    of [generate_estimate] is the same in two templates that differ in
    their complexity multipliers only; and on the sample template with
    (large, gut_renovation, luxury) the two material costs and the two
    total costs differ. *)
Theorem material_cost_inconsistency :
  (forall template params sample generated,
      Validate.calculate_sample_estimate template
        (Classifier.kitchen_size params) (Classifier.scope params)
      = Ok (Some sample) ->
      generate_estimate_for template params = Ok generated ->
      exists factors quality_multiplier,
        generate_factors template params factors quality_multiplier
        /\ Totals.material_cost sample =
           raw_material_sum (included factors)
           * (size_complexity factors * scope_complexity factors)
        /\ Totals.material_cost (totals generated) =
           raw_material_sum (included factors) * quality_multiplier)
  /\ (forall template tiers size scope,
        Validate.calculate_sample_estimate (with_quality_tiers template tiers)
          size scope
        = Validate.calculate_sample_estimate template size scope)
  /\ (forall template template' params generated generated',
        phases template = phases template' ->
        quality_tiers template = quality_tiers template' ->
        (forall scope_factor scope_factor',
            scope_factor_of template (Classifier.scope params) = Some scope_factor ->
            scope_factor_of template' (Classifier.scope params) = Some scope_factor' ->
            phases_included scope_factor = phases_included scope_factor') ->
        generate_estimate_for template params = Ok generated ->
        generate_estimate_for template' params = Ok generated' ->
        Totals.material_cost (totals generated)
        = Totals.material_cost (totals generated'))
  /\ (exists template params sample generated,
        Validate.calculate_sample_estimate template
          (Classifier.kitchen_size params) (Classifier.scope params)
        = Ok (Some sample)
        /\ generate_estimate_for template params = Ok generated
        /\ Totals.material_cost sample <> Totals.material_cost (totals generated)
        /\ Totals.total_cost sample <> Totals.total_cost (totals generated)).
Proof.
  split; [|split; [|split]].
  - intros template params sample generated Hs Hg.
    apply calculate_sample_estimate_ok in Hs as (f' & Fs & _ & _ & Ms & _).
    apply generate_estimate_for_ok in Hg as (f & qm & Fg & _ & _ & _ & Mg & _).
    rewrite (factors_agree _ _ _ _ _ Fg Fs) in Ms.
    exists f, qm. repeat split; assumption.
  - reflexivity.
  - intros template template' params generated generated' P Q S H H'.
    apply generate_estimate_for_ok in H
      as (f & qm & (sf & scf & qf & _ & Scf & Qf & _ & _ & Qm & _ & Inc)
          & _ & _ & _ & -> & _).
    apply generate_estimate_for_ok in H'
      as (f' & qm' & (sf' & scf' & qf' & _ & Scf' & Qf' & _ & _ & Qm' & _ & Inc')
          & _ & _ & _ & -> & _).
    unfold quality_factor_of in Qf, Qf'. rewrite <- Q, Qf in Qf'.
    injection Qf' as <-.
    unfold included_phases in Inc, Inc'.
    rewrite <- P, <- (S _ _ Scf Scf'), Inc in Inc'.
    injection Inc' as <-. congruence.
  - exists Sample.kitchen, Sample.large_gut_luxury.
    do 2 eexists.
    split; [vm_compute; reflexivity|]. split; [vm_compute; reflexivity|].
    split; apply Qc_differ; vm_compute; discriminate.
Qed.

Lemma sample_estimates_run :
  generate_estimate_for Sample.kitchen Sample.large_gut_luxury
    = Ok Sample.generated_large_gut_luxury
  /\ Validate.calculate_sample_estimate Sample.kitchen "large" "gut_renovation"
     = Ok (Some Sample.sampled_large_gut).
Proof. split; vm_compute; reflexivity. Qed.

Lemma sample_resolution :
  generate_factors Sample.kitchen Sample.large_gut_luxury
    Sample.large_gut_factors Sample.luxury_multiplier.
Proof.
  eexists _, _, _. repeat split; reflexivity.
Qed.

(** C2 (as stated, refuted): on the sample template, for (large,
    gut_renovation, luxury), the total of [calculate_sample_estimate] is not
    the adjusted labor cost plus the raw material sum times the luxury
    material multiplier. *)
Lemma sample_estimate_total_ignores_quality :
  generate_factors Sample.kitchen Sample.large_gut_luxury
    Sample.large_gut_factors Sample.luxury_multiplier
  /\ Validate.calculate_sample_estimate Sample.kitchen "large" "gut_renovation"
     = Ok (Some Sample.sampled_large_gut)
  /\ Totals.total_cost Sample.sampled_large_gut <>
     adjusted_labor_cost Sample.large_gut_factors
     + raw_material_sum (included Sample.large_gut_factors)
       * Sample.luxury_multiplier.
Proof.
  split; [exact sample_resolution|]. split; [apply sample_estimates_run|].
  apply Qc_differ. vm_compute. discriminate.
Qed.

(** C2 (amended): the total cost is the adjusted labor cost plus the
    adjusted material cost, where the adjusted labor cost is (sum of task
    labor_hours over the included phases) x size complexity x scope
    complexity x labor_rates.skilled.typical in both entry points; the
    adjusted material cost is the raw material sum x the quality tier's
    material_multiplier in [generate_estimate], and the raw material sum x
    size complexity x scope complexity in [calculate_sample_estimate], which
    has no quality parameter. *)
Theorem total_cost_formula :
  (forall template params generated,
      generate_estimate_for template params = Ok generated ->
      exists factors quality_multiplier,
        generate_factors template params factors quality_multiplier
        /\ Totals.total_cost (totals generated) =
           adjusted_labor_cost factors
           + raw_material_sum (included factors) * quality_multiplier
        /\ Totals.labor_cost (totals generated) = adjusted_labor_cost factors
        /\ Totals.material_cost (totals generated) =
           raw_material_sum (included factors) * quality_multiplier)
  /\ (forall template size scope sample,
        Validate.calculate_sample_estimate template size scope = Ok (Some sample) ->
        exists factors,
          sample_factors template size scope factors
          /\ Totals.total_cost sample =
             adjusted_labor_cost factors
             + raw_material_sum (included factors)
               * size_complexity factors * scope_complexity factors
          /\ Totals.labor_cost sample = adjusted_labor_cost factors
          /\ Totals.material_cost sample =
             raw_material_sum (included factors)
             * size_complexity factors * scope_complexity factors).
Proof.
  split.
  - intros template params generated H.
    apply generate_estimate_for_ok in H as (f & qm & F & _ & _ & L & M & T & _).
    exists f, qm. rewrite T, L, M. repeat split; assumption.
  - intros template size scope sample H.
    apply calculate_sample_estimate_ok in H as (f & F & _ & L & M & T).
    exists f. rewrite T, L, M. repeat split; try assumption; ring.
Qed.

Lemma total_cost_formula_witness :
  (exists factors quality_multiplier,
      generate_factors Sample.kitchen Sample.large_gut_luxury factors
        quality_multiplier
      /\ Totals.total_cost (totals Sample.generated_large_gut_luxury) =
         adjusted_labor_cost factors
         + raw_material_sum (included factors) * quality_multiplier
      /\ Totals.labor_cost (totals Sample.generated_large_gut_luxury)
         = adjusted_labor_cost factors
      /\ Totals.material_cost (totals Sample.generated_large_gut_luxury) =
         raw_material_sum (included factors) * quality_multiplier)
  /\ (exists factors,
        sample_factors Sample.kitchen "large" "gut_renovation" factors
        /\ Totals.total_cost Sample.sampled_large_gut =
           adjusted_labor_cost factors
           + raw_material_sum (included factors)
             * size_complexity factors * scope_complexity factors
        /\ Totals.labor_cost Sample.sampled_large_gut = adjusted_labor_cost factors
        /\ Totals.material_cost Sample.sampled_large_gut =
           raw_material_sum (included factors)
           * size_complexity factors * scope_complexity factors).
Proof.
  split.
  - apply (proj1 total_cost_formula Sample.kitchen Sample.large_gut_luxury).
    vm_compute; reflexivity.
  - apply (proj2 total_cost_formula Sample.kitchen "large" "gut_renovation").
    vm_compute; reflexivity.
Defined.

(** The two entry points on the sample template: the parsed scenario 2
    is the (large, gut_renovation, luxury) estimate, and a cosmetic
    renovation bills the two listed phases in template order. *)
Example generate_estimate_scenario_2 :
  generate_estimate Sample.kitchen Classifier.scenario_2
  = Ok Sample.generated_large_gut_luxury.
Proof. vm_compute; reflexivity. Qed.

Example generate_estimate_cosmetic_lines :
  exists estimate,
    generate_estimate_for Sample.kitchen Sample.small_cosmetic_budget = Ok estimate
    /\ map line_key (line_items estimate) =
       [ ("Cabinet Installation", "Install base and wall cabinets");
         ("Cabinet Installation", "Base cabinets");
         ("Cabinet Installation", "Cabinet hardware");
         ("Painting", "Paint walls and trim");
         ("Painting", "Paint") ].
Proof. eexists; split; vm_compute; reflexivity. Qed.

Example sampled_large_gut_values :
  this (Totals.labor_hours Sample.sampled_large_gut) = (3627 # 40)%Q
  /\ this (Totals.labor_cost Sample.sampled_large_gut) = (47151 # 8)%Q
  /\ this (Totals.material_cost Sample.sampled_large_gut) = (239031 # 40)%Q
  /\ this (Totals.material_cost (totals Sample.generated_large_gut_luxury))
     = (67419 # 10)%Q.
Proof. vm_compute. repeat split. Qed.

Lemma material_cost_inconsistency_witness :
  exists factors quality_multiplier,
    generate_factors Sample.kitchen Sample.large_gut_luxury factors
      quality_multiplier
    /\ Totals.material_cost Sample.sampled_large_gut =
       raw_material_sum (included factors)
       * (size_complexity factors * scope_complexity factors)
    /\ Totals.material_cost (totals Sample.generated_large_gut_luxury) =
       raw_material_sum (included factors) * quality_multiplier.
Proof.
  apply (proj1 material_cost_inconsistency Sample.kitchen Sample.large_gut_luxury).
  - vm_compute; reflexivity.
  - vm_compute; reflexivity.
Defined.

(** *** The included phases *)

Lemma phases_in_list (ids : list string) (all_phases : list Phase) :
  forall kept,
    phases_in (PhaseList ids) all_phases = Ok kept ->
    kept = phases_of_subset ids all_phases.
Proof.
  induction all_phases as [|phase rest IH]; intros kept H.
  - now injection H as <-.
  - cbn [phases_in] in H. do 2 bind_inv H. injection H as <-.
    apply key_ok in E. rewrite (IH _ E0).
    unfold phases_of_subset; cbn [filter id_in]. rewrite E. reflexivity.
Qed.

Lemma phases_in_total (included : PhasesIncluded) (all_phases : list Phase) :
  (forall phase, In phase all_phases -> phase_id phase <> None) ->
  exists kept, phases_in included all_phases = Ok kept.
Proof.
  induction all_phases as [|phase rest IH]; intros W.
  - now exists [].
  - destruct IH as [kept K]; [intros p Hp; apply W; right; exact Hp|].
    pose proof (W phase (or_introl eq_refl)) as I.
    cbn [phases_in]. destruct (phase_id phase) as [identifier|]; [|congruence].
    rewrite K. cbn [key bind]. eexists; reflexivity.
Qed.

Lemma filter_struck {A : Type} (f : A -> bool) (l : list A) :
  struck_from (filter f l) l.
Proof.
  induction l as [|x l IH]; cbn [filter]; [constructor|].
  destruct (f x); constructor; exact IH.
Qed.

(** C8: with "phases_included" absent or "all", the selection is every
    phase of the template in template order; with a list of identifiers it
    is exactly the phases whose phase_id is in the list, in template order
    (and it succeeds when every phase has a phase_id); and both entry points
    compute their result from that selection: [generate_estimate] emits the
    lines of exactly these phases, in order, and the labor hours and material
    cost of either entry point are the sums over exactly these phases, times
    the multipliers the parameters resolve to in the template. *)
Theorem included_phases_selection :
  (forall template scope_factor all_phases,
      phases template = Some all_phases ->
      (phases_included scope_factor = None
       \/ phases_included scope_factor = Some (PhaseText "all") ->
       included_phases template scope_factor = Ok all_phases)
      /\ (forall ids,
            phases_included scope_factor = Some (PhaseList ids) ->
            (forall kept,
                included_phases template scope_factor = Ok kept ->
                kept = phases_of_subset ids all_phases
                /\ struck_from kept all_phases
                /\ (forall phase,
                      In phase kept <->
                      In phase all_phases
                      /\ exists identifier,
                           phase_id phase = Some identifier /\ In identifier ids))
            /\ ((forall phase, In phase all_phases -> phase_id phase <> None) ->
                included_phases template scope_factor
                = Ok (phases_of_subset ids all_phases))))
  /\ (forall template params generated,
        generate_estimate_for template params = Ok generated ->
        exists size_factor scope_factor quality_factor kept
               size_multiplier scope_multiplier quality_multiplier,
          size_factor_of template (Classifier.kitchen_size params)
            = Some size_factor
          /\ scope_factor_of template (Classifier.scope params) = Some scope_factor
          /\ quality_factor_of template (Classifier.quality_tier params)
             = Some quality_factor
          /\ size_complexity_multiplier size_factor = Some size_multiplier
          /\ scope_complexity_multiplier scope_factor = Some scope_multiplier
          /\ material_multiplier quality_factor = Some quality_multiplier
          /\ included_phases template scope_factor = Ok kept
          /\ map line_key (line_items generated) = expected_lines kept
          /\ Totals.labor_hours (totals generated)
             = task_hours_sum kept * (size_multiplier * scope_multiplier)
          /\ Totals.material_cost (totals generated)
             = raw_material_sum kept * quality_multiplier)
  /\ (forall template size scope sample,
        Validate.calculate_sample_estimate template size scope = Ok (Some sample) ->
        exists size_factor scope_factor kept,
          size_factor_of template size = Some size_factor
          /\ scope_factor_of template scope = Some scope_factor
          /\ included_phases template scope_factor = Ok kept
          /\ Totals.labor_hours sample
             = task_hours_sum kept
               * (get (size_complexity_multiplier size_factor) 1
                  * get (scope_complexity_multiplier scope_factor) 1)
          /\ Totals.material_cost sample
             = raw_material_sum kept
               * (get (size_complexity_multiplier size_factor) 1
                  * get (scope_complexity_multiplier scope_factor) 1)).
Proof.
  split; [|split].
  - intros template scope_factor all_phases P. unfold included_phases.
    rewrite P. split.
    + intros [-> | ->]; reflexivity.
    + intros ids ->. cbn [get is_all key bind]. split.
      * intros kept K. apply phases_in_list in K. subst kept.
        split; [reflexivity|]. split; [apply filter_struck|].
        intros phase. unfold phases_of_subset. rewrite filter_In.
        split; intros [I M]; (split; [exact I|]).
        -- destruct (phase_id phase) as [identifier|]; [|discriminate].
           exists identifier. split; [reflexivity|].
           apply existsb_exists in M as (y & Y & Eq).
           apply String.eqb_eq in Eq. now subst y.
        -- destruct M as (identifier & -> & M).
           apply existsb_exists. exists identifier.
           split; [exact M | apply String.eqb_refl].
      * intros W. destruct (phases_in_total (PhaseList ids) all_phases W) as [kept K].
        rewrite K. now rewrite (phases_in_list _ _ _ K).
  - intros template params generated H.
    apply generate_estimate_for_ok in H
      as (f & qm & (sf & scf & qf & Sf & Scf & Qf & Cs & Cc & Qm & _ & Inc)
          & _ & H & _ & M & _ & Lines).
    exists sf, scf, qf, (included f), (size_complexity f), (scope_complexity f), qm.
    repeat split; assumption.
  - intros template size scope sample H.
    apply calculate_sample_estimate_ok in H
      as (f & (sf & scf & Sf & Scf & Cs & Cc & _ & Inc) & H & _ & M & _).
    exists sf, scf, (included f). rewrite Cs, Cc.
    repeat split; assumption.
Qed.

Lemma included_phases_selection_witness :
  included_phases Sample.kitchen Sample.cosmetic_scope
    = Ok [Sample.cabinets; Sample.painting]
  /\ (map line_key (line_items SampleSelection.generated_small_cosmetic_budget)
      = expected_lines [Sample.cabinets; Sample.painting]
      /\ Totals.labor_hours (totals SampleSelection.generated_small_cosmetic_budget)
         = task_hours_sum [Sample.cabinets; Sample.painting]
           * (Sample.num 4 5 * Sample.num 3 5)
      /\ Totals.material_cost (totals SampleSelection.generated_small_cosmetic_budget)
         = raw_material_sum [Sample.cabinets; Sample.painting] * Sample.num 7 10)
  /\ (Totals.labor_hours SampleSelection.sampled_small_cosmetic
      = task_hours_sum [Sample.cabinets; Sample.painting]
        * (Sample.num 4 5 * Sample.num 3 5)
      /\ Totals.material_cost SampleSelection.sampled_small_cosmetic
         = raw_material_sum [Sample.cabinets; Sample.painting]
           * (Sample.num 4 5 * Sample.num 3 5)).
Proof.
  split; [|split].
  - apply (proj2 (proj2 (proj1 included_phases_selection
                           Sample.kitchen Sample.cosmetic_scope
                           [Sample.demolition; Sample.cabinets; Sample.painting]
                           eq_refl)
                        ["painting"; "cabinets"] eq_refl)).
    intros phase [<-|[<-|[<-|[]]]]; discriminate.
  - destruct (proj1 (proj2 included_phases_selection)
                Sample.kitchen Sample.small_cosmetic_budget
                SampleSelection.generated_small_cosmetic_budget)
      as (sf & scf & qf & kept & cs & cc & qm
          & Sf & Scf & Qf & Cs & Cc & Qm & Inc & Lines & H & M).
    + vm_compute; reflexivity.
    + injection Sf as <-. injection Scf as <-. injection Qf as <-.
      injection Cs as <-. injection Cc as <-. injection Qm as <-.
      injection Inc as <-. repeat split; assumption.
  - destruct (proj2 (proj2 included_phases_selection)
                Sample.kitchen "small" "cosmetic"
                SampleSelection.sampled_small_cosmetic)
      as (sf & scf & kept & Sf & Scf & Inc & H & M).
    + vm_compute; reflexivity.
    + injection Sf as <-. injection Scf as <-. injection Inc as <-.
      split; assumption.
Defined.

End EstimateFacts.

(** ** Template validation *)

Module ValidateFacts.
Import Template Validate.

Lemma filter_nil {A : Type} (f : A -> bool) (l : list A) :
  (forall x, In x l -> f x = false) -> filter f l = [].
Proof.
  induction l as [|x l IH]; intros H; [reflexivity|].
  cbn [filter]. rewrite (H x (or_introl eq_refl)).
  apply IH. intros y Hy. apply H. right; exact Hy.
Qed.



Example validate_phases_first_incomplete_phase :
  validate_phases
    [ Sample.demolition;
      mkPhase (Some "cabinets") None (Some 2%Z) None (Some []);
      mkPhase None (Some "Painting") (Some 3%Z) (Some []) (Some []) ]
  = (false, [PhaseMissingFields 2 ["phase_name"; "tasks"]]).
Proof. reflexivity. Qed.

Example main_on_the_sample_template :
  main (Some Sample.kitchen)
  = ([AllRequiredFieldsPresent; PhasesValidated 3 4 4], Completed).
Proof. vm_compute; reflexivity. Qed.



End ValidateFacts.

(** * Further properties of the code *)

(** ** Case mapping *)

Module CaseFacts.
Import PyStr.

Lemma to_lower_idempotent (c : ascii) : to_lower (to_lower c) = to_lower c.
Proof. destruct c as [[] [] [] [] [] [] [] []]; reflexivity. Qed.

Lemma lower_idempotent (s : string) : lower (lower s) = lower s.
Proof.
  induction s as [|c s IH]; [reflexivity|].
  cbn [lower]. now rewrite to_lower_idempotent, IH.
Qed.

Lemma title_char_lower (c : ascii) :
  is_lower (to_lower c) = is_lower c || is_upper c
  /\ is_upper (to_lower c) = false
  /\ (is_lower c = false -> is_upper c = false -> to_lower c = c)
  /\ (is_upper c = true -> to_upper (to_lower c) = c)
  /\ (is_lower c = true -> to_lower c = c).
Proof. destruct c as [[] [] [] [] [] [] [] []]; repeat split; discriminate || reflexivity. Qed.

(** [s.lower().title() == s.title()] for an ASCII text *)
Lemma title_from_lower (s : string) :
  AsciiText.is_ascii s = true ->
  forall previous_is_cased,
    title_from previous_is_cased (lower s) = title_from previous_is_cased s.
Proof.
  induction s as [|c s IH]; intros A previous; [reflexivity|].
  cbn [AsciiText.is_ascii] in A. apply andb_true_iff in A as [_ A].
  cbn [lower title_from].
  destruct (title_char_lower c) as (L & U & Same & Up & Low).
  rewrite L, U.
  destruct (is_lower c) eqn:El; cbn [orb].
  - rewrite (Low eq_refl), (IH A). reflexivity.
  - destruct (is_upper c) eqn:Eu.
    + rewrite (IH A), (Up eq_refl). destruct previous; reflexivity.
    + rewrite (Same eq_refl eq_refl), (IH A). reflexivity.
Qed.

Lemma title_lower (s : string) :
  AsciiText.is_ascii s = true -> title (lower s) = title s.
Proof. intros A. now apply title_from_lower. Qed.

End CaseFacts.

(** ** The classifier, rule by rule *)

Module ClassifierRules.
Import PyStr PyStrFacts Classifier ClassifierSpec.

Lemma any_word_in_iff (words : list string) (text : string) :
  any_word_in words text = true <-> mentions words text.
Proof.
  unfold any_word_in. rewrite existsb_exists.
  split; intros (w & I & H); exists w; (split; [exact I|]);
    now apply contains_occurs.
Qed.

Lemma any_word_in_not (words : list string) (text : string) :
  any_word_in words text = false <-> silent_on words text.
Proof.
  split.
  - intros F w I O.
    assert (any_word_in words text = true)
      by (apply any_word_in_iff; exists w; split; assumption).
    congruence.
  - intros H. destruct (any_word_in words text) eqn:E; [|reflexivity].
    apply any_word_in_iff in E as (w & I & O). destruct (H w I O).
Qed.

Lemma group_decided (words : list string) (text : string) :
  (any_word_in words text = true /\ mentions words text)
  \/ (any_word_in words text = false /\ silent_on words text).
Proof.
  destruct (any_word_in words text) eqn:E.
  - left. split; [reflexivity | now apply any_word_in_iff].
  - right. split; [reflexivity | now apply any_word_in_not].
Qed.

Lemma mentions_not_silent (words : list string) (text : string) :
  mentions words text -> silent_on words text -> False.
Proof. intros (w & I & O) S. exact (S w I O). Qed.

Ltac rules :=
  repeat split; intros; try discriminate; try reflexivity;
  repeat match goal with
         | H : _ /\ _ |- _ => destruct H
         end;
  try assumption;
  try (exfalso; eauto using mentions_not_silent; fail).

(** X1: the size rule, as a decision table: small when a word of the
    small group occurs in the lower-cased text; large when none does and a
    word of the large group occurs; xl when neither group occurs and a word
    of the xl group does; medium exactly when none of the three groups
    occurs.  An earlier group always wins. *)
Theorem size_rule_table (description : string) :
  let text := lower description in
  let size := kitchen_size (parse_natural_language description) in
  (size = "small" <-> mentions size_small_words text)
  /\ (size = "large" <->
      silent_on size_small_words text /\ mentions size_large_words text)
  /\ (size = "xl" <->
      silent_on size_small_words text /\ silent_on size_large_words text
      /\ mentions size_xl_words text)
  /\ (size = "medium" <->
      silent_on size_small_words text /\ silent_on size_large_words text
      /\ silent_on size_xl_words text).
Proof.
  cbv zeta. unfold parse_natural_language; cbn [kitchen_size].
  destruct (group_decided size_small_words (lower description)) as [[E1 S]|[E1 S]];
  destruct (group_decided size_large_words (lower description)) as [[E2 L]|[E2 L]];
  destruct (group_decided size_xl_words (lower description)) as [[E3 X]|[E3 X]];
  rewrite ?E1, ?E2, ?E3; rules.
Qed.

(** X2: the scope and quality rules, as decision tables.  In
    particular "high-end" is a luxury word tested before "high", so a text
    is classified high_end only if no luxury word occurs in it. *)
Theorem scope_and_quality_rule_tables (description : string) :
  let text := lower description in
  let scope := scope (parse_natural_language description) in
  let quality := quality_tier (parse_natural_language description) in
  ((scope = "cosmetic" <-> mentions scope_cosmetic_words text)
   /\ (scope = "gut_renovation" <->
       silent_on scope_cosmetic_words text /\ mentions scope_gut_words text)
   /\ (scope = "standard" <->
       silent_on scope_cosmetic_words text /\ silent_on scope_gut_words text))
  /\ ((quality = "budget" <-> mentions quality_budget_words text)
      /\ (quality = "luxury" <->
          silent_on quality_budget_words text
          /\ mentions quality_luxury_words text)
      /\ (quality = "high_end" <->
          silent_on quality_budget_words text
          /\ silent_on quality_luxury_words text
          /\ mentions quality_high_words text)
      /\ (quality = "mid_range" <->
          silent_on quality_budget_words text
          /\ silent_on quality_luxury_words text
          /\ silent_on quality_high_words text))
  /\ (occurs_in "high-end" text -> quality <> "high_end").
Proof.
  cbv zeta. unfold parse_natural_language; cbn [Classifier.scope quality_tier].
  split; [|split].
  - destruct (group_decided scope_cosmetic_words (lower description))
      as [[E1 C]|[E1 C]];
    destruct (group_decided scope_gut_words (lower description))
      as [[E2 G]|[E2 G]];
    rewrite ?E1, ?E2; rules.
  - destruct (group_decided quality_budget_words (lower description))
      as [[E1 B]|[E1 B]];
    destruct (group_decided quality_luxury_words (lower description))
      as [[E2 L]|[E2 L]];
    destruct (group_decided quality_high_words (lower description))
      as [[E3 H]|[E3 H]];
    rewrite ?E1, ?E2, ?E3; rules.
  - intros O.
    assert (L : any_word_in quality_luxury_words (lower description) = true).
    { apply any_word_in_iff. exists "high-end". split; [cbn; tauto | exact O]. }
    rewrite L. destruct (any_word_in quality_budget_words _); discriminate.
Qed.

Lemma scope_and_quality_rule_tables_witness :
  quality_tier (parse_natural_language "A HIGH-END kitchen, please") <> "high_end".
Proof.
  apply (proj2 (proj2 (scope_and_quality_rule_tables "A HIGH-END kitchen, please"))).
  apply contains_occurs. reflexivity.
Defined.

(** X3: the classification reads the description through [lower] only:
    two descriptions that differ in the case of their letters get the same
    parameters, and lower-casing a description beforehand changes nothing. *)
Theorem classification_ignores_case (description description' : string) :
  (lower description = lower description' ->
   parse_natural_language description = parse_natural_language description')
  /\ parse_natural_language (lower description)
     = parse_natural_language description.
Proof.
  split.
  - intros E. unfold parse_natural_language. rewrite E. reflexivity.
  - unfold parse_natural_language. rewrite CaseFacts.lower_idempotent. reflexivity.
Qed.

Lemma classification_ignores_case_witness :
  parse_natural_language "SMALL Galley, Budget REFRESH"
  = parse_natural_language "small galley, budget refresh".
Proof.
  apply (proj1 (classification_ignores_case
                  "SMALL Galley, Budget REFRESH" "small galley, budget refresh")).
  reflexivity.
Defined.

End ClassifierRules.

(** ** The routes: statuses, texts and log *)

Module RouteFacts.
Import PyStr App AppLog.
Open Scope Z_scope.

Lemma is_empty_lower (s : string) : is_empty (lower s) = is_empty s.
Proof. destruct s; reflexivity. Qed.

Ltac unreadable :=
  let d := fresh in let E := fresh in let R1 := fresh in let R2 := fresh in
  intros (d & E & R1 & R2); injection E as <-;
  unfold team_is_text_if_present in R1, R2;
  repeat match goal with
         | H : _ \/ _ |- _ => destruct H
         | H : exists _, _ |- _ => destruct H
         end; congruence.

(** X4: [POST /sports/predict] answers 200, or 400 with the team error, or
    500 with the generic error, and nothing else; it answers 500 exactly
    when the body is not an object or holds under team1 or team2 something
    that is not a string. *)
Theorem sports_predict_statuses hash now (data : json) :
  let r := App.sports_predict hash now data in
  (snd r = 200 \/ r = team_error \/ r = sports_unavailable)
  /\ (snd r = 500 <-> ~ sports_request_readable data).
Proof.
  cbv zeta. unfold App.sports_predict, App.sports_predict_try.
  destruct data as [| | | | |d];
    try (cbn; split; [now right; right|];
         split; [intros _ (d & E & _); discriminate E | reflexivity]).
  cbn [data_get bind]. unfold Dict.get_default.
  destruct (Dict.get "team1" d) as [[| | |name1| |]|] eqn:T1;
    cbn [value_lower bind];
    try (split; [now right; right | split; [intros _; unreadable | reflexivity]]);
  destruct (Dict.get "team2" d) as [[| | |name2| |]|] eqn:T2;
    cbn [value_lower bind];
    try (split; [now right; right | split; [intros _; unreadable | reflexivity]]);
  rewrite ?is_empty_lower; cbn [is_empty orb];
  repeat match goal with
         | |- context [is_empty ?s] => is_var s; destruct s; cbn [is_empty orb]
         end;
  (split;
   [ (now left) || (now right; left)
   | split; [cbn; discriminate |] ]);
  intros H; exfalso; apply H; exists d; unfold team_is_text_if_present;
  rewrite T1, T2; repeat split; (now left) || (right; eexists; reflexivity).
Qed.

Lemma sports_predict_given hash now d name1 name2 :
  team_given d "team1" name1 -> team_given d "team2" name2 ->
  App.sports_predict hash now (JDict d) =
  (JDict (process_sports_prediction hash now
            (Dict.get_default "sport" (JStr "nfl") d)
            (lower name1) (lower name2)), 200).
Proof.
  intros [T1 N1] [T2 N2].
  unfold App.sports_predict, App.sports_predict_try.
  assert (D1 : Dict.get_default "team1" (JStr "") d = JStr name1)
    by (unfold Dict.get_default; now rewrite T1).
  assert (D2 : Dict.get_default "team2" (JStr "") d = JStr name2)
    by (unfold Dict.get_default; now rewrite T2).
  cbn [data_get bind]. rewrite D1, D2.
  cbn [value_lower bind]. rewrite !is_empty_lower.
  destruct name1; [congruence|]. destruct name2; [congruence|]. reflexivity.
Qed.

(** X5: when both teams are given, the answer is a 200 whose texts are
    built from the title form of the lower-cased names, whose confidence is
    computed from the hash of the lower-cased names joined, and whose sport
    is echoed from the request, "nfl" when absent; for names of ASCII
    characters the texts show the names title-cased as the client wrote
    them, whatever the case of their letters. *)
Theorem sports_prediction_shows_given_names hash now d name1 name2 :
  team_given d "team1" name1 -> team_given d "team2" name2 ->
  let r := App.sports_predict hash now (JDict d) in
  snd r = 200
  /\ body_field "prediction" r
     = Some (JStr (title (lower name1) ++ " wins by 3-7 points"))
  /\ body_field "matchup" r
     = Some (JStr (title (lower name1) ++ " vs " ++ title (lower name2)))
  /\ body_field "confidence" r =
     Some (JInt (75 + hash (lower name1 ++ lower name2) mod 20))
  /\ body_field "sport" r = Some (Dict.get_default "sport" (JStr "nfl") d)
  /\ (AsciiText.is_ascii name1 = true -> AsciiText.is_ascii name2 = true ->
      body_field "prediction" r
      = Some (JStr (title name1 ++ " wins by 3-7 points"))
      /\ body_field "matchup" r
         = Some (JStr (title name1 ++ " vs " ++ title name2))).
Proof.
  intros G1 G2. cbv zeta. rewrite (sports_predict_given hash now d name1 name2 G1 G2).
  unfold body_field, process_sports_prediction, sports_confidence.
  cbn [fst snd Dict.get String.eqb Ascii.eqb Bool.eqb].
  repeat split. all: rewrite !CaseFacts.title_lower by assumption; reflexivity.
Qed.

Lemma sports_prediction_shows_given_names_witness :
  body_field "prediction"
    (App.sports_predict sample_hash sample_now
       (JDict [("team1", JStr "BOSTON celtics"); ("team2", JStr "la Lakers")]))
  = Some (JStr "Boston Celtics wins by 3-7 points")
  /\ body_field "matchup"
       (App.sports_predict sample_hash sample_now
          (JDict [("team1", JStr "BOSTON celtics"); ("team2", JStr "la Lakers")]))
     = Some (JStr "Boston Celtics vs La Lakers").
Proof.
  refine (proj2 (proj2 (proj2 (proj2 (proj2
            (sports_prediction_shows_given_names sample_hash sample_now
               [("team1", JStr "BOSTON celtics"); ("team2", JStr "la Lakers")]
               "BOSTON celtics" "la Lakers" _ _))))) _ _).
  - split; [reflexivity | discriminate].
  - split; [reflexivity | discriminate].
  - reflexivity.
  - reflexivity.
Defined.

Lemma crypto_predict_dict hash now repr (d : Dict.dict json) :
  App.crypto_predict hash now repr (JDict d) =
  match text_or "bitcoin" (Dict.get "coin" d) with
  | Some coin =>
      match process_crypto_prediction hash now repr (lower coin)
              (Dict.get_default "timeframe" (JStr "24h") d) with
      | Ok prediction => (JDict prediction, 200)
      | Raise _ => crypto_unavailable
      end
  | None => crypto_unavailable
  end.
Proof.
  unfold App.crypto_predict, App.crypto_predict_try.
  cbn [data_get bind]. unfold Dict.get_default at 1.
  destruct (Dict.get "coin" d) as [[| | |coin| |]|];
    cbn [text_or value_lower bind]; try reflexivity;
    destruct (process_crypto_prediction _ _ _ _ _); reflexivity.
Qed.

(** [process_crypto_prediction] raises exactly on a timeframe that is a
    list or an object. *)
Lemma process_crypto_prediction_hashable hash now repr coin (timeframe : json) :
  match process_crypto_prediction hash now repr coin timeframe with
  | Ok _ => hashable timeframe = true
  | Raise e => hashable timeframe = false /\ e = TypeError "unhashable type"
  end.
Proof.
  unfold process_crypto_prediction.
  destruct timeframe; cbn [target_get bind hashable]; auto.
Qed.

(** X6: [POST /crypto/predict] answers 200 or 500 with the generic error,
    never 400; it answers 500 exactly when the body is not an object, or
    holds a coin that is not a string, or a timeframe that is a list or an
    object; otherwise the answer is the prediction for the lower-cased coin
    (bitcoin when absent) and the timeframe as sent (24h when absent). *)
Theorem crypto_predict_statuses hash now repr (data : json) :
  let r := App.crypto_predict hash now repr data in
  (snd r = 200 \/ r = crypto_unavailable)
  /\ (snd r = 500 <-> ~ crypto_request_readable data)
  /\ (forall d coin,
        data = JDict d ->
        text_or "bitcoin" (Dict.get "coin" d) = Some coin ->
        hashable (Dict.get_default "timeframe" (JStr "24h") d) = true ->
        exists prediction,
          App.process_crypto_prediction hash now repr (lower coin)
            (Dict.get_default "timeframe" (JStr "24h") d) = Ok prediction
          /\ r = (JDict prediction, 200)).
Proof.
  cbv zeta.
  destruct data as [| | | | |d];
    try (split; [now right|];
         split; [split; [intros _ (d & c & E & _); discriminate E | reflexivity]
                |intros d c E; discriminate E]).
  rewrite crypto_predict_dict. unfold crypto_request_readable.
  destruct (text_or "bitcoin" (Dict.get "coin" d)) as [coin|] eqn:C.
  - pose proof (process_crypto_prediction_hashable hash now repr (lower coin)
                  (Dict.get_default "timeframe" (JStr "24h") d)) as P.
    destruct (process_crypto_prediction hash now repr (lower coin) _)
      as [p|e] eqn:R.
    + split; [now left|]. split.
      * split; [discriminate|]. intros H. exfalso. apply H.
        exists d, coin. repeat split; [exact C | exact P].
      * intros d' c E T _. injection E as <-. rewrite C in T.
        injection T as <-. rewrite R. exists p. split; reflexivity.
    + destruct P as [P _]. split; [now right|]. split.
      * split; [|reflexivity]. intros _ (d' & c & E & _ & H).
        injection E as <-. congruence.
      * intros d' c E T H. injection E as <-. congruence.
  - split; [now right|]. split.
    + split; [|reflexivity]. intros _ (d' & c & E & T & _).
      injection E as <-. rewrite C in T. discriminate T.
    + intros d' c E T S. injection E as <-. rewrite C in T. discriminate T.
Qed.

Lemma crypto_predict_statuses_witness :
  exists prediction,
    App.process_crypto_prediction sample_hash sample_now (fun _ => "")
      "bitcoin" (JStr "24h") = Ok prediction
    /\ App.crypto_predict sample_hash sample_now (fun _ => "")
         (JDict [("coin", JStr "BitCoin")]) = (JDict prediction, 200).
Proof.
  apply (proj2 (proj2 (crypto_predict_statuses sample_hash sample_now
                         (fun _ => "") (JDict [("coin", JStr "BitCoin")])))
           [("coin", JStr "BitCoin")] "BitCoin"); reflexivity.
Defined.

Ltac key_cases :=
  repeat match goal with
         | |- context [String.eqb ?k ?x] =>
             is_var x;
             let E := fresh "E" in
             destruct (String.eqb k x) eqn:E;
             [apply String.eqb_eq in E; subst x | apply String.eqb_neq in E]
         end.

Lemma price_target_known (coin timeframe : string) :
  Dict.get_default timeframe "TBD" (Dict.get_default coin [] price_targets) <> "TBD"
  <-> In coin ["bitcoin"; "ethereum"] /\ In timeframe ["1h"; "6h"; "24h"; "48h"].
Proof.
  unfold Dict.get_default, price_targets. cbn [Dict.get].
  key_cases; cbn [Dict.get]; key_cases; cbn [In];
    (split; [intros H; try (exfalso; apply H; reflexivity); tauto
            |intros [[?|[?|[]]] [?|[?|[?|[?|[]]]]]]; congruence || discriminate]).
Qed.

(** X7: in a crypto prediction the label is "bullish" exactly when the
    hash of coin and timeframe is at least 6 modulo 25 (confidence above 75)
    and "neutral" otherwise; the price target is "TBD" unless the coin is
    bitcoin or ethereum and the timeframe one of the texts 1h, 6h, 24h, 48h;
    coin and timeframe are echoed. *)
Theorem crypto_prediction_content hash now repr coin (timeframe : json) prediction :
  process_crypto_prediction hash now repr coin timeframe = Ok prediction ->
  let h := hash (coin ++ format repr timeframe) mod 25 in
  (Dict.get "prediction" prediction = Some (JStr "bullish") /\ 6 <= h
   \/ Dict.get "prediction" prediction = Some (JStr "neutral") /\ h < 6)
  /\ Dict.get "confidence" prediction = Some (JInt (70 + h))
  /\ (exists target,
        Dict.get "price_target" prediction = Some (JStr target)
        /\ (target <> "TBD" <->
            In coin ["bitcoin"; "ethereum"]
            /\ exists text, timeframe = JStr text
                 /\ In text ["1h"; "6h"; "24h"; "48h"]))
  /\ Dict.get "coin" prediction = Some (JStr coin)
  /\ Dict.get "timeframe" prediction = Some timeframe.
Proof.
  intros H. cbv zeta. unfold process_crypto_prediction in H.
  destruct (target_get timeframe _) as [target|] eqn:T; [|discriminate].
  cbn [bind] in H. injection H as <-.
  cbn [Dict.get String.eqb Ascii.eqb Bool.eqb]. unfold crypto_confidence.
  split; [|split; [reflexivity|split; [|split; reflexivity]]].
  - destruct (75 <? 70 + hash (coin ++ format repr timeframe) mod 25) eqn:L;
      [left; apply Z.ltb_lt in L | right; apply Z.ltb_ge in L];
      (split; [reflexivity | lia]).
  - exists target. split; [reflexivity|].
    destruct timeframe; cbn [target_get] in T; try discriminate;
      injection T as <-;
      try (split; [intros H; now destruct H
                  |intros (_ & text & E & _); discriminate E]).
    rewrite price_target_known. split.
    + intros [C I]. split; [exact C|]. eexists; split; [reflexivity | exact I].
    + intros (C & text & E & I). injection E as <-. split; assumption.
Qed.

Lemma crypto_prediction_content_witness :
  exists target,
    Dict.get "price_target"
      match process_crypto_prediction sample_hash sample_now (fun _ => "")
              "ethereum" (JStr "6h") with
      | Ok p => p
      | Raise _ => []
      end = Some (JStr target)
    /\ (target <> "TBD" <->
        In "ethereum" ["bitcoin"; "ethereum"]
        /\ exists text, JStr "6h" = JStr text
             /\ In text ["1h"; "6h"; "24h"; "48h"]).
Proof.
  apply (proj1 (proj2 (proj2
           (crypto_prediction_content sample_hash sample_now (fun _ => "")
              "ethereum" (JStr "6h") _ eq_refl)))).
Defined.

(** X8: the sports route with its log: the response is the one of the
    route without the log; a 200 leaves exactly two records, the prediction
    line and one activity record with action "sports_prediction", status
    "success", the app_id and user_id of the request ("unknown" and
    "anonymous" when absent) and the later clock reading; a 400 leaves no
    record at all; a 500 leaves exactly one error record.  So an activity
    record is written exactly when the answer is 200. *)
Theorem sports_predict_log hash now logged_at (data : json) :
  let run := AppLog.sports_predict hash now logged_at data in
  snd run = App.sports_predict hash now data
  /\ ((snd (snd run) = 200
       /\ exists d name1 name2,
            data = JDict d
            /\ Dict.get_default "team1" (JStr "") d = JStr name1
            /\ Dict.get_default "team2" (JStr "") d = JStr name2
            /\ fst run =
               [ InfoSportsPrediction
                   (Dict.get_default "app_id" (JStr "unknown") d)
                   (Dict.get_default "user_id" (JStr "anonymous") d)
                   (lower name1) (lower name2);
                 InfoActivity
                   (activity logged_at
                      (Dict.get_default "app_id" (JStr "unknown") d)
                      "sports_prediction" "success"
                      (Dict.get_default "user_id" (JStr "anonymous") d)) ])
      \/ (snd run = team_error /\ fst run = [])
      \/ (snd run = sports_unavailable
          /\ exists e, fst run = [ErrorSportsPrediction e]))
  /\ ((exists a, In (InfoActivity a) (fst run)) <-> snd (snd run) = 200).
Proof.
  cbv zeta.
  assert (Cases :
    snd (AppLog.sports_predict hash now logged_at data)
      = App.sports_predict hash now data
    /\ ((snd (snd (AppLog.sports_predict hash now logged_at data)) = 200
         /\ exists d name1 name2,
              data = JDict d
              /\ Dict.get_default "team1" (JStr "") d = JStr name1
              /\ Dict.get_default "team2" (JStr "") d = JStr name2
              /\ fst (AppLog.sports_predict hash now logged_at data) =
                 [ InfoSportsPrediction
                     (Dict.get_default "app_id" (JStr "unknown") d)
                     (Dict.get_default "user_id" (JStr "anonymous") d)
                     (lower name1) (lower name2);
                   InfoActivity
                     (activity logged_at
                        (Dict.get_default "app_id" (JStr "unknown") d)
                        "sports_prediction" "success"
                        (Dict.get_default "user_id" (JStr "anonymous") d)) ])
        \/ (snd (AppLog.sports_predict hash now logged_at data) = team_error
            /\ fst (AppLog.sports_predict hash now logged_at data) = [])
        \/ (snd (AppLog.sports_predict hash now logged_at data) = sports_unavailable
            /\ exists e, fst (AppLog.sports_predict hash now logged_at data)
                         = [ErrorSportsPrediction e]))).
  { unfold AppLog.sports_predict, AppLog.sports_predict_try,
      App.sports_predict, App.sports_predict_try.
    destruct data as [| | | | |d];
      try (split; [reflexivity|]; right; right;
           split; [reflexivity | eexists; reflexivity]).
    cbn [data_get bind lbind lift fst snd app].
    destruct (Dict.get_default "team1" (JStr "") d) as [| | |name1| |] eqn:T1;
      cbn [value_lower bind lbind lift fst snd app];
      try (split; [reflexivity|]; right; right;
           split; [reflexivity | eexists; reflexivity]);
    destruct (Dict.get_default "team2" (JStr "") d) as [| | |name2| |] eqn:T2;
      cbn [value_lower bind lbind lift fst snd app];
      try (split; [reflexivity|]; right; right;
           split; [reflexivity | eexists; reflexivity]).
    rewrite !is_empty_lower.
    destruct name1 as [|c1 name1]; cbn [is_empty orb];
      [split; [reflexivity|]; right; left; split; reflexivity|].
    destruct name2 as [|c2 name2]; cbn [is_empty orb];
      [split; [reflexivity|]; right; left; split; reflexivity|].
    split; [reflexivity|]. left. split; [reflexivity|].
    exists d, (String c1 name1), (String c2 name2).
    repeat split; assumption || reflexivity. }
  destruct Cases as [Same Cases]. split; [exact Same|]. split; [exact Cases|].
  destruct Cases as [[S (d & t1 & t2 & _ & _ & _ & L)] | [[R L] | [R [e L]]]];
    rewrite L.
  - split; [intros _; exact S|]. intros _. eexists. right; left; reflexivity.
  - rewrite R. split; [intros [a []] | discriminate].
  - rewrite R. split; [|discriminate].
    intros [a [H|[]]]. discriminate H.
Qed.


End RouteFacts.

(** ** Validation and the run of [main] *)

Module MainFacts.
Import Template Validate EstimateSpec ResultFacts.

Lemma nothing_missing (f : string -> bool) (fields : list string) :
  filter (fun field => negb (f field)) fields = [] ->
  forall field, In field fields -> f field = true.
Proof.
  intros Nil field I. destruct (f field) eqn:E; [reflexivity|].
  assert (In field (filter (fun field => negb (f field)) fields))
    by (apply filter_In; split; [exact I | now rewrite E]).
  rewrite Nil in H. destruct H.
Qed.

Lemma validate_phases_loop_complete (phases : list Phase) :
  Forall phase_complete phases ->
  forall i total_tasks total_materials,
    validate_phases_loop i phases total_tasks total_materials
    = inr (total_tasks + List.length (all_tasks phases),
           total_materials + List.length (all_materials phases))%nat.
Proof.
  induction 1 as [|phase rest C _ IH]; intros i tt tm.
  - cbn. now rewrite !Nat.add_0_r.
  - cbn [validate_phases_loop]. rewrite ValidateFacts.filter_nil.
    + rewrite IH. unfold all_tasks, all_materials. cbn [flat_map].
      rewrite !length_app. f_equal. f_equal; lia.
    + intros field I. now rewrite (C field I).
Qed.

Lemma validate_phases_loop_inr (phases : list Phase) :
  forall i total_tasks total_materials counts,
    validate_phases_loop i phases total_tasks total_materials = inr counts ->
    Forall phase_complete phases.
Proof.
  induction phases as [|phase rest IH]; intros i tt tm counts H; [constructor|].
  cbn [validate_phases_loop] in H.
  destruct (filter _ required_phase_fields) eqn:F; [|discriminate].
  constructor; [|eapply IH; exact H].
  intros field I. exact (nothing_missing (phase_has phase) _ F field I).
Qed.

(** X10: [validate_phases] accepts exactly the non-empty lists all of
    whose phases have the five required fields; it then reports the number
    of phases, the number of tasks of all phases together and the number of
    materials of all phases together.  The empty list is rejected with the
    message of its own. *)
Theorem validate_phases_accepts (phases : list Phase) :
  (fst (validate_phases phases) = true <->
   phases <> [] /\ Forall phase_complete phases)
  /\ (fst (validate_phases phases) = true ->
      snd (validate_phases phases) =
      [PhasesValidated (List.length phases)
         (List.length (all_tasks phases)) (List.length (all_materials phases))])
  /\ validate_phases [] = (false, [PhasesMustBeNonEmptyList]).
Proof.
  split; [|split; [|reflexivity]].
  - split.
    + intros H. destruct phases as [|phase rest]; [discriminate H|].
      split; [discriminate|]. unfold validate_phases in H.
      destruct (validate_phases_loop 1 (phase :: rest) 0 0) as [[i m]|counts] eqn:L;
        [discriminate H|].
      eapply validate_phases_loop_inr; exact L.
    + intros [N C]. destruct phases as [|phase rest]; [congruence|].
      unfold validate_phases. now rewrite (validate_phases_loop_complete _ C).
  - intros H. destruct phases as [|phase rest]; [discriminate H|].
    unfold validate_phases in *.
    destruct (validate_phases_loop 1 (phase :: rest) 0 0) as [[i m]|counts] eqn:L;
      [discriminate H|].
    pose proof (validate_phases_loop_inr _ _ _ _ _ L) as C.
    rewrite (validate_phases_loop_complete _ C) in L. injection L as <-.
    reflexivity.
Qed.

Lemma validate_phases_accepts_witness :
  snd (validate_phases [Sample.demolition; Sample.cabinets; Sample.painting])
  = [PhasesValidated 3 4 4].
Proof.
  apply (proj1 (proj2 (validate_phases_accepts
                         [Sample.demolition; Sample.cabinets; Sample.painting]))).
  reflexivity.
Defined.

Lemma phases_in_subset (included : PhasesIncluded) (all_phases : list Phase) :
  forall kept,
    phases_in included all_phases = Ok kept ->
    forall phase, In phase kept -> In phase all_phases.
Proof.
  induction all_phases as [|p rest IH]; intros kept H phase I.
  - injection H as <-. destruct I.
  - cbn [phases_in] in H. do 2 bind_inv H. injection H as <-.
    destruct (id_in x included).
    + destruct I as [<-|I]; [now left | right; eapply IH; eauto].
    + right; eapply IH; eauto.
Qed.

Lemma included_phases_subset template scope_factor all_phases kept :
  phases template = Some all_phases ->
  included_phases template scope_factor = Ok kept ->
  forall phase, In phase kept -> In phase all_phases.
Proof.
  intros P H. unfold included_phases in H. rewrite P in H. cbn [key bind] in H.
  destruct (is_all _).
  - injection H as <-. auto.
  - eapply phases_in_subset; exact H.
Qed.

Lemma phase_complete_fields (phase : Phase) :
  phase_complete phase ->
  phase_id phase <> None /\ sequence phase <> None /\ phase_name phase <> None.
Proof.
  intros C.
  pose proof (C "phase_id") as I. pose proof (C "sequence") as S.
  pose proof (C "phase_name") as N. cbn in I, S, N.
  destruct (phase_id phase), (sequence phase), (phase_name phase);
    repeat split; try discriminate;
    (discriminate I; tauto) || (discriminate S; tauto) || (discriminate N; tauto).
Qed.

(** On a template whose phases all have the required fields, whose
    "sizing_factors" has both axes and whose typical skilled rate exists,
    every key [calculate_sample_estimate] reads with [d[key]] is there, for
    every size and scope: with the numbers of the model, which are exact,
    the call returns. *)
Lemma calculate_sample_estimate_never_raises template all_phases factors
    sizes scopes rate :
  phases template = Some all_phases ->
  Forall phase_complete all_phases ->
  sizing_factors template = Some factors ->
  kitchen_size factors = Some sizes ->
  renovation_scope factors = Some scopes ->
  typical_skilled_rate template = Some rate ->
  forall size scope,
  exists returned, calculate_sample_estimate template size scope = Ok returned.
Proof.
  intros P C F K K' R size scope.
  apply EstimateFacts.typical_skilled_rate_some in R as (rates & skilled & L & S & T).
  unfold calculate_sample_estimate, Dict.item.
  rewrite F; cbn [key bind]. rewrite K; cbn [key bind]. rewrite K'; cbn [key bind].
  destruct (size_factor_is_empty _ || scope_factor_is_empty _);
    [eexists; reflexivity|].
  rewrite Forall_forall in C.
  assert (I : exists kept,
             included_phases template
               (Dict.get_default scope no_scope_factor scopes) = Ok kept).
  { unfold included_phases. rewrite P; cbn [key bind].
    destruct (is_all _); [eexists; reflexivity|].
    apply EstimateFacts.phases_in_total.
    intros phase Hp. apply phase_complete_fields, C, Hp. }
  destruct I as [kept I]. rewrite I; cbn [bind]. rewrite L; cbn [key bind].
  destruct (EstimateFacts.sum_phases_total kept) with (h := 0%Qc) (m := 0%Qc)
    as (h & m & Sum).
  { intros phase Hp. apply phase_complete_fields, C.
    eapply included_phases_subset; eauto. }
  rewrite Sum; cbn [bind fst snd]. rewrite S; cbn [key bind].
  rewrite T; cbn [key bind]. eexists; reflexivity.
Qed.

(** X11: validation protects the estimates from missing keys.  When the
    template is not empty and passes both validators, its "sizing_factors"
    has both axes and labor_rates.skilled.typical exists, [main] prints the
    two success diagnostics, does not stop with an exit code, and no
    [KeyError] comes out of it; [calculate_sample_estimate] raises a
    [KeyError] for no size and no scope. *)
Theorem validated_template_raises_no_key_error template all_phases factors
    sizes scopes rate :
  fst (validate_template_structure template) = true ->
  phases template = Some all_phases ->
  fst (validate_phases all_phases) = true ->
  sizing_factors template = Some factors ->
  kitchen_size factors = Some sizes ->
  renovation_scope factors = Some scopes ->
  typical_skilled_rate template = Some rate ->
  fst (main (Some template)) =
  [ AllRequiredFieldsPresent;
    PhasesValidated (List.length all_phases)
      (List.length (all_tasks all_phases))
      (List.length (all_materials all_phases)) ]
  /\ (forall code, snd (main (Some template)) <> Exit code)
  /\ (forall missing, snd (main (Some template)) <> Uncaught (KeyError missing))
  /\ (forall size scope missing,
        calculate_sample_estimate template size scope <> Raise (KeyError missing)).
Proof.
  intros V P VP F K K' R.
  pose proof (proj1 (proj2 (validate_phases_accepts all_phases)) VP) as Printed.
  apply (proj1 (validate_phases_accepts all_phases)) in VP as VP'.
  destruct VP' as [_ C].
  pose proof (calculate_sample_estimate_never_raises template all_phases factors
                sizes scopes rate P C F K K' R) as Returns.
  assert (Run : forall todo, run_scenarios template todo = Ok tt).
  { induction todo as [|[size scope] rest IH]; [reflexivity|].
    cbn [run_scenarios].
    destruct (Returns size scope) as [returned ->].
    exact IH. }
  assert (Main : main (Some template) =
                 ([ AllRequiredFieldsPresent;
                    PhasesValidated (List.length all_phases)
                      (List.length (all_tasks all_phases))
                      (List.length (all_materials all_phases)) ],
                  Completed)).
  { unfold main.
    assert (E : template_is_empty template = false).
    { unfold template_is_empty. rewrite P. cbn.
      rewrite !orb_true_r. reflexivity. }
    rewrite E.
    unfold validate_template_structure in *.
    destruct (filter _ required_fields); [|discriminate V].
    cbn [negb]. rewrite P; cbn [key].
    destruct (validate_phases all_phases) as [ok printed] eqn:VPs.
    cbn [fst snd] in *. subst ok printed. cbn [negb].
    rewrite Run. reflexivity. }
  rewrite Main. cbn [fst snd].
  split; [reflexivity|]. split; [discriminate|]. split; [discriminate|].
  intros size scope missing. destruct (Returns size scope) as [returned ->].
  discriminate.
Qed.

Lemma validated_template_raises_no_key_error_witness :
  fst (main (Some Sample.kitchen)) =
  [AllRequiredFieldsPresent; PhasesValidated 3 4 4]
  /\ forall size scope missing,
       calculate_sample_estimate Sample.kitchen size scope
       <> Raise (KeyError missing).
Proof.
  refine ((fun H => conj (proj1 H) (proj2 (proj2 (proj2 H))))
            (validated_template_raises_no_key_error Sample.kitchen
               [Sample.demolition; Sample.cabinets; Sample.painting]
               _ _ _ (Sample.num 65 1) _ _ _ _ _ _ _)); reflexivity.
Defined.

End MainFacts.

(** ** The two estimates: unknown keys and a zero multiplier *)

Module EstimateEdges.
Import Template EstimateGenerator EstimateSpec ResultFacts EstimateFacts.

(** X12: an unknown size or scope.  When "sizing_factors" has both axes,
    [calculate_sample_estimate] answers [None] for a size or a scope that is
    not a key of its axis, without raising; [generate_estimate] raises
    [KeyError] with the unknown key, the size first. *)
Theorem unknown_size_or_scope template factors sizes scopes size scope quality :
  sizing_factors template = Some factors ->
  kitchen_size factors = Some sizes ->
  renovation_scope factors = Some scopes ->
  Dict.get size sizes = None \/ Dict.get scope scopes = None ->
  Validate.calculate_sample_estimate template size scope = Ok None
  /\ generate_estimate_for template (Classifier.mkParams size scope quality)
     = Raise (KeyError (match Dict.get size sizes with
                        | None => size
                        | Some _ => scope
                        end)).
Proof.
  intros F K K' Unknown. split.
  - unfold Validate.calculate_sample_estimate.
    rewrite F; cbn [key bind]. rewrite K; cbn [key bind]. rewrite K'; cbn [key bind].
    unfold Dict.get_default.
    destruct Unknown as [-> | ->]; cbn; rewrite ?orb_true_r; reflexivity.
  - unfold generate_estimate_for, Dict.item. cbn [Classifier.kitchen_size
      Classifier.scope Classifier.quality_tier].
    rewrite F; cbn [key bind]. rewrite K; cbn [key bind].
    destruct (Dict.get size sizes) as [size_factor|] eqn:S; cbn [bind];
      [|reflexivity].
    destruct Unknown as [U|U]; [discriminate U|].
    rewrite K'; cbn [key bind]. rewrite U. reflexivity.
Qed.

Lemma unknown_size_or_scope_witness :
  Validate.calculate_sample_estimate Sample.kitchen "huge" "standard" = Ok None
  /\ generate_estimate_for Sample.kitchen
       (Classifier.mkParams "huge" "standard" "luxury")
     = Raise (KeyError "huge").
Proof.
  refine (unknown_size_or_scope Sample.kitchen _ _ _ "huge" "standard" "luxury"
            eq_refl eq_refl eq_refl _).
  left; reflexivity.
Defined.

(** X13: a quality tier whose material_multiplier is 0 cannot be
    estimated: for such a tier [generate_estimate] returns no estimate,
    whatever the size and the scope (the printed summary divides the
    material cost by the multiplier, so a run that gets that far stops
    there).  [calculate_sample_estimate] does not read the quality tiers:
    replacing them changes none of its results. *)
Theorem zero_multiplier_returns_nothing template params quality_factor :
  quality_factor_of template (Classifier.quality_tier params)
  = Some quality_factor ->
  material_multiplier quality_factor = Some 0 ->
  (forall estimate, generate_estimate_for template params <> Ok estimate)
  /\ (forall tiers size scope,
        Validate.calculate_sample_estimate (with_quality_tiers template tiers)
          size scope
        = Validate.calculate_sample_estimate template size scope).
Proof.
  intros Tier Zero. split; [|reflexivity].
  intros estimate H.
  apply generate_estimate_for_ok in H
    as (factors & quality_multiplier & Resolved & Nonzero & _).
  destruct Resolved as (sf & scf & qf & _ & _ & Qf & _ & _ & Qm & _).
  assert (qf = quality_factor) as -> by congruence.
  apply Nonzero. congruence.
Qed.

Lemma zero_multiplier_returns_nothing_witness :
  (forall estimate,
     generate_estimate_for
       (with_quality_tiers Sample.kitchen
          (Some [("free", mkQualityFactor (Some 0))]))
       (Classifier.mkParams "medium" "standard" "free")
     <> Ok estimate)
  /\ (forall tiers size scope,
        Validate.calculate_sample_estimate
          (with_quality_tiers
             (with_quality_tiers Sample.kitchen
                (Some [("free", mkQualityFactor (Some 0))])) tiers)
          size scope
        = Validate.calculate_sample_estimate
            (with_quality_tiers Sample.kitchen
               (Some [("free", mkQualityFactor (Some 0))])) size scope).
Proof.
  apply (zero_multiplier_returns_nothing
           (with_quality_tiers Sample.kitchen
              (Some [("free", mkQualityFactor (Some 0))]))
           (Classifier.mkParams "medium" "standard" "free")
           (mkQualityFactor (Some 0)));
    reflexivity.
Defined.

End EstimateEdges.

(** ** The line items of [generate_estimate] *)

Module LineFacts.
Import Template EstimateGenerator EstimateSpec LineSpec ResultFacts SumFacts
  EstimateFacts.

(** The inner loop never raises, and adds the hours of the labor lines
    and the costs of the material lines. *)
Lemma add_items_sums (lines : list LineItem) :
  forall h m,
    add_items lines h m
    = Ok (h + billed_hours lines, m + material_lines_total lines).
Proof.
  unfold billed_hours, material_lines_total.
  induction lines as [|line rest IH]; intros h m.
  - cbn [add_items filter map]. unfold sum_of; cbn [fold_right].
    now rewrite !Qcplus_0_r.
  - destruct line as [ph de hr ra co | ph de qu un uc wf co].
    + rewrite add_items_labor, IH.
      change (filter is_labor (LaborItem ph de hr ra co :: rest))
        with (LaborItem ph de hr ra co :: filter is_labor rest).
      change (filter (fun line => negb (is_labor line))
                (LaborItem ph de hr ra co :: rest))
        with (filter (fun line => negb (is_labor line)) rest).
      cbn [map]. rewrite sum_of_cons. cbn [line_hours hours].
      f_equal. f_equal. ring.
    + rewrite add_items_material, IH.
      change (filter is_labor (MaterialItem ph de qu un uc wf co :: rest))
        with (filter is_labor rest).
      change (filter (fun line => negb (is_labor line))
                (MaterialItem ph de qu un uc wf co :: rest))
        with (MaterialItem ph de qu un uc wf co
                :: filter (fun line => negb (is_labor line)) rest).
      cbn [map]. rewrite sum_of_cons. cbn [total_cost].
      f_equal. f_equal. ring.
Qed.

Lemma billed_hours_app (l1 l2 : list LineItem) :
  billed_hours (l1 ++ l2) = billed_hours l1 + billed_hours l2.
Proof. unfold billed_hours. now rewrite filter_app, map_app, sum_of_app. Qed.

Lemma material_lines_total_app (l1 l2 : list LineItem) :
  material_lines_total (l1 ++ l2)
  = material_lines_total l1 + material_lines_total l2.
Proof.
  unfold material_lines_total. now rewrite filter_app, map_app, sum_of_app.
Qed.

Lemma task_rate_category template task rate :
  task_rate template task = Ok rate ->
  category_rate template (get (hourly_rate_category task) "skilled") rate.
Proof.
  unfold task_rate. intros H. do 2 bind_inv H.
  apply key_ok in E, H. apply item_ok in E0.
  exists x, x0. auto.
Qed.

(** The lines of the tasks are labor lines, one per task and in the order
    of the tasks, each billing its task. *)
Lemma labor_items_bill template phase (tasks : list Task) :
  forall items,
    labor_items template phase tasks = Ok items ->
    filter is_labor items = items /\ Forall2 (bills template) items tasks.
Proof.
  induction tasks as [|t rest IH]; intros items H.
  - injection H as <-. split; [reflexivity | constructor].
  - cbn [labor_items] in H. do 5 bind_inv H. injection H as <-.
    assert (x2 = x1) as -> by congruence.
    destruct (IH _ E3) as [Labor Bills].
    split.
    + change (filter is_labor (LaborItem x x0 (get (labor_hours t) 0) x1
                                 (get (labor_hours t) 0 * x1) :: x3))
        with (LaborItem x x0 (get (labor_hours t) 0) x1
                (get (labor_hours t) 0 * x1) :: filter is_labor x3).
      now rewrite Labor.
    + constructor; [|exact Bills].
      split; [reflexivity|].
      split; [eapply task_rate_category; exact E1 | reflexivity].
Qed.

(** The lines of the materials are not labor lines. *)
Lemma material_items_no_labor phase (materials : list Material) :
  forall items,
    material_items phase materials = Ok items -> filter is_labor items = [].
Proof.
  induction materials as [|m rest IH]; intros items H.
  - injection H as <-. reflexivity.
  - cbn [material_items] in H. do 3 bind_inv H. injection H as <-.
    exact (IH _ E1).
Qed.

(** The outer loop keeps its running totals equal to the sums over the
    lines emitted so far, and its labor lines in step with the tasks
    processed so far. *)
Lemma process_phases_lines template params size_factor quality_factor
    (included : list Phase) :
  forall lines h m lines' h' m' billed,
    process_phases template params size_factor quality_factor included lines h m
      = Ok (lines', (h', m')) ->
    Forall2 (bills template) (filter is_labor lines) billed ->
    Forall2 (bills template) (filter is_labor lines')
      (billed ++ all_tasks included)
    /\ (h = billed_hours lines -> h' = billed_hours lines')
    /\ (m = material_lines_total lines -> m' = material_lines_total lines').
Proof.
  induction included as [|phase rest IH];
    intros lines h m lines' h' m' billed H Bills.
  - injection H as <- <- <-. cbn [all_tasks flat_map]. rewrite app_nil_r. auto.
  - cbn [process_phases] in H. do 2 bind_inv H.
    unfold _process_phase in E. do 2 bind_inv E. injection E as <-.
    rewrite add_items_sums in E0. injection E0 as <-. cbn [fst snd] in H.
    destruct (labor_items_bill _ _ _ _ E1) as [Labor Billed].
    pose proof (material_items_no_labor _ _ _ E2) as NoLabor.
    apply IH with (billed := (billed ++ get (tasks phase) [])%list) in H
      as (S & Hh & Hm).
    + split.
      * unfold all_tasks in *. cbn [flat_map]. rewrite app_assoc. exact S.
      * split; intros ->.
        -- apply Hh. symmetry. apply billed_hours_app.
        -- apply Hm. symmetry. apply material_lines_total_app.
    + rewrite !filter_app, Labor, NoLabor, app_nil_r.
      apply Forall2_app; assumption.
Qed.

Lemma expected_lines_length (included : list Phase) :
  List.length (expected_lines included)
  = (List.length (all_tasks included) + List.length (all_materials included))%nat.
Proof.
  induction included as [|phase rest IH]; [reflexivity|].
  unfold expected_lines, all_tasks, all_materials in *. cbn [flat_map].
  rewrite !length_app, !length_map, IH. lia.
Qed.

(** What [generate_estimate] returns, in terms of its own lines. *)
Lemma generate_estimate_for_lines template params estimate :
  generate_estimate_for template params = Ok estimate ->
  exists factors quality_multiplier,
    generate_factors template params factors quality_multiplier
    /\ Forall2 (bills template) (filter is_labor (line_items estimate))
         (all_tasks (included factors))
    /\ Totals.labor_hours (totals estimate) =
       billed_hours (line_items estimate)
       * (size_complexity factors * scope_complexity factors)
    /\ Totals.labor_cost (totals estimate) =
       billed_hours (line_items estimate)
       * (size_complexity factors * scope_complexity factors)
       * typical_rate factors
    /\ Totals.material_cost (totals estimate) =
       material_lines_total (line_items estimate) * quality_multiplier
    /\ map line_key (line_items estimate) = expected_lines (included factors).
Proof.
  intros H. unfold generate_estimate_for in H.
  repeat bind_inv H. injection H as <-.
  destruct x8 as [lines [h m]]. cbn [fst snd] in *.
  pose proof (process_phases_ok _ _ _ _ _ _ _ _ _ _ _ E8) as (_ & _ & Keys).
  apply process_phases_lines with (billed := []) in E8 as (Sound & Hh & Hm);
    [|constructor].
  cbn [app] in Sound.
  rewrite (Hh eq_refl), (Hm eq_refl).
  apply key_ok in E, E0, E2, E3, E5, E9, E10, E11, E12, E14, E15.
  apply item_ok in E1, E4, E6, E13.
  assert (x2 = x) as -> by congruence.
  exists (mkFactors x9 x10 x14 x7), x11. projections.
  split; [|repeat split; assumption].
  exists x1, x4, x6. unfold size_factor_of, scope_factor_of, quality_factor_of,
    typical_skilled_rate. rewrite E, E0, E3, E5, E12, E13. projections.
  repeat split; assumption.
Qed.

(** X15: the totals of [generate_estimate] are the sums of its lines: the
    adjusted labor hours are the hours of the labor lines times the combined
    complexity, the material cost is the cost of the material lines times
    the quality multiplier, and there is one line per task and one per
    material of the included phases. *)
Theorem totals_are_sums_of_lines template params estimate :
  generate_estimate_for template params = Ok estimate ->
  exists factors quality_multiplier,
    generate_factors template params factors quality_multiplier
    /\ Totals.labor_hours (totals estimate) =
       billed_hours (line_items estimate)
       * (size_complexity factors * scope_complexity factors)
    /\ Totals.material_cost (totals estimate) =
       material_lines_total (line_items estimate) * quality_multiplier
    /\ List.length (line_items estimate) =
       (List.length (all_tasks (included factors))
        + List.length (all_materials (included factors)))%nat.
Proof.
  intros H.
  apply generate_estimate_for_lines in H as (f & qm & F & _ & Hh & _ & Hm & Keys).
  exists f, qm. repeat split; try assumption.
  rewrite <- expected_lines_length, <- Keys. symmetry. apply length_map.
Qed.

Lemma totals_are_sums_of_lines_witness :
  exists factors quality_multiplier,
    generate_factors Sample.kitchen Sample.large_gut_luxury factors
      quality_multiplier
    /\ Totals.labor_hours (totals Sample.generated_large_gut_luxury) =
       billed_hours (line_items Sample.generated_large_gut_luxury)
       * (size_complexity factors * scope_complexity factors)
    /\ Totals.material_cost (totals Sample.generated_large_gut_luxury) =
       material_lines_total (line_items Sample.generated_large_gut_luxury)
       * quality_multiplier
    /\ List.length (line_items Sample.generated_large_gut_luxury) =
       (List.length (all_tasks (included factors))
        + List.length (all_materials (included factors)))%nat.
Proof.
  apply (totals_are_sums_of_lines Sample.kitchen Sample.large_gut_luxury).
  vm_compute; reflexivity.
Defined.

(** X16: the labor lines of [generate_estimate] are, in order, the tasks
    of the included phases: each line has the hours of its task and the
    typical rate of that task's own category (skilled when the task names
    none), and costs the one times the other.  The labor cost of the totals
    bills all hours at the typical skilled rate instead; on the sample
    template, where one task is of the cheaper "general" category, the labor
    lines add up to less than the labor cost. *)
Theorem labor_cost_ignores_rate_categories :
  (forall template params estimate,
      generate_estimate_for template params = Ok estimate ->
      exists factors quality_multiplier,
        generate_factors template params factors quality_multiplier
        /\ Forall2 (bills template) (filter is_labor (line_items estimate))
             (all_tasks (included factors))
        /\ Totals.labor_cost (totals estimate) =
           billed_hours (line_items estimate)
           * (size_complexity factors * scope_complexity factors)
           * typical_rate factors)
  /\ (exists template params estimate factors quality_multiplier,
        generate_estimate_for template params = Ok estimate
        /\ generate_factors template params factors quality_multiplier
        /\ labor_lines_total (line_items estimate)
           * (size_complexity factors * scope_complexity factors)
           < Totals.labor_cost (totals estimate)).
Proof.
  split.
  - intros template params estimate H.
    apply generate_estimate_for_lines in H as (f & qm & F & S & _ & L & _).
    exists f, qm. repeat split; assumption.
  - exists Sample.kitchen, Sample.large_gut_luxury,
      Sample.generated_large_gut_luxury, Sample.large_gut_factors,
      Sample.luxury_multiplier.
    split; [apply sample_estimates_run|]. split; [exact sample_resolution|].
    vm_compute. reflexivity.
Qed.

Lemma labor_cost_ignores_rate_categories_witness :
  exists factors quality_multiplier,
    generate_factors Sample.kitchen Sample.large_gut_luxury factors
      quality_multiplier
    /\ Forall2 (bills Sample.kitchen)
         (filter is_labor (line_items Sample.generated_large_gut_luxury))
         (all_tasks (included factors))
    /\ Totals.labor_cost (totals Sample.generated_large_gut_luxury) =
       billed_hours (line_items Sample.generated_large_gut_luxury)
       * (size_complexity factors * scope_complexity factors)
       * typical_rate factors.
Proof.
  apply (proj1 labor_cost_ignores_rate_categories
           Sample.kitchen Sample.large_gut_luxury).
  vm_compute; reflexivity.
Defined.

End LineFacts.

(** ** The selection of phases: texts and missing identifiers *)

Module SelectionFacts.
Import PyStr Template EstimateGenerator EstimateSpec ResultFacts EstimateFacts.

Lemma phases_in_filter (included : PhasesIncluded) (all_phases : list Phase) :
  forall kept,
    phases_in included all_phases = Ok kept ->
    kept = filter (fun phase =>
                     match phase_id phase with
                     | Some identifier => id_in identifier included
                     | None => false
                     end) all_phases.
Proof.
  induction all_phases as [|phase rest IH]; intros kept H.
  - now injection H as <-.
  - cbn [phases_in] in H. do 2 bind_inv H. injection H as <-.
    apply key_ok in E. rewrite (IH _ E0). cbn [filter]. rewrite E. reflexivity.
Qed.

Lemma phases_in_missing_id (included : PhasesIncluded) (all_phases : list Phase) :
  (exists phase, In phase all_phases /\ phase_id phase = None) ->
  phases_in included all_phases = Raise (KeyError "phase_id").
Proof.
  induction all_phases as [|phase rest IH]; intros (p & I & N).
  - destruct I.
  - cbn [phases_in]. destruct (phase_id phase) as [identifier|] eqn:E;
      [|reflexivity].
    cbn [key bind]. rewrite IH; [reflexivity|].
    destruct I as [<-|I]; [congruence|]. exists p. split; assumption.
Qed.

(** X18: a phase without "phase_id".  With "phases_included" absent or
    "all" the identifiers are never read and every phase is included; with
    any other value the selection raises [KeyError] "phase_id", and so do
    both entry points once their factors are resolved. *)
Theorem missing_phase_id template scope_factor all_phases :
  phases template = Some all_phases ->
  (exists phase, In phase all_phases /\ phase_id phase = None) ->
  (is_all (get (phases_included scope_factor) (PhaseText "all")) = true ->
   included_phases template scope_factor = Ok all_phases)
  /\ (is_all (get (phases_included scope_factor) (PhaseText "all")) = false ->
      included_phases template scope_factor = Raise (KeyError "phase_id")
      /\ (forall size scope size_factor,
            size_factor_of template size = Some size_factor ->
            scope_factor_of template scope = Some scope_factor ->
            size_factor_is_empty size_factor = false ->
            scope_factor_is_empty scope_factor = false ->
            Validate.calculate_sample_estimate template size scope
            = Raise (KeyError "phase_id"))
      /\ (forall params size_factor quality_factor,
            size_factor_of template (Classifier.kitchen_size params)
              = Some size_factor ->
            scope_factor_of template (Classifier.scope params)
              = Some scope_factor ->
            quality_factor_of template (Classifier.quality_tier params)
              = Some quality_factor ->
            generate_estimate_for template params = Raise (KeyError "phase_id"))).
Proof.
  intros P Missing.
  assert (Sel : is_all (get (phases_included scope_factor) (PhaseText "all")) = false ->
                included_phases template scope_factor = Raise (KeyError "phase_id")).
  { intros A. unfold included_phases. rewrite A, P. cbn [key bind].
    now apply phases_in_missing_id. }
  split.
  - intros A. unfold included_phases. now rewrite A, P.
  - intros A. split; [exact (Sel A)|]. split.
    + intros size scope sf Sf Scf NE NE'.
      apply size_factor_of_some in Sf as (fs & sizes & F & K & G).
      apply scope_factor_of_some in Scf as (fs' & scopes & F' & K' & G').
      assert (fs' = fs) as -> by congruence.
      unfold Validate.calculate_sample_estimate.
      repeat (progress (cbn [key bind orb fst snd];
                        rewrite ?get_default_some, ?F, ?K, ?K', ?G, ?G', ?NE, ?NE',
                          ?(Sel A))).
      reflexivity.
    + intros params sf qf Sf Scf Qf.
      apply size_factor_of_some in Sf as (fs & sizes & F & K & G).
      apply scope_factor_of_some in Scf as (fs' & scopes & F' & K' & G').
      assert (fs' = fs) as -> by congruence.
      unfold quality_factor_of in Qf.
      destruct (quality_tiers template) as [tiers|] eqn:Q; [|discriminate].
      unfold generate_estimate_for, Dict.item.
      repeat (progress (cbn [key bind fst snd];
                        rewrite ?F, ?K, ?K', ?G, ?G', ?Q, ?Qf, ?(Sel A))).
      reflexivity.
Qed.

Lemma missing_phase_id_witness :
  Validate.calculate_sample_estimate
    SampleSelection.kitchen_with_anonymous_phase "small" "cosmetic"
  = Raise (KeyError "phase_id").
Proof.
  refine (proj1 (proj2 (proj2
            (missing_phase_id SampleSelection.kitchen_with_anonymous_phase
               Sample.cosmetic_scope _ eq_refl _) eq_refl))
            "small" "cosmetic" _ eq_refl eq_refl eq_refl eq_refl).
  eexists. split; [right; right; left; reflexivity | reflexivity].
Defined.

(** X19: "phases_included" given as a text other than "all".  The
    selection then keeps, in template order, exactly the phases whose
    identifier occurs somewhere in that text. *)
Theorem text_selection template scope_factor all_phases text kept :
  phases template = Some all_phases ->
  phases_included scope_factor = Some (PhaseText text) ->
  text <> "all" ->
  included_phases template scope_factor = Ok kept ->
  struck_from kept all_phases
  /\ forall phase,
       In phase kept <->
       In phase all_phases
       /\ exists identifier,
            phase_id phase = Some identifier /\ occurs_in identifier text.
Proof.
  intros P T NotAll H. unfold included_phases in H. rewrite T, P in H.
  cbn [get is_all] in H.
  destruct (String.eqb_spec text "all") as [->|_]; [congruence|].
  cbn [key bind] in H. apply phases_in_filter in H. subst kept.
  split; [apply filter_struck|].
  intros phase. rewrite filter_In. cbn [id_in].
  split; intros [I M]; (split; [exact I|]).
  - destruct (phase_id phase) as [identifier|]; [|discriminate].
    exists identifier. split; [reflexivity|].
    now apply PyStrFacts.contains_occurs.
  - destruct M as (identifier & -> & O). now apply PyStrFacts.contains_occurs.
Qed.

Lemma text_selection_witness :
  struck_from [Sample.demolition; Sample.painting]
    [Sample.demolition; Sample.cabinets; Sample.painting]
  /\ forall phase,
       In phase [Sample.demolition; Sample.painting] <->
       In phase [Sample.demolition; Sample.cabinets; Sample.painting]
       /\ exists identifier,
            phase_id phase = Some identifier
            /\ occurs_in identifier "demolition, painting".
Proof.
  apply (text_selection Sample.kitchen SampleSelection.text_scope
           [Sample.demolition; Sample.cabinets; Sample.painting]
           "demolition, painting" [Sample.demolition; Sample.painting]).
  - reflexivity.
  - reflexivity.
  - discriminate.
  - reflexivity.
Defined.

End SelectionFacts.

(** ** The printed estimate *)

Module ReportFacts.
Import Template EstimateGenerator LineSpec Report.
Local Open Scope list_scope.

Lemma get_update (phase name : string) (change : group -> group)
    (phases : Dict.dict group) :
  Dict.get name (update phase change phases) =
  if String.eqb phase name then option_map change (Dict.get name phases)
  else Dict.get name phases.
Proof.
  induction phases as [|[k g] rest IH]; cbn [update Dict.get].
  - now destruct (String.eqb phase name).
  - destruct (String.eqb_spec k phase) as [->|Nk]; cbn [Dict.get].
    + destruct (String.eqb_spec phase name) as [->|Np]; reflexivity.
    + rewrite IH. destruct (String.eqb_spec k name) as [->|Nn]; [|reflexivity].
      destruct (String.eqb_spec phase name) as [->|]; [congruence | reflexivity].
Qed.

Lemma get_app_last (name key : string) (g : group) (phases : Dict.dict group) :
  Dict.get name (phases ++ [(key, g)]) =
  match Dict.get name phases with
  | Some found => Some found
  | None => if String.eqb key name then Some g else None
  end.
Proof.
  induction phases as [|[k g'] rest IH]; cbn [app Dict.get]; [reflexivity|].
  destruct (String.eqb k name); [reflexivity | exact IH].
Qed.

Lemma keys_update (phase : string) (change : group -> group)
    (phases : Dict.dict group) :
  Dict.keys (update phase change phases) = Dict.keys phases.
Proof.
  unfold Dict.keys. induction phases as [|[k g] rest IH]; [reflexivity|].
  cbn [update]. destruct (String.eqb k phase); cbn [map fst]; [reflexivity|].
  now rewrite IH.
Qed.

Lemma get_none_keys (name : string) (phases : Dict.dict group) :
  Dict.get name phases = None <-> ~ In name (Dict.keys phases).
Proof.
  unfold Dict.keys. induction phases as [|[k g] rest IH]; cbn [Dict.get map fst In].
  - tauto.
  - destruct (String.eqb_spec k name) as [->|N].
    + split; [discriminate | intros H; exfalso; apply H; now left].
    + rewrite IH. split; [intros H [E|I]; [congruence | now apply H] | tauto].
Qed.

Lemma get_of_entry (name : string) (g : group) (phases : Dict.dict group) :
  NoDup (Dict.keys phases) -> In (name, g) phases -> Dict.get name phases = Some g.
Proof.
  unfold Dict.keys. induction phases as [|[k g'] rest IH]; intros N I; [destruct I|].
  cbn [map fst] in N. inversion N as [|? ? Fresh N']; subst.
  cbn [Dict.get]. destruct I as [E|I].
  - injection E as -> ->. now rewrite String.eqb_refl.
  - destruct (String.eqb_spec k name) as [->|_]; [|now apply IH].
    exfalso. apply Fresh. apply in_map_iff. exists (name, g). split; [reflexivity | exact I].
Qed.

Lemma entry_of_get (name : string) (g : group) (phases : Dict.dict group) :
  Dict.get name phases = Some g -> In (name, g) phases.
Proof.
  induction phases as [|[k g'] rest IH]; cbn [Dict.get]; [discriminate|].
  destruct (String.eqb_spec k name) as [->|_].
  - intros E. injection E as ->. now left.
  - intros E. right. now apply IH.
Qed.

Lemma file_line_get (phases : Dict.dict group) (line : LineItem) (name : string) :
  Dict.get name (file_line phases line) =
  if String.eqb (line_phase line) name
  then Some (filed line match Dict.get name phases with
                        | Some g => g
                        | None => mkGroup [] []
                        end)
  else Dict.get name phases.
Proof.
  unfold file_line, has_phase, filed, extended.
  assert (Filed :
    forall before,
      Dict.get name
        (if String.eqb (category line) "labor"
         then update (line_phase line)
                (fun g => mkGroup (labor g ++ [line]) (materials g)) before
         else update (line_phase line)
                (fun g => mkGroup (labor g) (materials g ++ [line])) before)
      = if String.eqb (line_phase line) name
        then option_map
               (fun g =>
                  mkGroup (labor g ++ filter is_labor [line])
                          (materials g
                           ++ filter (fun l => negb (is_labor l)) [line]))
               (Dict.get name before)
        else Dict.get name before).
  { intros before. unfold is_labor. cbn [filter].
    destruct (String.eqb (category line) "labor"); rewrite get_update;
      destruct (String.eqb (line_phase line) name); try reflexivity;
      destruct (Dict.get name before); cbn [option_map negb];
      rewrite ?app_nil_r; reflexivity. }
  rewrite Filed.
  destruct (String.eqb_spec (line_phase line) name) as [E|N].
  - rewrite E.
    destruct (Dict.get name phases) as [g|] eqn:G; [now rewrite G|].
    rewrite get_app_last, G, String.eqb_refl. reflexivity.
  - destruct (Dict.get (line_phase line) phases); [reflexivity|].
    rewrite get_app_last. destruct (Dict.get name phases); [reflexivity|].
    destruct (String.eqb_spec (line_phase line) name); [contradiction | reflexivity].
Qed.

Lemma file_line_keys (phases : Dict.dict group) (line : LineItem) :
  Dict.keys (file_line phases line) =
  if has_phase (line_phase line) phases then Dict.keys phases
  else (Dict.keys phases ++ [line_phase line])%list.
Proof.
  unfold file_line.
  destruct (String.eqb (category line) "labor"); rewrite keys_update;
    destruct (has_phase (line_phase line) phases); try reflexivity;
    unfold Dict.keys; now rewrite map_app.
Qed.

Lemma file_line_nodup (phases : Dict.dict group) (line : LineItem) :
  NoDup (Dict.keys phases) -> NoDup (Dict.keys (file_line phases line)).
Proof.
  intros N. rewrite file_line_keys. unfold has_phase.
  destruct (Dict.get (line_phase line) phases) eqn:G; [exact N|].
  apply get_none_keys in G.
  apply NoDup_app; [exact N | repeat constructor; intros [] | ].
  intros x I [<-|[]]. exact (G I).
Qed.

Lemma extended_filed (g : group) (line : LineItem) (more : list LineItem) :
  extended (filed line g) more = extended g (line :: more).
Proof.
  unfold filed, extended. cbn [labor materials filter].
  destruct (is_labor line); cbn [negb]; rewrite ?app_nil_r, <- ?app_assoc;
    reflexivity.
Qed.

Lemma extended_nothing (g : group) : extended g [] = g.
Proof. destruct g. unfold extended. cbn. now rewrite !app_nil_r. Qed.

(** The entry of a name after the loop, from the entry before it. *)
Lemma fold_file_line_get (line_items : list LineItem) (name : string) :
  forall phases,
    Dict.get name (fold_left file_line line_items phases) =
    match Dict.get name phases with
    | Some g => Some (extended g (lines_of name line_items))
    | None =>
        match lines_of name line_items with
        | [] => None
        | more => Some (extended (mkGroup [] []) more)
        end
    end.
Proof.
  induction line_items as [|line rest IH]; intros phases.
  - cbn [fold_left lines_of filter].
    destruct (Dict.get name phases); [now rewrite extended_nothing | reflexivity].
  - cbn [fold_left]. rewrite IH, file_line_get. unfold lines_of; cbn [filter].
    destruct (String.eqb (line_phase line) name).
    + rewrite extended_filed. destruct (Dict.get name phases); reflexivity.
    + reflexivity.
Qed.

Lemma fold_file_line_nodup (line_items : list LineItem) :
  forall phases,
    NoDup (Dict.keys phases) ->
    NoDup (Dict.keys (fold_left file_line line_items phases)).
Proof.
  induction line_items as [|line rest IH]; intros phases N; [exact N|].
  cbn [fold_left]. apply IH, file_line_nodup, N.
Qed.

Lemma lines_of_in (name : string) (line_items : list LineItem) (line : LineItem) :
  In line (lines_of name line_items) <->
  In line line_items /\ line_phase line = name.
Proof.
  unfold lines_of. rewrite filter_In.
  split; intros [I E]; (split; [exact I|]); now apply String.eqb_eq.
Qed.

(** X20: the printed estimate groups the lines by phase NAME: the dict
    has one entry per distinct phase name among the lines, and the entry of
    a name holds the labor lines of that name and the material lines of
    that name, each in the order of the lines (so two phases of the template
    that share a name are printed as one). *)
Theorem grouping_by_phase_name (line_items : list LineItem) :
  NoDup (Dict.keys (group_by_phase line_items))
  /\ (forall name,
        In name (Dict.keys (group_by_phase line_items)) <->
        In name (map line_phase line_items))
  /\ (forall name g,
        In (name, g) (group_by_phase line_items) ->
        labor g = filter is_labor (lines_of name line_items)
        /\ materials g
           = filter (fun line => negb (is_labor line)) (lines_of name line_items)).
Proof.
  assert (N : NoDup (Dict.keys (group_by_phase line_items)))
    by (apply fold_file_line_nodup; constructor).
  assert (G : forall name,
             Dict.get name (group_by_phase line_items) =
             match lines_of name line_items with
             | [] => None
             | more => Some (extended (mkGroup [] []) more)
             end)
    by (intros name; unfold group_by_phase; now rewrite fold_file_line_get).
  split; [exact N|]. split.
  - intros name. split.
    + intros I. destruct (Dict.get name (group_by_phase line_items)) eqn:E.
      * rewrite G in E. destruct (lines_of name line_items) as [|line more] eqn:L;
          [discriminate|].
        assert (In line (lines_of name line_items)) as H by (rewrite L; now left).
        apply lines_of_in in H as [H <-]. now apply in_map.
      * apply get_none_keys in E. contradiction.
    + intros I. apply in_map_iff in I as (line & <- & I).
      destruct (Dict.get (line_phase line) (group_by_phase line_items)) eqn:E.
      * apply entry_of_get in E. unfold Dict.keys. apply in_map_iff.
        eexists; split; [|exact E]. reflexivity.
      * rewrite G in E.
        assert (In line (lines_of (line_phase line) line_items)) as H
          by (apply lines_of_in; split; [exact I | reflexivity]).
        destruct (lines_of (line_phase line) line_items); [destruct H | discriminate].
  - intros name g I. apply (get_of_entry name g _ N) in I. rewrite G in I.
    destruct (lines_of name line_items) as [|line more] eqn:L; [discriminate|].
    injection I as <-. unfold extended. cbn [labor materials app]. split; reflexivity.
Qed.

Lemma grouping_by_phase_name_witness :
  labor (mkGroup [prep_demo; prep_haul] [prep_reused])
    = filter is_labor (lines_of "Prep" sample_lines)
  /\ materials (mkGroup [prep_demo; prep_haul] [prep_reused])
     = filter (fun line => negb (is_labor line)) (lines_of "Prep" sample_lines).
Proof.
  apply (proj2 (proj2 (grouping_by_phase_name sample_lines)) "Prep").
  left. reflexivity.
Defined.

Lemma positive_lt (q : Qc) : positive q = true <-> 0 < q.
Proof.
  unfold positive. rewrite Qclt_alt.
  destruct (0 ?= q)%Qc; split; congruence.
Qed.

Lemma print_phase_labor (entry : string * group) (line : LineItem) :
  In (LaborLine line) (print_phase entry) <-> In line (labor (snd entry)).
Proof.
  unfold print_phase. cbn [In]. rewrite in_app_iff.
  split.
  - intros [H|[H|H]]; [discriminate H | |].
    + destruct (labor (snd entry)) as [|l ls]; [destruct H|].
      destruct H as [H|H]; [discriminate H|].
      apply in_map_iff in H as (x & E & I). now injection E as <-.
    + destruct (materials (snd entry)); [destruct H|].
      destruct H as [H|H]; [discriminate H|].
      apply in_map_iff in H as (x & E & _). discriminate E.
  - intros I. right; left.
    destruct (labor (snd entry)) as [|l ls]; [destruct I|].
    right. now apply in_map.
Qed.

Lemma print_phase_material (entry : string * group) (line : LineItem) :
  In (MaterialLine line) (print_phase entry) <->
  In line (materials (snd entry)) /\ 0 < total_cost line.
Proof.
  unfold print_phase. cbn [In]. rewrite in_app_iff, <- positive_lt.
  split.
  - intros [H|[H|H]]; [discriminate H | |].
    + destruct (labor (snd entry)); [destruct H|].
      destruct H as [H|H]; [discriminate H|].
      apply in_map_iff in H as (x & E & _). discriminate E.
    + destruct (materials (snd entry)) as [|m ms]; [destruct H|].
      destruct H as [H|H]; [discriminate H|].
      apply in_map_iff in H as (x & E & I). injection E as <-.
      now apply filter_In in I.
  - intros [I P]. right; right.
    destruct (materials (snd entry)) as [|m ms]; [destruct I|].
    right. apply in_map. now apply filter_In.
Qed.

(** A phase prints headings and lines, nothing of the summary. *)
Lemma print_phase_lines (entry : string * group) (x : printed) :
  In x (print_phase entry) ->
  (forall a b c d, x <> LaborSummary a b c d)
  /\ (forall a b, x <> MaterialSummary a b)
  /\ (forall a, x <> TotalLine a).
Proof.
  unfold print_phase. cbn [In]. rewrite in_app_iff.
  intros [H|[P|P]].
  - subst x. repeat split; discriminate.
  - destruct (labor (snd entry)); [destruct P|].
    destruct P as [H|P]; [subst x; repeat split; discriminate|].
    apply in_map_iff in P as (item & <- & _). repeat split; discriminate.
  - destruct (materials (snd entry)); [destruct P|].
    destruct P as [H|P]; [subst x; repeat split; discriminate|].
    apply in_map_iff in P as (item & <- & _). repeat split; discriminate.
Qed.

(** The full form returns and fails as the short form used in
    [generate_estimate_for] does. *)
Lemma print_detailed_estimate_result (line_items : list LineItem)
    (totals : Summary.t) :
  snd (print_detailed_estimate line_items totals)
  = _print_detailed_estimate line_items (Summary.material_cost totals)
      (Summary.quality_multiplier totals).
Proof.
  unfold print_detailed_estimate, _print_detailed_estimate.
  destruct (Qc_eq_bool (Summary.quality_multiplier totals) 0); reflexivity.
Qed.

(** X21: what [_print_detailed_estimate] has printed when it returns, and
    what a quality multiplier of 0 does to it.  When it returns, the quality
    multiplier is not 0, every labor line has been printed, a material line
    has been printed exactly when its cost is positive, and the summary ends
    with the material cost, the multiplier and the total it was given.  With
    a quality multiplier of 0 it does not return, and neither the material
    summary nor the total is printed. *)
Theorem printed_estimate (line_items : list LineItem) (totals : Summary.t) :
  let run := print_detailed_estimate line_items totals in
  (snd run = Ok tt ->
   Summary.quality_multiplier totals <> 0
   /\ (forall line,
         In (LaborLine line) (fst run) <->
         In line line_items /\ is_labor line = true)
   /\ (forall line,
         In (MaterialLine line) (fst run) <->
         In line line_items /\ is_labor line = false /\ 0 < total_cost line)
   /\ (forall material_cost multiplier,
         In (MaterialSummary material_cost multiplier) (fst run) <->
         material_cost = Summary.material_cost totals
         /\ multiplier = Summary.quality_multiplier totals)
   /\ (forall total,
         In (TotalLine total) (fst run) <-> total = Summary.total_cost totals))
  /\ (Summary.quality_multiplier totals = 0 ->
      snd run <> Ok tt
      /\ (forall material_cost multiplier,
            ~ In (MaterialSummary material_cost multiplier) (fst run))
      /\ (forall total, ~ In (TotalLine total) (fst run))).
Proof.
  cbv zeta.
  destruct (grouping_by_phase_name line_items) as (N & Keys & Groups).
  assert (Phases : forall x,
    (forall a b c d, x <> LaborSummary a b c d) ->
    (forall a b, x <> MaterialSummary a b) ->
    (forall a, x <> TotalLine a) ->
    In x (fst (print_detailed_estimate line_items totals)) <->
    exists entry, In entry (group_by_phase line_items) /\ In x (print_phase entry)).
  { intros x NL NM NT. unfold print_detailed_estimate.
    destruct (Qc_eq_bool (Summary.quality_multiplier totals) 0); cbn [fst];
      rewrite ?in_app_iff, in_flat_map; cbn [In]; split;
      try (intros [[H|[H|[]]]|[H|[H|[]]]]; [exact H | | |]; exfalso;
           [eapply NL | eapply NM | eapply NT]; symmetry; exact H);
      try (intros [H|[H|[]]]; [exact H|]; exfalso; eapply NL; symmetry; exact H);
      tauto. }
  assert (Labor : forall line,
    In (LaborLine line) (fst (print_detailed_estimate line_items totals)) <->
    In line line_items /\ is_labor line = true).
  { intros line. rewrite Phases by discriminate. split.
    + intros ([name g] & I & P). apply print_phase_labor in P. cbn [snd] in P.
      destruct (Groups name g I) as [L _]. rewrite L in P.
      apply filter_In in P as [P Lab]. apply lines_of_in in P as [P _].
      split; assumption.
    + intros [I Lab].
      assert (In (line_phase line) (Dict.keys (group_by_phase line_items))) as K
        by (apply Keys; now apply in_map).
      unfold Dict.keys in K. apply in_map_iff in K as ([name g] & E & K).
      cbn [fst] in E. subst name.
      exists (line_phase line, g). split; [exact K|].
      apply print_phase_labor. cbn [snd].
      destruct (Groups _ g K) as [L _]. rewrite L.
      apply filter_In. split; [|exact Lab]. apply lines_of_in. now split. }
  assert (Material : forall line,
    In (MaterialLine line) (fst (print_detailed_estimate line_items totals)) <->
    In line line_items /\ is_labor line = false /\ 0 < total_cost line).
  { intros line. rewrite Phases by discriminate. split.
    + intros ([name g] & I & P). apply print_phase_material in P as [P Pos].
      cbn [snd] in P. destruct (Groups name g I) as [_ M]. rewrite M in P.
      apply filter_In in P as [P Lab]. apply lines_of_in in P as [P _].
      apply negb_true_iff in Lab. repeat split; assumption.
    + intros (I & Lab & Pos).
      assert (In (line_phase line) (Dict.keys (group_by_phase line_items))) as K
        by (apply Keys; now apply in_map).
      unfold Dict.keys in K. apply in_map_iff in K as ([name g] & E & K).
      cbn [fst] in E. subst name.
      exists (line_phase line, g). split; [exact K|].
      apply print_phase_material. cbn [snd]. split; [|exact Pos].
      destruct (Groups _ g K) as [_ M]. rewrite M.
      apply filter_In. split; [apply lines_of_in; now split|].
      now apply negb_true_iff. }
  assert (NoSummary : forall x,
    In x (flat_map print_phase (group_by_phase line_items)) ->
    (forall a b, x <> MaterialSummary a b) /\ (forall a, x <> TotalLine a)).
  { intros x I. apply in_flat_map in I as (entry & _ & P).
    apply print_phase_lines in P as (_ & NM & NT). split; assumption. }
  unfold print_detailed_estimate in *. unfold Qc_eq_bool in *.
  destruct (Qc_eq_dec (Summary.quality_multiplier totals) 0) as [Z|NZ];
    cbn [fst snd] in *.
  - split; [discriminate|]. intros _. split; [discriminate|].
    split; [intros a b I | intros a I];
      apply in_app_iff in I as [I|[I|[]]]; try discriminate I;
      apply NoSummary in I as [NM NT]; [eapply NM | eapply NT]; reflexivity.
  - split; [|contradiction]. intros _.
    split; [exact NZ|]. split; [exact Labor|]. split; [exact Material|].
    split; [intros a b | intros a]; rewrite !in_app_iff; cbn [In]; split.
    + intros [[I|[I|[]]]|[I|[I|[]]]]; try discriminate I.
      * apply NoSummary in I as [NM _]. exfalso. eapply NM. reflexivity.
      * injection I as <- <-. split; reflexivity.
    + intros [-> ->]. right. left. reflexivity.
    + intros [[I|[I|[]]]|[I|[I|[]]]]; try discriminate I.
      * apply NoSummary in I as [_ NT]. exfalso. eapply NT. reflexivity.
      * injection I as <-. reflexivity.
    + intros ->. right. right. left. reflexivity.
Qed.

Lemma printed_estimate_witness :
  Summary.quality_multiplier sample_summary <> 0
  /\ In (LaborLine prep_haul)
       (fst (print_detailed_estimate sample_lines sample_summary))
  /\ ~ In (MaterialLine prep_reused)
         (fst (print_detailed_estimate sample_lines sample_summary)).
Proof.
  destruct (proj1 (printed_estimate sample_lines sample_summary))
    as (NZ & Labor & Material & _).
  - vm_compute. reflexivity.
  - split; [exact NZ|]. split.
    + apply Labor. split; [|reflexivity]. right; right; left. reflexivity.
    + intros I. apply Material in I as (_ & _ & Pos).
      vm_compute in Pos. discriminate Pos.
Defined.

End ReportFacts.
